(** * Bergfex overview parsing: a shallow embedding

    The development follows [custom_components/bergfex/sensor.py]
    ([parse_overview_data]) and [custom_components/bergfex/config_flow.py]
    ([get_ski_areas]).  Python values, the BeautifulSoup tree and the effects
    of the two functions (logging, exceptions) are modelled explicitly; the
    page text itself is represented by the tree that
    [BeautifulSoup(html, "html.parser")] builds from it.

    The second half covers what is built around the two functions: the
    sensors and the set-up of an entry ([BergfexSensor], [async_setup_entry]),
    the update of a coordinator, the steps of the configuration flow, and the
    copy of the parser in [custom_components/bergfex/test_parser.py]. *)

From Stdlib Require Import String Ascii ZArith List Bool Lia DecimalString.
From stdpp Require Import base option list gmap strings fin_maps.

Local Open Scope string_scope.
Local Open Scope Z_scope.

(** ** Python strings

    A [str] is a sequence of code points; the embedding keeps the code points
    below 256, one per [ascii].  The character classes are the ones Python's
    [str.isspace], [str.isdigit], [str.isprintable] and [int] use on that
    range; what is stated below of a class is stated of these code points. *)

Module PyStr.

Definition ord (c : ascii) : nat := nat_of_ascii c.

Definition between (lo hi : nat) (c : ascii) : bool :=
  (lo <=? ord c)%nat && (ord c <=? hi)%nat.

(** [c.isspace()]: TAB..CR, FS..US, SPACE, NEL, NBSP. *)
Definition isspace (c : ascii) : bool :=
  between 9 13 c || between 28 32 c || (ord c =? 133)%nat || (ord c =? 160)%nat.

(** The decimal digits [0]..[9]. *)
Definition isdecimal (c : ascii) : bool := between 48 57 c.

(** [c.isdigit()]: the decimal digits and the superscripts 2, 3 and 1. *)
Definition isdigit_char (c : ascii) : bool :=
  isdecimal c || (ord c =? 178)%nat || (ord c =? 179)%nat || (ord c =? 185)%nat.

Fixpoint all (p : ascii -> bool) (s : string) : bool :=
  match s with
  | EmptyString => true
  | String c s' => p c && all p s'
  end.

Definition is_empty (s : string) : bool :=
  match s with EmptyString => true | String _ _ => false end.

(** [s.isdigit()]: at least one character, all of them digits. *)
Definition isdigit (s : string) : bool := negb (is_empty s) && all isdigit_char s.

Fixpoint lstrip (s : string) : string :=
  match s with
  | String c s' => if isspace c then lstrip s' else s
  | EmptyString => EmptyString
  end.

Fixpoint rstrip (s : string) : string :=
  match s with
  | EmptyString => EmptyString
  | String c s' =>
      let r := rstrip s' in
      if is_empty r && isspace c then EmptyString else String c r
  end.

(** [s.strip()] *)
Definition strip (s : string) : string := rstrip (lstrip s).

(** [sub in s] *)
Fixpoint contains (sub s : string) : bool :=
  String.prefix sub s ||
  match s with
  | EmptyString => false
  | String _ s' => contains sub s'
  end.

(** [s.split(sep)] for a one-character separator. *)
Fixpoint split (sep : ascii) (s : string) : list string :=
  match s with
  | EmptyString => [EmptyString]
  | String c s' =>
      if Ascii.eqb c sep then EmptyString :: split sep s'
      else match split sep s' with
           | p :: ps => String c p :: ps
           | [] => [String c EmptyString]
           end
  end.

Definition digit_val (c : ascii) : Z := Z.of_nat (ord c) - 48.

(** The value of a string of decimal digits, most significant first. *)
Fixpoint decimal_from (acc : Z) (s : string) : Z :=
  match s with
  | EmptyString => acc
  | String c s' => decimal_from (10 * acc + digit_val c) s'
  end.

Definition decimal (s : string) : Z := decimal_from 0 s.

(** Whitespace that [int] skips around the literal: the ASCII blanks, and
    NEL and NBSP, which are turned into blanks first. *)
Definition int_space (c : ascii) : bool :=
  between 9 13 c || (ord c =? 32)%nat || (ord c =? 133)%nat || (ord c =? 160)%nat.

Fixpoint skip_int_space (s : string) : string :=
  match s with
  | String c s' => if int_space c then skip_int_space s' else s
  | EmptyString => EmptyString
  end.

(** The digits of an [int] literal after the first one: a digit, or one
    underscore followed by a digit.  Returns the value read, the number of
    digits it has and what is left; what is left starts with the
    underscore when an underscore is not followed by a digit. *)
Fixpoint scan_digits (acc : Z) (digits : nat) (s : string) : Z * nat * string :=
  match s with
  | EmptyString => (acc, digits, s)
  | String c s' =>
      if isdecimal c then scan_digits (10 * acc + digit_val c) (S digits) s'
      else if Ascii.eqb c "_" then
        match s' with
        | String d s'' =>
            if isdecimal d then scan_digits (10 * acc + digit_val d) (S digits) s''
            else (acc, digits, s)
        | EmptyString => (acc, digits, s)
        end
      else (acc, digits, s)
  end.

(** [sys.int_info.default_max_str_digits] *)
Definition max_str_digits : nat := 4300.

(** What [int(s)] does in base ten: it returns a number, or raises
    [ValueError] for a text that is no literal, or for a literal of more
    than [max_str_digits] digits. *)
Inductive int_outcome : Type :=
| Int (n : Z)
| InvalidLiteral
| TooManyDigits (digits : nat).

(** [int(s)]: blanks, a sign, the digits, blanks.  A misplaced underscore is
    found while the digits are scanned, before they are counted; what
    follows the digits is looked at after the count. *)
Definition read_int (s : string) : int_outcome :=
  let s1 := skip_int_space s in
  let '(neg, s2) :=
    match s1 with
    | String c r =>
        if Ascii.eqb c "-" then (true, r)
        else if Ascii.eqb c "+" then (false, r)
        else (false, s1)
    | EmptyString => (false, s1)
    end in
  match s2 with
  | String c r =>
      if isdecimal c then
        let '(v, digits, rest) := scan_digits (digit_val c) 1 r in
        if match rest with String u _ => Ascii.eqb u "_" | EmptyString => false end
        then InvalidLiteral
        else if (max_str_digits <? digits)%nat then TooManyDigits digits
        else if all int_space rest then Int (if neg then - v else v)
        else InvalidLiteral
      else InvalidLiteral
  | EmptyString => InvalidLiteral
  end.

(** The value [int(s)] returns; [None] stands for [ValueError]. *)
Definition parse_int (s : string) : option Z :=
  match read_int s with
  | Int n => Some n
  | InvalidLiteral | TooManyDigits _ => None
  end.

(** [c.isprintable()] *)
Definition isprintable (c : ascii) : bool :=
  between 32 126 c || (between 161 255 c && negb (ord c =? 173)%nat).

Definition hex_digit (n : nat) : ascii :=
  nth n ["0"; "1"; "2"; "3"; "4"; "5"; "6"; "7"; "8"; "9"; "a"; "b"; "c"; "d"; "e";
         "f"]%char "0"%char.

(** A character of [repr(s)] between the quotes [quote]. *)
Definition repr_char (quote c : ascii) : string :=
  if Ascii.eqb c quote || Ascii.eqb c "\" then String "\" (String c EmptyString)
  else if (ord c =? 9)%nat then "\t"
  else if (ord c =? 10)%nat then "\n"
  else if (ord c =? 13)%nat then "\r"
  else if isprintable c then String c EmptyString
  else String "\" (String "x" (String (hex_digit (ord c / 16))
                                  (String (hex_digit (ord c mod 16)) EmptyString))).

Fixpoint repr_chars (quote : ascii) (s : string) : string :=
  match s with
  | EmptyString => EmptyString
  | String c s' => repr_char quote c +:+ repr_chars quote s'
  end.

(** [repr(s)]: in single quotes, or in double quotes when [s] has a single
    quote and no double quote. *)
Definition repr (s : string) : string :=
  let quote : ascii :=
    if contains "'" s && negb (contains (String "034" EmptyString) s)
    then "034"%char else "'"%char in
  String quote (repr_chars quote s +:+ String quote EmptyString).

(** The text of the [ValueError] that [int(s)] raises. *)
Definition int_error (s : string) : string :=
  match read_int s with
  | TooManyDigits digits =>
      "Exceeds the limit (4300 digits) for integer string conversion: value has "
      +:+ NilZero.string_of_uint (Nat.to_uint digits)
      +:+ " digits; use sys.set_int_max_str_digits() to increase the limit"
  | Int _ | InvalidLiteral =>
      "invalid literal for int() with base 10: " +:+ String.substring 0 200 (repr s)
  end.

End PyStr.

(** ** Python values, exceptions and effects *)

(** The values stored in a record: [None], a [str] or an [int]. *)
Inductive py_val : Type :=
| PNone
| PStr (s : string)
| PInt (n : Z).

Global Instance py_val_eq_dec : EqDecision py_val.
Proof. solve_decision. Defined.

(** The exceptions: the ones the functions can meet themselves,
    [UpdateFailed] of Home Assistant, [ExternalError] for any other instance
    of [Exception] that a collaborator (the HTTP session, the HTML parser,
    Home Assistant) raises, and [CancelledError] for [asyncio.CancelledError],
    raised into a task that is cancelled while it awaits.  The last is a
    [BaseException] that is not an [Exception], as are [KeyboardInterrupt]
    and [SystemExit], for which it stands as well. *)
Inductive exn : Type :=
| ValueError (msg : string)
| KeyError (key : string)
| IndexError (msg : string)
| ExternalError (msg : string)
| UpdateFailed (msg : string)
| CancelledError (msg : string).

Inductive level : Type := DEBUG | WARNING | ERROR.

(** A calendar date and a [datetime] to the minute. *)
Record date : Type := Date { year : Z; month : Z; day : Z }.
Record datetime : Type := Datetime { date_of : date; hour : Z; minute : Z }.

(** What a call can observe or change outside its arguments: the wall clock
    ([datetime.now()]) and the records handed to [_LOGGER]. *)
Record world : Type := World {
  clock : datetime;
  log : list (level * string)
}.

Inductive outcome (A : Type) : Type :=
| Return (a : A)
| Raise (e : exn).
Arguments Return {A} a.
Arguments Raise {A} e.

Global Instance exn_eq_dec : EqDecision exn.
Proof. solve_decision. Defined.

Global Instance level_eq_dec : EqDecision level.
Proof. solve_decision. Defined.

Global Instance date_eq_dec : EqDecision date.
Proof. solve_decision. Defined.

Global Instance datetime_eq_dec : EqDecision datetime.
Proof. solve_decision. Defined.

Global Instance world_eq_dec : EqDecision world.
Proof. solve_decision. Defined.

Global Instance outcome_eq_dec {A : Type} `{EqDecision A} : EqDecision (outcome A).
Proof. solve_decision. Defined.

(** A computation runs in a world and either returns or raises. *)
Definition M (A : Type) : Type := world -> outcome A * world.

Global Instance M_ret : MRet M := fun A a w => (Return a, w).

Global Instance M_bind : MBind M := fun A B f m w =>
  match m w with
  | (Return a, w') => f a w'
  | (Raise e, w') => (Raise e, w')
  end.

Definition raise {A : Type} (e : exn) : M A := fun w => (Raise e, w).

(** [try: body except <caught>: handler]; an exception outside [caught]
    propagates. *)
Definition try_except {A : Type} (body : M A) (caught : exn -> bool)
    (handler : exn -> M A) : M A := fun w =>
  match body w with
  | (Return a, w') => (Return a, w')
  | (Raise e, w') => if caught e then handler e w' else (Raise e, w')
  end.

Definition is_ValueError (e : exn) : bool :=
  match e with ValueError _ => true | _ => false end.

(** [except Exception] *)
Definition is_Exception (e : exn) : bool :=
  match e with CancelledError _ => false | _ => true end.

(** [str(e)]; the text of a [KeyError] is the [repr] of its key. *)
Definition str_of_exn (e : exn) : string :=
  match e with
  | KeyError key => PyStr.repr key
  | ValueError m | IndexError m | ExternalError m | UpdateFailed m
  | CancelledError m => m
  end.

(** [_LOGGER.<level>(fmt, arg)] with the argument already substituted. *)
Definition logger (lvl : level) (msg : string) : M unit := fun w =>
  (Return tt, {| clock := clock w; log := log w ++ [(lvl, msg)] |}).

(** [l[i]] on a list *)
Definition list_getitem {A : Type} (l : list A) (i : nat) : M A :=
  match l !! i with
  | Some x => mret x
  | None => raise (IndexError "list index out of range")
  end.

(** [int(s)] *)
Definition int (s : string) : M Z :=
  match PyStr.parse_int s with
  | Some n => mret n
  | None => raise (ValueError (PyStr.int_error s))
  end.

(** [for x in xs: acc = body(x, acc)] *)
Fixpoint for_each {A S : Type} (xs : list A) (body : A -> S -> M S) (acc : S) : M S :=
  match xs with
  | [] => mret acc
  | x :: xs' => acc' ← body x acc; for_each xs' body acc'
  end.

(** ** The BeautifulSoup tree

    A [Tag] has a name, its [class] attribute as the list of tokens the tree
    builder splits it into (empty when there is none), its other attributes
    as a dictionary of strings, and its children.  The soup itself is the
    tag named [[document]]. *)

Inductive tag : Type :=
| Tag (name : string) (class_ : list string) (attrs : gmap string string)
      (contents : list node)
with node : Type :=
| NavigableString (s : string)
| Element (t : tag).

Module Soup.

Definition name (t : tag) : string := match t with Tag n _ _ _ => n end.
Definition class_ (t : tag) : list string := match t with Tag _ c _ _ => c end.
Definition attrs (t : tag) : gmap string string := match t with Tag _ _ a _ => a end.
Definition contents (t : tag) : list node := match t with Tag _ _ _ cs => cs end.

(** The tags below [t], in document order. *)
Fixpoint descendants (t : tag) : list tag :=
  match t with
  | Tag _ _ _ cs =>
      flat_map (fun c => match c with
                         | NavigableString _ => []
                         | Element t' => t' :: descendants t'
                         end) cs
  end.

(** [t.text]: the strings below [t], concatenated. *)
Fixpoint text (t : tag) : string :=
  match t with
  | Tag _ _ _ cs =>
      fold_right (fun c acc => match c with
                               | NavigableString s => s
                               | Element t' => text t'
                               end +:+ acc) "" cs
  end.

(** [t.find_all(name)] *)
Definition find_all (nm : string) (t : tag) : list tag :=
  filter (fun d => name d = nm) (descendants t).

(** [t.find(name)] *)
Definition find (nm : string) (t : tag) : option tag := head (find_all nm t).

(** [t.find(name, class_=c)]: a tag matches when [c] is one of its class
    tokens. *)
Definition find_class (nm c : string) (t : tag) : option tag :=
  head (filter (fun d => c ∈ class_ d) (find_all nm t)).

(** [t.get(key)] *)
Definition get (t : tag) (key : string) : option string := attrs t !! key.

(** [t[key]] *)
Definition getitem (t : tag) (key : string) : M string :=
  match attrs t !! key with
  | Some v => mret v
  | None => raise (KeyError key)
  end.

End Soup.

(** ** [parse_overview_data] (sensor.py) *)

(** Truth value of [t.get(key)]: [None] and the empty string are false. *)
Definition truthy (v : option string) : bool :=
  match v with
  | Some s => negb (PyStr.is_empty s)
  | None => false
  end.

(** The value [t.get(key)] leaves in a dictionary. *)
Definition of_get (v : option string) : py_val :=
  match v with
  | Some s => PStr s
  | None => PNone
  end.

(** [v not in ("-", "")] *)
Definition not_placeholder (v : py_val) : Prop := v ∉ [PStr "-"; PStr ""].

Global Instance not_placeholder_dec v : Decision (not_placeholder v).
Proof. unfold not_placeholder. apply _. Defined.

(** The status written for a marker [div] (lines 154-160). *)
Definition status_of_classes (classes : list string) : string :=
  if bool_decide ("icon-status1" ∈ classes) then "Open"
  else if bool_decide ("icon-status0" ∈ classes) then "Closed"
  else "Unknown".

(** Lines 162-181: the two counts read from the text of the lift cell. *)
Definition parse_lifts (lifts_raw : string) : M (option Z * option Z) :=
  let lifts_open := None in
  let lifts_total := None in
  if PyStr.contains "/" lifts_raw then
    let parts := PyStr.split "/" lifts_raw in
    if (length parts =? 2)%nat then
      lifts_open ←
        try_except
          (p ← list_getitem parts 0; n ← int (PyStr.strip p); mret (Some n))
          is_ValueError
          (fun _ =>
             p ← list_getitem parts 0;
             logger DEBUG ("Could not parse lifts_open_count: " +:+ PyStr.strip p);;
             mret lifts_open);
      lifts_total ←
        try_except
          (p ← list_getitem parts 1; n ← int (PyStr.strip p); mret (Some n))
          is_ValueError
          (fun _ =>
             p ← list_getitem parts 1;
             logger DEBUG ("Could not parse lifts_total_count: " +:+ PyStr.strip p);;
             mret lifts_total);
      mret (lifts_open, lifts_total)
    else mret (lifts_open, lifts_total)
  else if PyStr.isdigit lifts_raw then
    lifts_open ←
      try_except
        (n ← int lifts_raw; mret (Some n))
        is_ValueError
        (fun _ =>
           logger DEBUG ("Could not parse lifts_open_count: " +:+ lifts_raw);;
           mret lifts_open);
    mret (lifts_open, lifts_total)
  else mret (lifts_open, lifts_total).

(** Lines 134-195: the body of the loop over the rows. *)
Definition parse_overview_row (row : tag)
    (results : gmap string (gmap string py_val))
    : M (gmap string (gmap string py_val)) :=
  let cols := Soup.find_all "td" row in
  if (length cols <? 6)%nat then mret results else
  c0 ← list_getitem cols 0;
  match Soup.find "a" c0 with
  | None => mret results
  | Some link =>
    if negb (truthy (Soup.get link "href")) then mret results else
    area_path ← Soup.getitem link "href";
    let area_data : gmap string py_val := ∅ in
    c1 ← list_getitem cols 1;
    let area_data := <["snow_valley" := of_get (Soup.get c1 "data-value")]> area_data in
    c2 ← list_getitem cols 2;
    let area_data := <["snow_mountain" := of_get (Soup.get c2 "data-value")]> area_data in
    c3 ← list_getitem cols 3;
    let area_data := <["new_snow" := of_get (Soup.get c3 "data-value")]> area_data in
    lifts_cell ← list_getitem cols 4;
    let area_data :=
      match Soup.find_class "div" "icon-status" lifts_cell with
      | Some status_div =>
          <["status" := PStr (status_of_classes (Soup.class_ status_div))]> area_data
      | None => area_data
      end in
    let lifts_raw := PyStr.strip (Soup.text lifts_cell) in
    '(lifts_open, lifts_total) ← parse_lifts lifts_raw;
    let area_data :=
      match lifts_open with
      | Some n => <["lifts_open_count" := PInt n]> area_data
      | None => area_data
      end in
    let area_data :=
      match lifts_total with
      | Some n => <["lifts_total_count" := PInt n]> area_data
      | None => area_data
      end in
    c5 ← list_getitem cols 5;
    area_data ←
      (if bool_decide ("data-value" ∈ dom (Soup.attrs c5)) then
         v ← Soup.getitem c5 "data-value";
         mret (<["last_update" := PStr v]> area_data)
       else
         mret (<["last_update" := PStr (PyStr.strip (Soup.text c5))]> area_data));
    mret (<[area_path := filter (fun kv => not_placeholder kv.2) area_data]> results)
  end.

Definition parse_overview_data (soup : tag) : M (gmap string (gmap string py_val)) :=
  let results : gmap string (gmap string py_val) := ∅ in
  match Soup.find_class "table" "snow" soup with
  | None =>
      logger WARNING "Could not find overview data table with class 'snow'";;
      mret ∅
  | Some table =>
      for_each (drop 1 (Soup.find_all "tr" table)) parse_overview_row results
  end.

(** ** [get_ski_areas] (config_flow.py) *)

(** Lines 35-41: the body of the loop over the rows. *)
Definition list_resorts_row (row : tag) (ski_areas : gmap string string)
    : M (gmap string string) :=
  match Soup.find "a" row with
  | None => mret ski_areas
  | Some link =>
      if truthy (Soup.get link "href") then
        let name := PyStr.strip (Soup.text link) in
        url_path ← Soup.getitem link "href";
        if negb (PyStr.is_empty name) && negb (PyStr.is_empty url_path)
        then mret (<[url_path := name]> ski_areas)
        else mret ski_areas
      else mret ski_areas
  end.

(** Lines 26-42: what [get_ski_areas] does with the tree of the page, the
    operation the specification calls [list_resorts]. *)
Definition list_resorts (soup : tag) : M (gmap string string) :=
  match Soup.find_class "table" "snow" soup with
  | None =>
      logger ERROR "Could not find ski area table with class 'snow' on overview page.";;
      mret ∅
  | Some table =>
      let ski_areas : gmap string string := ∅ in
      for_each (drop 1 (Soup.find_all "tr" table)) list_resorts_row ski_areas
  end.

Section ConfigFlow.

(** [const.BASE_URL] *)
Variable BASE_URL : string.

(** Lines 19-24: the session's GET of a URL, [raise_for_status] and the
    body text; any of them may raise. *)
Variable session_get_text : string -> M string.

(** Line 25: the tree builder. *)
Variable BeautifulSoup : string -> M tag.

Definition get_ski_areas (country_path : string) : M (gmap string string) :=
  try_except
    (html ← session_get_text (BASE_URL +:+ country_path);
     soup ← BeautifulSoup html;
     list_resorts soup)
    is_Exception
    (fun exc =>
       logger ERROR ("Error fetching ski areas: " +:+ str_of_exn exc);;
       mret ∅).

End ConfigFlow.

(** ** What the loops compute

    The loop bodies above thread the world and may raise; the definitions
    below give the dictionaries they build as plain functions of the rows.
    [parse_overview_row_run] and [list_resorts_row_run] prove that the loop
    bodies compute them. *)

(** Lines 138-142: the key of a row, read from its first cell. *)
Definition link_target (c0 : tag) : option string :=
  link ← Soup.find "a" c0;
  href ← Soup.get link "href";
  if PyStr.is_empty href then None else Some href.

(** Lines 134-142: the key under which a row is stored, [None] for a row the
    loop skips. *)
Definition row_target (row : tag) : option string :=
  match Soup.find_all "td" row with
  | c0 :: _ :: _ :: _ :: _ :: _ :: _ => link_target c0
  | _ => None
  end.

(** Lines 162-181 without the log. *)
Definition lifts_of (lifts_raw : string) : option Z * option Z :=
  if PyStr.contains "/" lifts_raw then
    match PyStr.split "/" lifts_raw with
    | [a; b] => (PyStr.parse_int (PyStr.strip a), PyStr.parse_int (PyStr.strip b))
    | _ => (None, None)
    end
  else if PyStr.isdigit lifts_raw then (PyStr.parse_int lifts_raw, None)
  else (None, None).

(** Lines 188-192: the value assigned to [last_update]. *)
Definition last_update_of (c5 : tag) : string :=
  match Soup.get c5 "data-value" with
  | Some v => v
  | None => PyStr.strip (Soup.text c5)
  end.

(** Lines 143-192: [area_data] before the clean-up. *)
Definition area_data_of (c1 c2 c3 lifts_cell c5 : tag) : gmap string py_val :=
  let d : gmap string py_val :=
    <["new_snow" := of_get (Soup.get c3 "data-value")]>
      (<["snow_mountain" := of_get (Soup.get c2 "data-value")]>
         (<["snow_valley" := of_get (Soup.get c1 "data-value")]> ∅)) in
  let d :=
    match Soup.find_class "div" "icon-status" lifts_cell with
    | Some status_div => <["status" := PStr (status_of_classes (Soup.class_ status_div))]> d
    | None => d
    end in
  let lifts := lifts_of (PyStr.strip (Soup.text lifts_cell)) in
  let d := match lifts.1 with Some n => <["lifts_open_count" := PInt n]> d | None => d end in
  let d := match lifts.2 with Some n => <["lifts_total_count" := PInt n]> d | None => d end in
  <["last_update" := PStr (last_update_of c5)]> d.

(** Line 195: the record stored for a row. *)
Definition row_record (row : tag) : gmap string py_val :=
  match Soup.find_all "td" row with
  | _ :: c1 :: c2 :: c3 :: c4 :: c5 :: _ =>
      filter (fun kv => not_placeholder kv.2) (area_data_of c1 c2 c3 c4 c5)
  | _ => ∅
  end.

Definition overview_step (results : gmap string (gmap string py_val)) (row : tag)
    : gmap string (gmap string py_val) :=
  match row_target row with
  | Some path => <[path := row_record row]> results
  | None => results
  end.

(** The rows after the header row of the first [table.snow]. *)
Definition data_rows (soup : tag) : list tag :=
  match Soup.find_class "table" "snow" soup with
  | Some table => drop 1 (Soup.find_all "tr" table)
  | None => []
  end.

(** The dictionary [parse_overview_data] returns. *)
Definition overview_of (soup : tag) : gmap string (gmap string py_val) :=
  fold_left overview_step (data_rows soup) ∅.

(** config_flow.py, lines 35-41: the entry a row contributes. *)
Definition row_entry (row : tag) : option (string * string) :=
  link ← Soup.find "a" row;
  href ← Soup.get link "href";
  let name := PyStr.strip (Soup.text link) in
  if PyStr.is_empty href || PyStr.is_empty name then None else Some (href, name).

Definition directory_step (ski_areas : gmap string string) (row : tag)
    : gmap string string :=
  match row_entry row with
  | Some (url_path, name) => <[url_path := name]> ski_areas
  | None => ski_areas
  end.

(** The dictionary [list_resorts] returns. *)
Definition directory_of (soup : tag) : gmap string string :=
  fold_left directory_step (data_rows soup) ∅.

(** The value left in a record by the clean-up of line 195. *)
Definition cleaned (v : py_val) : option py_val :=
  if decide (not_placeholder v) then Some v else None.

(** ** The time of a trail report (cross-country pages) *)

Module CrossCountry.

(** [c.lower()] on the code points below 256. *)
Definition lower_char (c : ascii) : ascii :=
  if PyStr.between 65 90 c
     || (PyStr.between 192 222 c && negb (PyStr.ord c =? 215)%nat)
  then ascii_of_nat (PyStr.ord c + 32)
  else c.

Fixpoint lower (s : string) : string :=
  match s with
  | EmptyString => EmptyString
  | String c s' => String (lower_char c) (lower s')
  end.

(** What is left of [s] after the prefix [p]. *)
Fixpoint after_prefix (p s : string) : option string :=
  match p, s with
  | EmptyString, _ => Some s
  | String a p', String b s' => if Ascii.eqb a b then after_prefix p' s' else None
  | String _ _, EmptyString => None
  end.

Definition two_digits (a b : ascii) : option Z :=
  if PyStr.isdecimal a && PyStr.isdecimal b
  then Some (10 * PyStr.digit_val a + PyStr.digit_val b)
  else None.

(** [HH:MM] *)
Definition parse_clock (s : string) : option (Z * Z) :=
  match s with
  | String h1 (String h2 (String ":" (String m1 (String m2 EmptyString)))) =>
      h ← two_digits h1 h2;
      m ← two_digits m1 m2;
      if (h <? 24) && (m <? 60) then Some (h, m) else None
  | _ => None
  end.

Section Normalizer.

(** The reading of an absolute date, whose format the specification
    leaves open. *)
Variable parse_absolute : date -> string -> option datetime.

(** Modelled from the spec: the Date Normalizer of parser.py, which is
    not among the sources,
    [parse_relative_or_absolute(text, today_keyword, reference_date)].
    The text is matched against the keyword for "today" without regard
    to case; if the keyword is present it stands for the reference date
    and the rest is read as [, HH:MM]; otherwise the text is read as an
    absolute date; a text that cannot be read gives none. *)
Definition parse_relative_or_absolute (text today_keyword : string)
    (reference_date : date) : option datetime :=
  let t := lower (PyStr.strip text) in
  let kw := lower today_keyword in
  if PyStr.contains kw t then
    rest ← after_prefix kw t;
    rest ← after_prefix "," rest;
    '(h, m) ← parse_clock (PyStr.lstrip rest);
    Some {| date_of := reference_date; hour := h; minute := m |}
  else parse_absolute reference_date text.

End Normalizer.

End CrossCountry.

(** ** Pages used below *)

Definition cell (attrs : gmap string string) (cs : list node) : tag :=
  Tag "td" [] attrs cs.

Definition row_of (cells : list tag) : tag :=
  Tag "tr" [] ∅ (map Element cells).

Definition header_row : tag :=
  Tag "tr" [] ∅ [Element (Tag "th" [] ∅ [NavigableString "Resort"])].

(** A page whose only table is [<table class="snow">] with a header row and
    the given rows. *)
Definition page (rows : list tag) : tag :=
  Tag "[document]" [] ∅
    [Element (Tag "table" ["snow"] ∅ (Element header_row :: map Element rows))].

(** [<td><a href="/x">text</a></td>] *)
Definition link_cell (text : string) : tag :=
  cell ∅ [Element (Tag "a" [] {[ "href" := "/x" ]} [NavigableString text])].

(** [<td data-value="v"></td>] *)
Definition value_cell (v : string) : tag := cell {[ "data-value" := v ]} [].

Definition open_marker : tag := Tag "div" ["icon-status"; "icon-status1"] ∅ [].
Definition closed_marker : tag := Tag "div" ["icon-status"; "icon-status0"] ∅ [].

(** [<td><div class="..."></div>text</td>] *)
Definition lift_cell (marker : tag) (text : string) : tag :=
  cell ∅ [Element marker; NavigableString text].

(** [<td>text</td>] *)
Definition text_cell (text : string) : tag := cell ∅ [NavigableString text].

(** Scenario A of the specification, with the markers of the code: the cells
    carry [data-value], the open marker is [icon-status1]. *)
Definition scenario_A_row : tag :=
  row_of [ link_cell "Resort X"; value_cell "45"; value_cell "-"; value_cell "5";
           lift_cell open_marker "3/8"; value_cell "2024-01-15T08:00" ].

Definition scenario_A : tag := page [scenario_A_row].

(** Scenario D: the lift cell reads [abc]; the last cell has no attribute. *)
Definition scenario_D_row : tag :=
  row_of [ link_cell "Resort X"; value_cell "45"; value_cell "120"; value_cell "5";
           lift_cell closed_marker " abc "; text_cell " Today, 08:00 " ].

(** A row whose valley cell has no [data-value] attribute, whose mountain
    cell has the dash and whose new-snow cell has the empty string. *)
Definition missing_attribute_row : tag :=
  row_of [ link_cell "Resort X"; text_cell "45 cm"; value_cell "-"; value_cell "";
           text_cell "3/8"; value_cell "2024-01-15T08:00" ].

Definition missing_attribute_page : tag := page [missing_attribute_row].

(** A text of [n] nines, and a row whose lift cell holds 4301 of them: a
    bare integer with one digit more than [int] reads. *)
Fixpoint nines (n : nat) : string :=
  match n with
  | O => EmptyString
  | S n' => String "9" (nines n')
  end.

Definition long_count_row : tag :=
  row_of [ link_cell "Resort X"; value_cell "45"; value_cell "-"; value_cell "5";
           lift_cell open_marker (nines 4301); value_cell "2024-01-15T08:00" ].

(** A row whose first cell has two links: the first has no target, the
    second has one. *)
Definition two_link_cell : tag :=
  cell ∅ [ Element (Tag "a" [] ∅ [NavigableString "Resort Y"]);
           Element (Tag "a" [] {[ "href" := "/y" ]} [NavigableString "details"]) ].

Definition two_link_row : tag :=
  row_of [ two_link_cell; value_cell "45"; value_cell "-"; value_cell "5";
           lift_cell open_marker "3/8"; value_cell "2024-01-15T08:00" ].

Definition two_link_page : tag := page [two_link_row].

(** Two rows for the same resort. *)
Definition duplicate_page : tag := page [scenario_A_row; scenario_D_row].

(** A row of seven cells: the sixth and the seventh both carry a
    [data-value]. *)
Definition seven_cell_row : tag :=
  row_of [ link_cell "Resort X"; value_cell "45"; value_cell "120"; value_cell "5";
           text_cell "3/8"; value_cell "2024-01-15T08:00";
           value_cell "2024-01-16T09:00" ].



(** A page whose table is not the snow table. *)
Definition other_table_page : tag :=
  Tag "[document]" [] ∅
    [Element (Tag "table" ["rain"] ∅ [Element header_row; Element scenario_A_row])].

Definition noon (d : Z) : datetime :=
  {| date_of := {| year := 2024; month := 1; day := d |}; hour := 12; minute := 0 |}.

Definition w0 : world := {| clock := noon 15; log := [] |}.
Definition w1 : world := {| clock := noon 16; log := [(DEBUG, "earlier call")] |}.

(** ** More of Python: string methods, dictionaries, state *)

Module Py.

(** [s.lower()] on the code points below 256. *)
Definition lower (s : string) : string := CrossCountry.lower s.

(** [s.replace(old, new)] for one-character [old] and [new]. *)
Fixpoint replace (old new : ascii) (s : string) : string :=
  match s with
  | EmptyString => EmptyString
  | String c s' => String (if Ascii.eqb c old then new else c) (replace old new s')
  end.

Fixpoint lstrip_char (c : ascii) (s : string) : string :=
  match s with
  | String d s' => if Ascii.eqb d c then lstrip_char c s' else s
  | EmptyString => EmptyString
  end.

Fixpoint rstrip_char (c : ascii) (s : string) : string :=
  match s with
  | EmptyString => EmptyString
  | String d s' =>
      let r := rstrip_char c s' in
      if PyStr.is_empty r && Ascii.eqb d c then EmptyString else String d r
  end.

(** [s.strip(c)] for a one-character [c]. *)
Definition strip_char (c : ascii) (s : string) : string :=
  rstrip_char c (lstrip_char c s).

(** [l[-1]] *)
Definition list_last {A : Type} (l : list A) : M A :=
  match last l with
  | Some x => mret x
  | None => raise (IndexError "list index out of range")
  end.

(** [d[key]] on a dictionary *)
Definition dict_getitem {V : Type} (d : gmap string V) (key : string) : M V :=
  match d !! key with
  | Some v => mret v
  | None => raise (KeyError key)
  end.

(** [d.get(key, default)] *)
Definition dict_get {V : Type} (d : gmap string V) (key : string) (default : V) : V :=
  match d !! key with
  | Some v => v
  | None => default
  end.

End Py.

(** A computation over a mutable object [S] besides the world: what it has
    written to the object stays written when it raises. *)
Definition St (S A : Type) : Type := S -> world -> outcome A * S * world.

Global Instance St_ret {S : Type} : MRet (St S) := fun A a s w => (Return a, s, w).

Global Instance St_bind {S : Type} : MBind (St S) := fun A B f m s w =>
  match m s w with
  | (Return a, s', w') => f a s' w'
  | (Raise e, s', w') => (Raise e, s', w')
  end.

(** A computation that does not touch the object. *)
Definition lift {S A : Type} (m : M A) : St S A := fun s w =>
  let '(o, w') := m w in (o, s, w').

Definition get_state {S : Type} : St S S := fun s w => (Return s, s, w).

Definition modify {S : Type} (f : S -> S) : St S unit := fun s w => (Return tt, f s, w).

(** ** The sensors (sensor.py) *)

(** [SensorStateClass]: the one member the integration uses. *)
Inductive SensorStateClass : Type := MEASUREMENT.

(** The attributes [BergfexSensor.__init__] sets, the coordinator apart. *)
Record BergfexSensor : Type := {
  _area_name : string;
  _area_path : string;
  _config_url : string;
  _sensor_name : string;
  _data_key : string;
  _attr_icon : option string;
  _attr_native_unit_of_measurement : option string;
  _attr_state_class : option SensorStateClass;
  _attr_unique_id : string;
  _attr_name : string
}.

(** The coordinator of a country: its name, the path its update method
    fetches, and the minutes between two updates. *)
Record DataUpdateCoordinator : Type := {
  coordinator_name : string;
  coordinator_country_path : string;
  update_interval : Z
}.

(** [hass.data[DOMAIN][COORDINATORS]] and the entities handed to
    [async_add_entities]. *)
Record hass_data : Type := {
  coordinators : gmap string DataUpdateCoordinator;
  entities : list BergfexSensor
}.

(** The country of the entries made before the country was stored: the
    string [Österreich], its first letter being the code point 214. *)
Definition default_country : string := String (ascii_of_nat 214) "sterreich".

(** [SCAN_INTERVAL], in minutes. *)
Definition SCAN_INTERVAL : Z := 30.

Section Sensor.

(** [const.BASE_URL], [const.CONF_SKI_AREA], [const.CONF_COUNTRY] and
    [const.COUNTRIES] *)
Variable BASE_URL : string.
Variable CONF_SKI_AREA : string.
Variable CONF_COUNTRY : string.
Variable COUNTRIES : gmap string string.

(** The session's GET of a URL with [raise_for_status] and the body text
    (lines 53-55), and the tree builder (line 125). *)
Variable session_get_text : string -> M string.
Variable BeautifulSoup : string -> M tag.

(** [coordinator.async_config_entry_first_refresh()] *)
Variable async_config_entry_first_refresh : DataUpdateCoordinator -> M unit.

(** Lines 49-58: the update method of a coordinator. *)
Definition async_update_data (country_path : string)
    : M (gmap string (gmap string py_val)) :=
  try_except
    (html ← session_get_text (BASE_URL +:+ country_path);
     soup ← BeautifulSoup html;
     parse_overview_data soup)
    is_Exception
    (fun err =>
       raise (UpdateFailed ("Error communicating with Bergfex: " +:+ str_of_exn err))).

(** [BergfexSensor.__init__] (lines 203-224); [entry_data] is [entry.data]. *)
Definition BergfexSensor_init (entry_data : gmap string string)
    (sensor_name data_key : string) (icon unit : option string)
    (state_class : option SensorStateClass) : M BergfexSensor :=
  area_name ← Py.dict_getitem entry_data "name";
  area_path ← Py.dict_getitem entry_data CONF_SKI_AREA;
  mret {| _area_name := area_name;
          _area_path := area_path;
          _config_url := BASE_URL +:+ area_path;
          _sensor_name := sensor_name;
          _data_key := data_key;
          _attr_icon := icon;
          _attr_native_unit_of_measurement := unit;
          _attr_state_class := state_class;
          _attr_unique_id :=
            "bergfex_" +:+ Py.replace " " "_" (Py.lower area_name)
            +:+ "_" +:+ Py.replace " " "_" (Py.lower sensor_name);
          _attr_name := area_name +:+ " " +:+ sensor_name |}.

(** Lines 72-119: the seven sensors of an entry. *)
Definition new_sensors (entry_data : gmap string string) : M (list BergfexSensor) :=
  status ← BergfexSensor_init entry_data "Status" "status" (Some "mdi:ski") None None;
  snow_valley ←
    BergfexSensor_init entry_data "Snow Valley" "snow_valley"
      (Some "mdi:snowflake") (Some "cm") (Some MEASUREMENT);
  snow_mountain ←
    BergfexSensor_init entry_data "Snow Mountain" "snow_mountain"
      (Some "mdi:snowflake") (Some "cm") (Some MEASUREMENT);
  new_snow ←
    BergfexSensor_init entry_data "New Snow" "new_snow"
      (Some "mdi:weather-snowy-heavy") (Some "cm") (Some MEASUREMENT);
  lifts_open ←
    BergfexSensor_init entry_data "Lifts Open" "lifts_open_count"
      (Some "mdi:gondola") None (Some MEASUREMENT);
  lifts_total ←
    BergfexSensor_init entry_data "Lifts Total" "lifts_total_count"
      (Some "mdi:map-marker-distance") None None;
  last_update ←
    BergfexSensor_init entry_data "Last Update" "last_update"
      (Some "mdi:clock-outline") None None;
  mret [status; snow_valley; snow_mountain; new_snow; lifts_open; lifts_total;
        last_update].

(** [async_setup_entry] (lines 30-120). *)
Definition async_setup_entry (entry_data : gmap string string) : St hass_data unit :=
  let country_name := Py.dict_get entry_data CONF_COUNTRY default_country in
  country_path ← lift (Py.dict_getitem COUNTRIES country_name);
  area_name ← lift (Py.dict_getitem entry_data "name");
  hass ← get_state;
  (if bool_decide (country_name ∉ dom (coordinators hass)) then
     lift (logger DEBUG ("Creating new coordinator for country: " +:+ country_name));;
     let coordinator :=
       {| coordinator_name := "bergfex_" +:+ country_name;
          coordinator_country_path := country_path;
          update_interval := SCAN_INTERVAL |} in
     modify (fun hass =>
               {| coordinators := <[country_name := coordinator]> (coordinators hass);
                  entities := entities hass |})
   else mret tt);;
  hass ← get_state;
  coordinator ← lift (Py.dict_getitem (coordinators hass) country_name);
  lift (async_config_entry_first_refresh coordinator);;
  sensors ← lift (new_sensors entry_data);
  modify (fun hass =>
            {| coordinators := coordinators hass;
               entities := entities hass ++ sensors |}).

(** [BergfexSensor.native_value] (lines 226-240); [data] is
    [coordinator.data] after the first refresh. *)
Definition native_value (self : BergfexSensor)
    (data : gmap string (gmap string py_val)) : M py_val :=
  match data !! _area_path self with
  | Some area_data =>
      if negb (bool_decide (area_data = ∅))
         && bool_decide (_data_key self ∈ dom area_data)
      then
        value ← Py.dict_getitem area_data (_data_key self);
        match value with
        | PStr s =>
            if PyStr.isdigit s then n ← int s; mret (PInt n) else mret value
        | _ => mret value
        end
      else mret PNone
  | None => mret PNone
  end.

(** [BergfexSensor.extra_state_attributes] (lines 242-247). *)
Definition extra_state_attributes (self : BergfexSensor) : option (gmap string string) :=
  if bool_decide (_data_key self = "status")
  then Some {[ "link" := _config_url self ]}
  else None.

End Sensor.

(** ** The configuration flow (config_flow.py) *)

(** The schemas of the two forms: a required key whose value is in a list,
    or among the keys of a dictionary. *)
Inductive schema : Type :=
| In_list (key : string) (container : list string)
| In_dict (key : string) (container : gmap string string).

Inductive FlowResult : Type :=
| show_form (step_id : string) (data_schema : option schema)
    (errors : option (gmap string string))
    (description_placeholders : option (gmap string string))
| create_entry (title : string) (data : gmap string string).

Section ConfigFlowSteps.

Variable BASE_URL : string.
Variable CONF_COUNTRY : string.
Variable CONF_SKI_AREA : string.
Variable COUNTRIES : gmap string string.
Variable session_get_text : string -> M string.
Variable BeautifulSoup : string -> M tag.

(** [self.async_set_unique_id] and [self._abort_if_unique_id_configured] *)
Variable async_set_unique_id : string -> M unit.
Variable _abort_if_unique_id_configured : M unit.

(** [async_step_ski_area] (lines 68-115) on the dictionary [self._data]. *)
Definition async_step_ski_area (user_input : option (gmap string string))
    : St (gmap string string) FlowResult :=
  match user_input with
  | Some user_input =>
      ski_area_path ← lift (Py.dict_getitem user_input CONF_SKI_AREA);
      _data ← get_state;
      country_name ← lift (Py.dict_getitem _data CONF_COUNTRY);
      country_path ← lift (Py.dict_getitem COUNTRIES country_name);
      all_areas ← lift (get_ski_areas BASE_URL session_get_text BeautifulSoup
                          country_path);
      last_part ← lift (Py.list_last
                          (PyStr.split "/" (Py.strip_char "/" ski_area_path)));
      let ski_area_name := Py.dict_get all_areas ski_area_path last_part in
      lift (async_set_unique_id ski_area_path);;
      lift _abort_if_unique_id_configured;;
      mret (create_entry ski_area_name
              (<["url" := BASE_URL +:+ ski_area_path]>
                 (<["name" := ski_area_name]>
                    (<[CONF_COUNTRY := country_name]>
                       (<[CONF_SKI_AREA := ski_area_path]> ∅)))))
  | None =>
      let errors : gmap string string := ∅ in
      _data ← get_state;
      country_name ← lift (Py.dict_getitem _data CONF_COUNTRY);
      country_path ← lift (Py.dict_getitem COUNTRIES country_name);
      ski_areas ← lift (get_ski_areas BASE_URL session_get_text BeautifulSoup
                          country_path);
      if bool_decide (ski_areas = ∅) then
        let errors := <["base" := "no_areas_found"]> errors in
        mret (show_form "ski_area" None (Some errors)
                (Some {[ "country" := country_name ]}))
      else
        mret (show_form "ski_area" (Some (In_dict CONF_SKI_AREA ski_areas))
                (Some errors) (Some {[ "country" := country_name ]}))
  end.

(** [async_step_user] (lines 54-66). *)
Definition async_step_user (user_input : option (gmap string string))
    : St (gmap string string) FlowResult :=
  match user_input with
  | Some user_input =>
      country ← lift (Py.dict_getitem user_input CONF_COUNTRY);
      modify (fun _data => <[CONF_COUNTRY := country]> _data);;
      async_step_ski_area None
  | None =>
      mret (show_form "user"
              (Some (In_list CONF_COUNTRY (map_to_list COUNTRIES).*1)) None None)
  end.

End ConfigFlowSteps.

(** ** The parser of test_parser.py

    The script has its own copy of [parse_overview_data], which prints where
    the integration logs.  Its computations run on the lines printed so far,
    the mutable object of [St]. *)

Module TestParser.

(** [print(line)] *)
Definition print (line : string) : St (list string) unit :=
  modify (fun out : list string => (out ++ [line])%list).

(** [try: body except <caught>: handler] *)
Definition try_except {A : Type} (body : St (list string) A) (caught : exn -> bool)
    (handler : exn -> St (list string) A) : St (list string) A := fun out w =>
  match body out w with
  | (Return a, out', w') => (Return a, out', w')
  | (Raise e, out', w') => if caught e then handler e out' w' else (Raise e, out', w')
  end.

(** [for x in xs: acc = body(x, acc)] *)
Fixpoint for_each {A S : Type} (xs : list A) (body : A -> S -> St (list string) S)
    (acc : S) : St (list string) S :=
  match xs with
  | [] => mret acc
  | x :: xs' => acc' ← body x acc; for_each xs' body acc'
  end.

(** Lines 49-72. *)
Definition parse_lifts (lifts_raw : string) : St (list string) (option Z * option Z) :=
  let lifts_open := None in
  let lifts_total := None in
  if PyStr.contains "/" lifts_raw then
    let parts := PyStr.split "/" lifts_raw in
    if (length parts =? 2)%nat then
      lifts_open ←
        try_except
          (p ← lift (list_getitem parts 0); n ← lift (int (PyStr.strip p));
           mret (Some n))
          is_ValueError
          (fun _ =>
             p ← lift (list_getitem parts 0);
             print ("WARNING: Could not parse lifts_open_count: " +:+ PyStr.strip p);;
             mret lifts_open);
      lifts_total ←
        try_except
          (p ← lift (list_getitem parts 1); n ← lift (int (PyStr.strip p));
           mret (Some n))
          is_ValueError
          (fun _ =>
             p ← lift (list_getitem parts 1);
             print ("WARNING: Could not parse lifts_total_count: " +:+ PyStr.strip p);;
             mret lifts_total);
      mret (lifts_open, lifts_total)
    else mret (lifts_open, lifts_total)
  else if PyStr.isdigit lifts_raw then
    lifts_open ←
      try_except
        (n ← lift (int lifts_raw); mret (Some n))
        is_ValueError
        (fun _ =>
           print ("WARNING: Could not parse lifts_open_count: " +:+ lifts_raw);;
           mret lifts_open);
    mret (lifts_open, lifts_total)
  else mret (lifts_open, lifts_total).

(** Lines 21-86: the body of the loop over the rows. *)
Definition parse_overview_row (row : tag)
    (results : gmap string (gmap string py_val))
    : St (list string) (gmap string (gmap string py_val)) :=
  let cols := Soup.find_all "td" row in
  if (length cols <? 6)%nat then mret results else
  c0 ← lift (list_getitem cols 0);
  match Soup.find "a" c0 with
  | None => mret results
  | Some link =>
    if negb (truthy (Soup.get link "href")) then mret results else
    area_path ← lift (Soup.getitem link "href");
    let area_data : gmap string py_val := ∅ in
    c1 ← lift (list_getitem cols 1);
    let area_data := <["snow_valley" := of_get (Soup.get c1 "data-value")]> area_data in
    c2 ← lift (list_getitem cols 2);
    let area_data := <["snow_mountain" := of_get (Soup.get c2 "data-value")]> area_data in
    c3 ← lift (list_getitem cols 3);
    let area_data := <["new_snow" := of_get (Soup.get c3 "data-value")]> area_data in
    lifts_cell ← lift (list_getitem cols 4);
    let area_data :=
      match Soup.find_class "div" "icon-status" lifts_cell with
      | Some status_div =>
          <["status" := PStr (status_of_classes (Soup.class_ status_div))]> area_data
      | None => area_data
      end in
    let lifts_raw := PyStr.strip (Soup.text lifts_cell) in
    '(lifts_open, lifts_total) ← parse_lifts lifts_raw;
    let area_data :=
      match lifts_open with
      | Some n => <["lifts_open_count" := PInt n]> area_data
      | None => area_data
      end in
    let area_data :=
      match lifts_total with
      | Some n => <["lifts_total_count" := PInt n]> area_data
      | None => area_data
      end in
    c5 ← lift (list_getitem cols 5);
    area_data ←
      (if bool_decide ("data-value" ∈ dom (Soup.attrs c5)) then
         v ← lift (Soup.getitem c5 "data-value");
         mret (<["last_update" := PStr v]> area_data)
       else
         mret (<["last_update" := PStr (PyStr.strip (Soup.text c5))]> area_data));
    mret (<[area_path := filter (fun kv => not_placeholder kv.2) area_data]> results)
  end.

(** Lines 10-88, on the tree of the page. *)
Definition parse_overview_data (soup : tag)
    : St (list string) (gmap string (gmap string py_val)) :=
  let results : gmap string (gmap string py_val) := ∅ in
  match Soup.find_class "table" "snow" soup with
  | None =>
      print "WARNING: Could not find overview data table with class 'snow'";;
      mret ∅
  | Some table =>
      for_each (drop 1 (Soup.find_all "tr" table)) parse_overview_row results
  end.

End TestParser.

(** The line the script prints where the integration logs the record [r]. *)
Definition printed (r : level * string) : string := "WARNING: " +:+ r.2.

(** A computation of the integration and one of the script agree: neither
    raises, they return the same value, and the script prints one line for
    each record the integration logs, in the same order, and leaves the
    world alone. *)
Definition agree {A : Type} (m : M A) (m' : St (list string) A) : Prop :=
  forall (w : world) (out : list string) (w0 : world),
    exists (v : A) (records : list (level * string)),
      m w = (Return v, {| clock := clock w; log := log w ++ records |})
      /\ m' out w0 = (Return v, (out ++ (printed <$> records))%list, w0).

(** ** Sensors and entries for the examples *)

(** A sensor of the area [area_path] that reads [data_key]. *)
Definition a_sensor (area_path data_key : string) : BergfexSensor :=
  {| _area_name := "Resort X";
     _area_path := area_path;
     _config_url := "https://www.bergfex.at" +:+ area_path;
     _sensor_name := "Sensor";
     _data_key := data_key;
     _attr_icon := None;
     _attr_native_unit_of_measurement := None;
     _attr_state_class := None;
     _attr_unique_id := "bergfex_resort_x_sensor";
     _attr_name := "Resort X Sensor" |}.

(** ** What a call adds to the log *)



(** Values for the constants of const.py and an entry as the configuration
    flow stores it, for the examples. *)
Definition a_BASE_URL : string := "https://www.bergfex.at".
Definition a_CONF_SKI_AREA : string := "ski_area".
Definition a_CONF_COUNTRY : string := "country".
Definition a_COUNTRIES : gmap string string :=
  {[ default_country := "/oesterreich/schneewerte/" ]}.

Definition an_entry : gmap string string :=
  <["url" := "https://www.bergfex.at/x"]>
    (<["name" := "Resort X"]>
       (<[a_CONF_COUNTRY := default_country]>
          (<[a_CONF_SKI_AREA := "/x"]> ∅))).

(** A session that answers every request with the same page, and a tree
    builder that reads that page as [scenario_A]; a session whose request
    fails; a first refresh that succeeds. *)
Definition a_session : string -> M string := fun _ => mret "<html>".
Definition a_builder : string -> M tag := fun _ => mret scenario_A.
Definition a_failing_session : string -> M string :=
  fun _ => raise (ExternalError "Cannot connect to host").
Definition a_refresh : DataUpdateCoordinator -> M unit := fun _ => mret tt.

(** A session whose request is cancelled while it is awaited. *)
Definition a_cancelled_session : string -> M string :=
  fun _ => raise (CancelledError "").

Definition no_hass_data : hass_data := {| coordinators := ∅; entities := [] |}.

(** A first refresh that fails, and the data of a Home Assistant in which
    the coordinator of [default_country] is registered. *)
Definition a_failing_refresh : DataUpdateCoordinator -> M unit :=
  fun _ => raise (ExternalError "ConfigEntryNotReady").

Definition a_coordinator : DataUpdateCoordinator :=
  {| coordinator_name := "bergfex_" +:+ default_country;
     coordinator_country_path := "/oesterreich/schneewerte/";
     update_interval := SCAN_INTERVAL |}.

Definition some_hass_data : hass_data :=
  {| coordinators := {[ default_country := a_coordinator ]}; entities := [] |}.

(** The two steps on the unique id of a flow, both succeeding, and the
    check failing because the ski area is configured already. *)
Definition a_set_unique_id : string -> M unit := fun _ => mret tt.
Definition an_abort_check : M unit := mret tt.
Definition a_failing_abort_check : M unit :=
  raise (ExternalError "already_configured").

(** The flow's dictionary after the country was chosen, and after nothing
    was. *)
Definition a_flow_data : gmap string string := {[ a_CONF_COUNTRY := default_country ]}.

(** ** Running computations *)

Lemma run_ret {A : Type} (a : A) (w : world) : mret (M := M) a w = (Return a, w).
Proof. reflexivity. Qed.

Lemma run_bind {A B : Type} (m : M A) (f : A -> M B) (w : world) :
  (m ≫= f) w =
  match m w with
  | (Return a, w') => f a w'
  | (Raise e, w') => (Raise e, w')
  end.
Proof. reflexivity. Qed.

Lemma run_bind_return {A B : Type} (m : M A) (f : A -> M B) (w w' : world) (a : A) :
  m w = (Return a, w') -> (m ≫= f) w = f a w'.
Proof. intros H. rewrite run_bind, H. reflexivity. Qed.

Lemma run_int (s : string) (w : world) :
  int s w =
  match PyStr.parse_int s with
  | Some n => (Return n, w)
  | None => (Raise (ValueError (PyStr.int_error s)), w)
  end.
Proof. unfold int. destruct (PyStr.parse_int s); reflexivity. Qed.

(** A [try: x = int(s) except ValueError: log] block leaves [parse_int s]
    in [x]. *)
Lemma run_try_int (s msg : string) (w : world) :
  exists w',
    try_except (n ← int s; mret (Some n)) is_ValueError
      (fun _ => logger DEBUG msg;; mret None) w
    = (Return (PyStr.parse_int s), w') /\ clock w' = clock w.
Proof.
  unfold try_except. rewrite run_bind, run_int.
  destruct (PyStr.parse_int s) as [n|]; simpl.
  - eexists; split; reflexivity.
  - eexists; split; reflexivity.
Qed.

Lemma parse_lifts_run (lifts_raw : string) (w : world) :
  exists w',
    parse_lifts lifts_raw w = (Return (lifts_of lifts_raw), w') /\ clock w' = clock w.
Proof.
  unfold parse_lifts, lifts_of.
  destruct (PyStr.contains "/" lifts_raw).
  - destruct (PyStr.split "/" lifts_raw) as [|a [|b [|c parts]]]; simpl;
      try (eexists; split; reflexivity).
    destruct (run_try_int (PyStr.strip a)
                ("Could not parse lifts_open_count: " +:+ PyStr.strip a) w)
      as (w1 & H1 & C1).
    destruct (run_try_int (PyStr.strip b)
                ("Could not parse lifts_total_count: " +:+ PyStr.strip b) w1)
      as (w2 & H2 & C2).
    exists w2. split; [|congruence].
    erewrite run_bind_return; [|exact H1].
    erewrite run_bind_return; [|exact H2].
    reflexivity.
  - destruct (PyStr.isdigit lifts_raw); [|eexists; split; reflexivity].
    destruct (run_try_int lifts_raw
                ("Could not parse lifts_open_count: " +:+ lifts_raw) w)
      as (w1 & H1 & C1).
    exists w1. split; [|exact C1].
    erewrite run_bind_return; [|exact H1]. reflexivity.
Qed.

Lemma link_target_Some (c0 : tag) (path : string) :
  link_target c0 = Some path <->
  exists link, Soup.find "a" c0 = Some link /\ Soup.get link "href" = Some path
               /\ path <> "".
Proof.
  unfold link_target. split.
  - destruct (Soup.find "a" c0) as [link|]; simpl; [|discriminate].
    destruct (Soup.get link "href") as [href|] eqn:Hg; simpl; [|discriminate].
    destruct href; simpl; [discriminate|].
    intros [= <-]. exists link. split; [reflexivity|]. split; [exact Hg|discriminate].
  - intros (link & -> & Hg & Hne). simpl. rewrite Hg. simpl.
    destruct path; [contradiction|reflexivity].
Qed.

(** Reads [l[i]] off a list whose first cells are known. *)
Ltac run_getitems :=
  repeat match goal with
  | |- context [list_getitem (?c :: ?l) ?i ≫= ?f] =>
      let x := eval cbv in ((c :: l) !! i) in
      match x with
      | Some ?d => change (list_getitem (c :: l) i ≫= f) with (mret d ≫= f);
                   rewrite run_bind, run_ret
      end
  end.

(** The loop body of [parse_overview_data] never raises and performs one
    [overview_step]. *)
Lemma parse_overview_row_run (row : tag) results (w : world) :
  exists w',
    parse_overview_row row results w = (Return (overview_step results row), w')
    /\ clock w' = clock w.
Proof.
  unfold parse_overview_row, overview_step, row_target, row_record.
  destruct (Soup.find_all "td" row)
    as [|c0 [|c1 [|c2 [|c3 [|c4 [|c5 cols]]]]]];
    try (exists w; split; reflexivity).
  cbn [length Nat.ltb Nat.leb].
  unfold link_target.
  change (list_getitem (c0 :: c1 :: c2 :: c3 :: c4 :: c5 :: cols) 0 ≫= ?f)
    with (mret c0 ≫= f).
  rewrite run_bind, run_ret.
  destruct (Soup.find "a" c0) as [link|]; [|exists w; split; reflexivity].
  cbn [mbind option_bind].
  unfold Soup.getitem, Soup.get.
  destruct (Soup.attrs link !! "href") as [href|] eqn:Hhref;
    [|exists w; split; reflexivity].
  cbn [truthy mbind option_bind].
  destruct (PyStr.is_empty href); [exists w; split; reflexivity|].
  cbn [negb].
  rewrite run_bind, run_ret.
  run_getitems.
  destruct (parse_lifts_run (PyStr.strip (Soup.text c4)) w) as (w1 & Hl & Hc).
  erewrite run_bind_return; [|exact Hl].
  destruct (lifts_of (PyStr.strip (Soup.text c4))) as [lifts_open lifts_total] eqn:Hlifts.
  exists w1. split; [|exact Hc].
  cbn beta iota. run_getitems.
  unfold area_data_of, last_update_of, Soup.get. rewrite Hlifts. cbn [fst snd].
  case_bool_decide as Hdv.
  - apply elem_of_dom in Hdv as [v Hv]. rewrite Hv.
    reflexivity.
  - apply not_elem_of_dom in Hdv. rewrite Hdv. reflexivity.
Qed.

Lemma for_each_run {A S : Type} (body : A -> S -> M S) (step : S -> A -> S) :
  (forall x acc w, exists w',
      body x acc w = (Return (step acc x), w') /\ clock w' = clock w) ->
  forall xs acc w, exists w',
      for_each xs body acc w = (Return (fold_left step xs acc), w')
      /\ clock w' = clock w.
Proof.
  intros Hbody xs. induction xs as [|x xs IH]; intros acc w.
  - exists w. split; reflexivity.
  - destruct (Hbody x acc w) as (w1 & H1 & C1).
    destruct (IH (step acc x) w1) as (w2 & H2 & C2).
    exists w2. split; [|congruence].
    cbn [for_each fold_left]. erewrite run_bind_return; [exact H2|exact H1].
Qed.

Lemma parse_overview_data_run (soup : tag) (w : world) :
  exists w',
    parse_overview_data soup w = (Return (overview_of soup), w')
    /\ clock w' = clock w.
Proof.
  unfold parse_overview_data, overview_of, data_rows.
  destruct (Soup.find_class "table" "snow" soup) as [table|].
  - apply for_each_run. intros row acc w1. apply parse_overview_row_run.
  - eexists. split; reflexivity.
Qed.

(** The loop body of [get_ski_areas] never raises and performs one
    [directory_step]. *)
Lemma list_resorts_row_run (row : tag) ski_areas (w : world) :
  list_resorts_row row ski_areas w = (Return (directory_step ski_areas row), w).
Proof.
  unfold list_resorts_row, directory_step, row_entry.
  destruct (Soup.find "a" row) as [link|]; [|reflexivity].
  cbn [mbind option_bind]. unfold Soup.getitem, Soup.get.
  destruct (Soup.attrs link !! "href") as [href|]; [|reflexivity].
  cbn [truthy mbind option_bind].
  destruct (PyStr.is_empty href) eqn:Hhref; [reflexivity|].
  cbn [negb orb]. rewrite run_bind, run_ret, Hhref.
  destruct (PyStr.is_empty (PyStr.strip (Soup.text link))); reflexivity.
Qed.

Lemma list_resorts_rows_run (rows : list tag) ski_areas (w : world) :
  for_each rows list_resorts_row ski_areas w
  = (Return (fold_left directory_step rows ski_areas), w).
Proof.
  revert ski_areas. induction rows as [|row rows IH]; intros ski_areas.
  - reflexivity.
  - cbn [for_each fold_left].
    erewrite run_bind_return; [apply IH|apply list_resorts_row_run].
Qed.

Lemma list_resorts_run (soup : tag) (w : world) :
  list_resorts soup w =
  (Return (directory_of soup),
   match Soup.find_class "table" "snow" soup with
   | Some _ => w
   | None =>
       {| clock := clock w;
          log := log w ++ [(ERROR, "Could not find ski area table with class 'snow' on overview page.")] |}
   end).
Proof.
  unfold list_resorts, directory_of, data_rows.
  destruct (Soup.find_class "table" "snow" soup) as [table|].
  - apply list_resorts_rows_run.
  - reflexivity.
Qed.

(** ** The fields of a record *)

Section Fields.

Variables c1 c2 c3 lifts_cell c5 : tag.

Let area_data := area_data_of c1 c2 c3 lifts_cell c5.

Ltac area_lookup :=
  unfold area_data, area_data_of;
  destruct (Soup.find_class "div" "icon-status" lifts_cell);
  destruct (lifts_of (PyStr.strip (Soup.text lifts_cell))) as [[?|] [?|]];
  cbn [fst snd fmap option_fmap option_map];
  repeat (rewrite lookup_insert_ne by discriminate);
  try rewrite lookup_insert_eq; try rewrite lookup_empty; reflexivity.

Lemma area_data_snow_valley :
  area_data !! "snow_valley" = Some (of_get (Soup.get c1 "data-value")).
Proof. area_lookup. Qed.

Lemma area_data_snow_mountain :
  area_data !! "snow_mountain" = Some (of_get (Soup.get c2 "data-value")).
Proof. area_lookup. Qed.

Lemma area_data_new_snow :
  area_data !! "new_snow" = Some (of_get (Soup.get c3 "data-value")).
Proof. area_lookup. Qed.

Lemma area_data_status :
  area_data !! "status" =
  (fun d => PStr (status_of_classes (Soup.class_ d)))
    <$> Soup.find_class "div" "icon-status" lifts_cell.
Proof. area_lookup. Qed.

Lemma area_data_lifts_open :
  area_data !! "lifts_open_count" =
  PInt <$> (lifts_of (PyStr.strip (Soup.text lifts_cell))).1.
Proof. area_lookup. Qed.

Lemma area_data_lifts_total :
  area_data !! "lifts_total_count" =
  PInt <$> (lifts_of (PyStr.strip (Soup.text lifts_cell))).2.
Proof. area_lookup. Qed.

Lemma area_data_last_update :
  area_data !! "last_update" = Some (PStr (last_update_of c5)).
Proof. area_lookup. Qed.

End Fields.

(** The clean-up of line 195 on one key. *)
Lemma clean_lookup (area_data : gmap string py_val) (k : string) :
  filter (fun kv => not_placeholder kv.2) area_data !! k =
  match area_data !! k with
  | Some v => if decide (not_placeholder v) then Some v else None
  | None => None
  end.
Proof.
  rewrite map_lookup_filter. destruct (area_data !! k) as [v|]; [|reflexivity].
  cbn. destruct (decide (not_placeholder v)) as [H|H].
  - rewrite option_guard_True by exact H. reflexivity.
  - rewrite option_guard_False by exact H. reflexivity.
Qed.

Lemma not_placeholder_iff (v : py_val) :
  not_placeholder v <-> v <> PStr "-" /\ v <> PStr "".
Proof.
  unfold not_placeholder. rewrite !not_elem_of_cons. split.
  - intros (H1 & H2 & _). auto.
  - intros (H1 & H2). repeat split; auto. apply not_elem_of_nil.
Qed.

(** ** Facts about Python strings *)

Module PyStrFacts.
Import PyStr.

Ltac by_cases_on_char c :=
  destruct c as [[] [] [] [] [] [] [] []]; vm_compute; try reflexivity;
  try discriminate; auto.

Lemma isdigit_char_plain (c : ascii) :
  isdigit_char c = true ->
  int_space c = false /\ Ascii.eqb c "_" = false /\ Ascii.eqb c "-" = false
  /\ Ascii.eqb c "+" = false /\ Ascii.eqb c "/" = false.
Proof. by_cases_on_char c. Qed.

Lemma isdecimal_isdigit_char (c : ascii) :
  isdecimal c = true -> isdigit_char c = true.
Proof. unfold isdigit_char. intros ->. reflexivity. Qed.

Lemma contains_char_cons (c d : ascii) (s : string) :
  contains (String c "") (String d s) = Ascii.eqb d c || contains (String c "") s.
Proof.
  cbn [contains String.prefix].
  destruct (ascii_dec c d) as [->|Hne].
  - rewrite Ascii.eqb_refl. destruct s; reflexivity.
  - apply Ascii.eqb_neq in Hne. rewrite Ascii.eqb_sym, Hne. reflexivity.
Qed.

Lemma split_nonempty (sep : ascii) (s : string) : split sep s <> [].
Proof.
  destruct s as [|c s]; cbn [split]; [discriminate|].
  destruct (Ascii.eqb c sep); [discriminate|].
  destruct (split sep s); discriminate.
Qed.

(** Without the separator there is one part. *)
Lemma split_without (sep : ascii) (s : string) :
  contains (String sep "") s = false -> split sep s = [s].
Proof.
  induction s as [|c s IH]; [reflexivity|].
  rewrite contains_char_cons. intros [Hc Hs]%orb_false_iff.
  cbn [split]. rewrite Hc, (IH Hs). reflexivity.
Qed.

Lemma split_one_part (sep : ascii) (s p : string) :
  split sep s = [p] -> s = p /\ contains (String sep "") s = false.
Proof.
  revert p. induction s as [|c s IH]; intros p.
  - cbn. intros [= <-]. split; reflexivity.
  - cbn [split]. rewrite contains_char_cons.
    destruct (Ascii.eqb c sep) eqn:Hc.
    + intros [= _ H]. now apply split_nonempty in H.
    + destruct (split sep s) as [|q qs] eqn:Hs; [now apply split_nonempty in Hs|].
      intros [= <- ->]. destruct (IH q eq_refl) as [-> ->].
      split; reflexivity.
Qed.

(** [a/b] with no other separator splits into [a] and [b]. *)
Lemma split_pair (sep : ascii) (a b : string) :
  contains (String sep "") a = false -> contains (String sep "") b = false ->
  split sep (a +:+ String sep b) = [a; b].
Proof.
  intros Ha Hb. induction a as [|c a IH]; simpl.
  - rewrite Ascii.eqb_refl, (split_without _ _ Hb). reflexivity.
  - rewrite contains_char_cons in Ha. apply orb_false_iff in Ha as [Hc Ha].
    rewrite Hc, (IH Ha). reflexivity.
Qed.

Lemma contains_pair (sep : ascii) (a b : string) :
  contains (String sep "") (a +:+ String sep b) = true.
Proof.
  induction a as [|c a IH].
  - change ("" +:+ String sep b) with (String sep b).
    rewrite contains_char_cons, Ascii.eqb_refl. reflexivity.
  - change (String c a +:+ String sep b) with (String c (a +:+ String sep b)).
    rewrite contains_char_cons, IH. apply orb_true_r.
Qed.

(** Two parts come from exactly one separator. *)
Lemma split_two_parts (sep : ascii) (s a b : string) :
  split sep s = [a; b] ->
  s = a +:+ String sep b
  /\ contains (String sep "") a = false /\ contains (String sep "") b = false.
Proof.
  revert a. induction s as [|c s IH]; intros a; cbn [split]; [discriminate|].
  destruct (Ascii.eqb c sep) eqn:Hc.
  - intros [= <- H]. apply Ascii.eqb_eq in Hc as ->.
    apply split_one_part in H as [-> H]. repeat split; auto.
  - destruct (split sep s) as [|q qs] eqn:Hs; [discriminate|].
    intros [= <- ->]. destruct (IH q eq_refl) as (-> & Hq & Hb).
    repeat split; auto. rewrite contains_char_cons, Hc, Hq. reflexivity.
Qed.

Lemma scan_digits_decimal (s : string) (acc : Z) (digits : nat) :
  all isdecimal s = true ->
  scan_digits acc digits s = (decimal_from acc s, (digits + String.length s)%nat, "").
Proof.
  revert acc digits. induction s as [|c s IH]; intros acc digits.
  - intros _. cbn. rewrite Nat.add_0_r. reflexivity.
  - cbn [all scan_digits decimal_from String.length].
    intros [Hc Hs]%andb_true_iff. rewrite Hc, (IH _ _ Hs).
    rewrite Nat.add_succ_r. reflexivity.
Qed.

(** What [int] does with a non-empty string of decimal digits: it returns
    its value, unless there are more digits than [max_str_digits]. *)
Lemma read_int_decimal (s : string) :
  s <> "" -> all isdecimal s = true ->
  read_int s =
  if (max_str_digits <? String.length s)%nat then TooManyDigits (String.length s)
  else Int (decimal s).
Proof.
  destruct s as [|c s]; [contradiction|]. intros _.
  cbn [all]. intros [Hc Hs]%andb_true_iff.
  destruct (isdigit_char_plain c (isdecimal_isdigit_char c Hc))
    as (Hsp & _ & Hm & Hp & _).
  unfold read_int. cbn [skip_int_space]. rewrite Hsp, Hm, Hp, Hc.
  rewrite (scan_digits_decimal s _ _ Hs). cbn [String.length Nat.add].
  destruct (max_str_digits <? S (String.length s))%nat; reflexivity.
Qed.

(** [int] of a non-empty string of at most [max_str_digits] decimal digits
    is its value. *)
Lemma parse_int_decimal (s : string) :
  s <> "" -> all isdecimal s = true -> (String.length s <= max_str_digits)%nat ->
  parse_int s = Some (decimal s).
Proof.
  intros Hne Hs Hlen. unfold parse_int. rewrite (read_int_decimal s Hne Hs).
  rewrite (proj2 (Nat.ltb_ge _ _) Hlen). reflexivity.
Qed.

(** [int] refuses a string of more than [max_str_digits] decimal digits. *)
Lemma parse_int_too_long (s : string) :
  all isdecimal s = true -> (max_str_digits < String.length s)%nat ->
  parse_int s = None
  /\ int_error s =
     "Exceeds the limit (4300 digits) for integer string conversion: value has "
     +:+ NilZero.string_of_uint (Nat.to_uint (String.length s))
     +:+ " digits; use sys.set_int_max_str_digits() to increase the limit".
Proof.
  intros Hs Hlen.
  assert (Hne : s <> "") by (intros ->; cbn in Hlen; lia).
  unfold parse_int, int_error. rewrite (read_int_decimal s Hne Hs).
  rewrite (proj2 (Nat.ltb_lt _ _) Hlen). split; reflexivity.
Qed.

Lemma scan_digits_isdigit (s : string) (acc v : Z) (digits digits' : nat)
    (rest : string) :
  all isdigit_char s = true -> scan_digits acc digits s = (v, digits', rest) ->
  all int_space rest = true -> all isdecimal s = true.
Proof.
  revert acc digits. induction s as [|c s IH]; intros acc digits; [reflexivity|].
  cbn [all scan_digits]. intros [Hc Hs]%andb_true_iff.
  destruct (isdigit_char_plain c Hc) as (Hsp & Hu & _).
  destruct (isdecimal c).
  - intros H1 H2. cbn. eapply IH; eauto.
  - rewrite Hu. intros [= <- <- <-]. cbn [all]. rewrite Hsp. discriminate.
Qed.

(** When [s.isdigit()] holds, [int(s)] succeeds only on decimal digits, no
    more of them than [max_str_digits]: the superscript digits make it
    raise. *)
Lemma parse_int_isdigit (s : string) (n : Z) :
  isdigit s = true -> parse_int s = Some n ->
  all isdecimal s = true /\ n = decimal s
  /\ (String.length s <= max_str_digits)%nat.
Proof.
  unfold isdigit. destruct s as [|c s]; [discriminate|].
  cbn [is_empty negb andb all]. intros [Hc Hs]%andb_true_iff.
  destruct (isdigit_char_plain c Hc) as (Hsp & _ & Hm & Hp & _).
  intros Hint. assert (Hdec : all isdecimal (String c s) = true).
  { revert Hint. unfold parse_int, read_int. cbn [skip_int_space].
    rewrite Hsp, Hm, Hp.
    cbn [all]. destruct (isdecimal c); [|discriminate].
    destruct (scan_digits (digit_val c) 1 s) as [[v digits] rest] eqn:Hscan.
    destruct (match rest with String u _ => Ascii.eqb u "_" | EmptyString => false end);
      [discriminate|].
    destruct (max_str_digits <? digits)%nat; [discriminate|].
    destruct (all int_space rest) eqn:Hrest; [|discriminate].
    intros _. eapply scan_digits_isdigit; eauto. }
  split; [exact Hdec|].
  unfold parse_int in Hint.
  rewrite read_int_decimal in Hint by (exact Hdec || discriminate).
  destruct (max_str_digits <? String.length (String c s))%nat eqn:Hlen;
    [discriminate|].
  apply Nat.ltb_ge in Hlen. split; [congruence|exact Hlen].
Qed.

Lemma isdigit_decimal (s : string) :
  s <> "" -> all isdecimal s = true -> isdigit s = true.
Proof.
  intros Hne Hs. unfold isdigit. destruct s as [|c s]; [contradiction|].
  cbn [is_empty negb andb]. clear Hne.
  induction (String c s) as [|d t IH]; [reflexivity|].
  cbn [all] in *. apply andb_true_iff in Hs as [Hd Ht].
  rewrite (isdecimal_isdigit_char d Hd). auto.
Qed.

Lemma decimal_no_separator (s : string) :
  all isdecimal s = true -> contains "/" s = false.
Proof.
  induction s as [|c s IH]; [reflexivity|].
  cbn [all]. intros [Hc Hs]%andb_true_iff. rewrite contains_char_cons.
  destruct (isdigit_char_plain c (isdecimal_isdigit_char c Hc))
    as (_ & _ & _ & _ & ->).
  auto.
Qed.

Lemma isdecimal_not_space (c : ascii) : isdecimal c = true -> isspace c = false.
Proof. by_cases_on_char c. Qed.

(** Stripping leaves a string of decimal digits as it is. *)
Lemma strip_decimal (s : string) : all isdecimal s = true -> strip s = s.
Proof.
  intros Hs. unfold strip.
  assert (Hl : lstrip s = s).
  { destruct s as [|c s]; [reflexivity|]. cbn [all] in Hs.
    apply andb_true_iff in Hs as [Hc _]. cbn [lstrip].
    rewrite (isdecimal_not_space c Hc). reflexivity. }
  rewrite Hl. induction s as [|c s IH]; [reflexivity|].
  cbn [all] in Hs. apply andb_true_iff in Hs as [Hc Hs].
  cbn [rstrip]. rewrite (isdecimal_not_space c Hc), andb_false_r.
  f_equal. apply IH; [exact Hs|].
  destruct s as [|d s]; [reflexivity|]. cbn [all] in Hs.
  apply andb_true_iff in Hs as [Hd _]. cbn [lstrip].
  rewrite (isdecimal_not_space d Hd). reflexivity.
Qed.

End PyStrFacts.

(** ** [repr] and [int] on examples

    The values on the right are the ones Python 3.11 gives. *)

Example repr_examples :
  PyStr.repr "abc" = "'abc'"
  /\ PyStr.repr "a'b" = String "034" ("a'b" +:+ String "034" "")
  /\ PyStr.repr ("a" +:+ String "034" "b") = "'a" +:+ String "034" "b'"
  /\ PyStr.repr ("a'" +:+ String "034" "b") = "'a\'" +:+ String "034" "b'"
  /\ PyStr.repr "\" = "'\\'"
  /\ PyStr.repr (String "010" (String "009" (String "013" ""))) = "'\n\t\r'"
  /\ PyStr.repr (String "000" (String "031" (String "127" (String "128"
                  (String "159" (String "160" (String "173" "")))))))
     = "'\x00\x1f\x7f\x80\x9f\xa0\xad'"
  /\ PyStr.repr (String "161" (String "233" (String "255" "")))
     = "'" +:+ String "161" (String "233" (String "255" "'"))
  /\ PyStr.repr "" = "''".
Proof. repeat split; vm_compute; reflexivity. Qed.

Example int_examples :
  PyStr.parse_int " 12 " = Some 12
  /\ PyStr.parse_int (String "160" ("5" +:+ String "133" "")) = Some 5
  /\ PyStr.parse_int "+7" = Some 7
  /\ PyStr.parse_int "-7" = Some (-7)
  /\ PyStr.parse_int "1_0" = Some 10
  /\ PyStr.parse_int "007" = Some 7
  /\ PyStr.parse_int (nines 4300) <> None
  /\ PyStr.parse_int ("1 1") = None
  /\ PyStr.parse_int "_1" = None
  /\ PyStr.parse_int "1__1" = None
  /\ PyStr.parse_int "1_" = None
  /\ PyStr.parse_int "+ 1" = None
  /\ PyStr.parse_int (String "028" "5") = None
  /\ PyStr.parse_int (nines 4301) = None
  /\ PyStr.parse_int ("-" +:+ nines 4301) = None.
Proof. repeat split; vm_compute; (reflexivity || discriminate). Qed.

Example int_error_examples :
  PyStr.int_error "x" = "invalid literal for int() with base 10: 'x'"
  /\ PyStr.int_error "" = "invalid literal for int() with base 10: ''"
  /\ PyStr.int_error (String "178" "")
     = "invalid literal for int() with base 10: '" +:+ String "178" "'"
  /\ PyStr.int_error "a'b"
     = "invalid literal for int() with base 10: "
       +:+ String "034" ("a'b" +:+ String "034" "")
  /\ PyStr.int_error (String "133" "")
     = "invalid literal for int() with base 10: '\x85'"
  /\ PyStr.int_error ("x" +:+ nines 300)
     = "invalid literal for int() with base 10: 'x" +:+ nines 198
  /\ PyStr.int_error (nines 4301)
     = "Exceeds the limit (4300 digits) for integer string conversion: value has 4301 digits; use sys.set_int_max_str_digits() to increase the limit"
  /\ PyStr.int_error (nines 4301 +:+ "x")
     = "Exceeds the limit (4300 digits) for integer string conversion: value has 4301 digits; use sys.set_int_max_str_digits() to increase the limit"
  /\ PyStr.int_error (nines 5000 +:+ "_")
     = "invalid literal for int() with base 10: '" +:+ nines 199.
Proof. repeat split; vm_compute; reflexivity. Qed.

(** ** The lift counts *)

Lemma lifts_of_pair (a b : string) :
  PyStr.contains "/" a = false -> PyStr.contains "/" b = false ->
  lifts_of (a +:+ String "/" b)
  = (PyStr.parse_int (PyStr.strip a), PyStr.parse_int (PyStr.strip b)).
Proof.
  intros Ha Hb. unfold lifts_of.
  rewrite PyStrFacts.contains_pair, (PyStrFacts.split_pair _ _ _ Ha Hb).
  reflexivity.
Qed.

Lemma lifts_of_decimal (s : string) :
  s <> "" -> PyStr.all PyStr.isdecimal s = true ->
  (String.length s <= PyStr.max_str_digits)%nat ->
  lifts_of s = (Some (PyStr.decimal s), None).
Proof.
  intros Hne Hs Hlen. unfold lifts_of.
  rewrite (PyStrFacts.decimal_no_separator s Hs).
  rewrite (PyStrFacts.isdigit_decimal s Hne Hs).
  rewrite (PyStrFacts.parse_int_decimal s Hne Hs Hlen). reflexivity.
Qed.

Lemma isdigit_no_separator (s : string) :
  PyStr.isdigit s = true -> PyStr.contains "/" s = false.
Proof.
  unfold PyStr.isdigit. intros [_ Hall]%andb_true_iff.
  induction s as [|c s IH]; [reflexivity|].
  cbn [PyStr.all] in Hall. apply andb_true_iff in Hall as [Hc Hs].
  rewrite PyStrFacts.contains_char_cons.
  destruct (PyStrFacts.isdigit_char_plain c Hc) as (_ & _ & _ & _ & ->).
  auto.
Qed.

(** A text without a slash that [str.isdigit] accepts gives the count [int]
    reads from it, if any, as the open count. *)
Lemma lifts_of_digits (s : string) :
  PyStr.isdigit s = true -> lifts_of s = (PyStr.parse_int s, None).
Proof.
  intros Hd. unfold lifts_of. rewrite (isdigit_no_separator s Hd), Hd. reflexivity.
Qed.

Lemma lifts_of_other (s : string) :
  (forall a b, PyStr.contains "/" a = false -> PyStr.contains "/" b = false ->
               s <> a +:+ String "/" b) ->
  PyStr.isdigit s = false ->
  lifts_of s = (None, None).
Proof.
  intros Hshape Hd. unfold lifts_of.
  destruct (PyStr.contains "/" s).
  - destruct (PyStr.split "/" s) as [|a [|b [|c parts]]] eqn:Hsplit; try reflexivity.
    apply PyStrFacts.split_two_parts in Hsplit as (Hs & Ha & Hb).
    destruct (Hshape a b Ha Hb Hs).
  - rewrite Hd. reflexivity.
Qed.

(** ** The dictionary of a page *)

Lemma overview_fold_lookup (rows : list tag) acc (path : string) :
  fold_left overview_step rows acc !! path =
  match last (filter (fun row => row_target row = Some path) rows) with
  | Some row => Some (row_record row)
  | None => acc !! path
  end.
Proof.
  revert acc. induction rows as [|row rows IH]; intros acc; [reflexivity|].
  cbn [fold_left]. rewrite IH, filter_cons.
  destruct (decide (row_target row = Some path)) as [Hrow|Hrow].
  - rewrite last_cons.
    destruct (last (filter (fun row => row_target row = Some path) rows));
      [reflexivity|].
    unfold overview_step. rewrite Hrow. apply lookup_insert_eq.
  - destruct (last (filter (fun row => row_target row = Some path) rows));
      [reflexivity|].
    unfold overview_step. destruct (row_target row) as [p|]; [|reflexivity].
    apply lookup_insert_ne. congruence.
Qed.

Lemma last_filter_Some {A : Type} (P : A -> Prop) `{!forall x, Decision (P x)}
    (l : list A) (x : A) :
  last (filter P l) = Some x -> x ∈ l /\ P x.
Proof.
  intros Hl. apply last_Some in Hl as [l' Hl].
  assert (Hx : x ∈ filter P l) by (rewrite Hl; apply elem_of_app; right; left).
  apply list_elem_of_filter in Hx as [HP Hx]. auto.
Qed.

Lemma last_filter_None {A : Type} (P : A -> Prop) `{!forall x, Decision (P x)}
    (l : list A) :
  last (filter P l) = None -> forall x, x ∈ l -> ~ P x.
Proof.
  intros Hl x Hx HP. apply last_None in Hl.
  assert (Hin : x ∈ filter P l) by (apply list_elem_of_filter; auto).
  rewrite Hl in Hin. inversion Hin.
Qed.

(** The last element that satisfies [P]: none of those after it does. *)
Lemma last_filter_split {A : Type} (P : A -> Prop) `{!forall x, Decision (P x)}
    (l : list A) (x : A) :
  last (filter P l) = Some x ->
  exists before after,
    l = (before ++ x :: after)%list /\ P x /\ forall y, y ∈ after -> ~ P y.
Proof.
  induction l as [|a l IH]; [discriminate|].
  rewrite filter_cons. destruct (decide (P a)) as [Ha|Ha].
  - rewrite last_cons. destruct (last (filter P l)) as [y|] eqn:Hlast.
    + intros [= ->]. destruct (IH eq_refl) as (before & after & -> & Hx & Hafter).
      exists (a :: before), after. auto.
    + intros [= <-]. exists [], l. split; [reflexivity|]. split; [exact Ha|].
      apply (last_filter_None P l Hlast).
  - intros Hlast. destruct (IH Hlast) as (before & after & -> & Hx & Hafter).
    exists (a :: before), after. auto.
Qed.

Lemma overview_fold_dom (rows : list tag) :
  dom (fold_left overview_step rows ∅) =@{gset string} list_to_set (omap row_target rows).
Proof.
  apply set_eq. intros path.
  rewrite elem_of_dom, overview_fold_lookup, elem_of_list_to_set, list_elem_of_omap.
  destruct (last (filter (fun row => row_target row = Some path) rows)) as [row|] eqn:Hl.
  - apply last_filter_Some in Hl as [Hin Hrow]. split; [|eauto]. eauto.
  - rewrite lookup_empty. split; [intros [? [=]]|].
    intros (row & Hin & Hrow). destruct (last_filter_None _ _ Hl row Hin Hrow).
Qed.

Lemma length_omap_filter {A B : Type} (f : A -> option B) (l : list A) :
  (length (omap f l) + length (filter (fun x => f x = None) l) = length l)%nat.
Proof.
  induction l as [|x l IH]; [reflexivity|].
  cbn [omap list_omap]. rewrite filter_cons.
  destruct (f x) as [y|]; cbn [length].
  - rewrite decide_False by discriminate. lia.
  - rewrite decide_True by reflexivity. cbn [length]. lia.
Qed.

(** ** A row and its record *)

Lemma parse_overview_row_cells (row : tag) results (w : world) (path : string)
    (c0 c1 c2 c3 c4 c5 : tag) (rest : list tag) :
  Soup.find_all "td" row = c0 :: c1 :: c2 :: c3 :: c4 :: c5 :: rest ->
  link_target c0 = Some path ->
  exists w',
    parse_overview_row row results w
    = (Return (<[path := filter (fun kv => not_placeholder kv.2)
                           (area_data_of c1 c2 c3 c4 c5)]> results), w')
    /\ clock w' = clock w.
Proof.
  intros Hcols Hlink.
  destruct (parse_overview_row_run row results w) as (w' & Hrun & Hclock).
  exists w'. split; [|exact Hclock].
  rewrite Hrun. unfold overview_step, row_target, row_record.
  rewrite Hcols, Hlink. reflexivity.
Qed.

Lemma cleaned_Some (v : py_val) :
  v <> PStr "-" -> v <> PStr "" -> cleaned v = Some v.
Proof.
  intros H1 H2. unfold cleaned. apply decide_True, not_placeholder_iff. auto.
Qed.

Lemma cleaned_None (v : py_val) : v = PStr "-" \/ v = PStr "" -> cleaned v = None.
Proof.
  intros H. unfold cleaned. apply decide_False. rewrite not_placeholder_iff.
  intros [H1 H2]. destruct H; contradiction.
Qed.

Lemma cleaned_PInt (n : Z) : cleaned (PInt n) = Some (PInt n).
Proof. apply cleaned_Some; discriminate. Qed.

Lemma cleaned_status (classes : list string) :
  cleaned (PStr (status_of_classes classes)) = Some (PStr (status_of_classes classes)).
Proof.
  unfold status_of_classes.
  repeat case_bool_decide; apply cleaned_Some; discriminate.
Qed.

Lemma record_lookup (area_data : gmap string py_val) (k : string) :
  filter (fun kv => not_placeholder kv.2) area_data !! k
  = area_data !! k ≫= cleaned.
Proof. rewrite clean_lookup. destruct (area_data !! k); reflexivity. Qed.

(** No record holds the dash or the empty string. *)
Lemma record_no_placeholder (area_data : gmap string py_val) (k : string) (v : py_val) :
  filter (fun kv => not_placeholder kv.2) area_data !! k = Some v ->
  v <> PStr "-" /\ v <> PStr "".
Proof.
  intros [_ H]%map_lookup_filter_Some. now apply not_placeholder_iff.
Qed.

(** The fields of the record of a row, cell by cell. *)
Lemma record_fields (c1 c2 c3 lifts_cell c5 : tag) :
  let rec := filter (fun kv => not_placeholder kv.2)
               (area_data_of c1 c2 c3 lifts_cell c5) in
  rec !! "snow_valley" = cleaned (of_get (Soup.get c1 "data-value"))
  /\ rec !! "snow_mountain" = cleaned (of_get (Soup.get c2 "data-value"))
  /\ rec !! "new_snow" = cleaned (of_get (Soup.get c3 "data-value"))
  /\ rec !! "status" =
       (fun d => PStr (status_of_classes (Soup.class_ d)))
         <$> Soup.find_class "div" "icon-status" lifts_cell
  /\ rec !! "lifts_open_count" =
       PInt <$> (lifts_of (PyStr.strip (Soup.text lifts_cell))).1
  /\ rec !! "lifts_total_count" =
       PInt <$> (lifts_of (PyStr.strip (Soup.text lifts_cell))).2
  /\ rec !! "last_update" = cleaned (PStr (last_update_of c5)).
Proof.
  cbv zeta. rewrite !record_lookup.
  rewrite area_data_snow_valley, area_data_snow_mountain, area_data_new_snow,
    area_data_status, area_data_lifts_open, area_data_lifts_total,
    area_data_last_update.
  repeat split; try reflexivity.
  - destruct (Soup.find_class "div" "icon-status" lifts_cell); [|reflexivity].
    cbn. apply cleaned_status.
  - destruct (lifts_of _).1; [|reflexivity]. cbn. apply cleaned_PInt.
  - destruct (lifts_of _).2; [|reflexivity]. cbn. apply cleaned_PInt.
Qed.

(** ** The claims about [parse_overview_data] *)

(** C2: when the page has no [table] with the class [snow],
    [parse_overview_data] returns the empty dictionary and does not raise;
    the only trace of the missing table is one WARNING record in the log. *)
Theorem parse_overview_no_table (soup : tag) (w : world) :
  Soup.find_class "table" "snow" soup = None ->
  parse_overview_data soup w
  = (Return ∅,
     {| clock := clock w;
        log := log w ++ [(WARNING, "Could not find overview data table with class 'snow'")] |}).
Proof.
  intros Hnone. unfold parse_overview_data. rewrite Hnone. reflexivity.
Qed.

Lemma parse_overview_no_table_witness :
  Soup.find_class "table" "snow" other_table_page = None
  /\ parse_overview_data other_table_page w1
     = (Return ∅,
        {| clock := noon 16;
           log := [(DEBUG, "earlier call");
                   (WARNING, "Could not find overview data table with class 'snow'")] |}).
Proof.
  split; [reflexivity|].
  apply (parse_overview_no_table other_table_page w1). reflexivity.
Defined.

(** C9: for a row that is parsed, the [status] field of its record is read
    off the marker, the first [div] of class [icon-status] inside the lift
    cell (the fifth cell), and off nothing else: with [icon-status1] among
    the marker's classes the status is "Open"; otherwise, with
    [icon-status0], it is "Closed"; any other marker gives "Unknown"; and
    without a marker the record has no [status] key. *)
Theorem overview_row_status (row : tag) results (w : world) (path : string)
    (c0 c1 c2 c3 lifts_cell c5 : tag) (rest : list tag) :
  Soup.find_all "td" row = c0 :: c1 :: c2 :: c3 :: lifts_cell :: c5 :: rest ->
  link_target c0 = Some path ->
  exists rec w',
    parse_overview_row row results w = (Return (<[path := rec]> results), w')
    /\ match Soup.find_class "div" "icon-status" lifts_cell with
       | None => rec !! "status" = None
       | Some marker =>
           ("icon-status1" ∈ Soup.class_ marker ->
            rec !! "status" = Some (PStr "Open"))
           /\ ("icon-status1" ∉ Soup.class_ marker ->
               "icon-status0" ∈ Soup.class_ marker ->
               rec !! "status" = Some (PStr "Closed"))
           /\ ("icon-status1" ∉ Soup.class_ marker ->
               "icon-status0" ∉ Soup.class_ marker ->
               rec !! "status" = Some (PStr "Unknown"))
       end.
Proof.
  intros Hcols Hlink.
  destruct (parse_overview_row_cells row results w path _ _ _ _ _ _ _ Hcols Hlink)
    as (w' & Hrun & _).
  eexists _, w'. split; [exact Hrun|].
  destruct (record_fields c1 c2 c3 lifts_cell c5) as (_ & _ & _ & Hstatus & _).
  rewrite Hstatus.
  destruct (Soup.find_class "div" "icon-status" lifts_cell) as [marker|];
    [|reflexivity].
  cbn [fmap option_fmap option_map]. unfold status_of_classes.
  repeat split; intros; repeat case_bool_decide; try reflexivity; contradiction.
Qed.

Lemma overview_row_status_witness :
  exists rec w',
    parse_overview_row scenario_A_row ∅ w0 = (Return (<["/x" := rec]> ∅), w')
    /\ rec !! "status" = Some (PStr "Open").
Proof.
  destruct (overview_row_status scenario_A_row ∅ w0 "/x"
              (link_cell "Resort X") (value_cell "45") (value_cell "-")
              (value_cell "5") (lift_cell open_marker "3/8")
              (value_cell "2024-01-15T08:00") [])
    as (rec & w' & Hrun & Hstatus);
    [vm_compute; reflexivity | vm_compute; reflexivity | ].
  exists rec, w'. split; [exact Hrun|].
  assert (Hm : Soup.find_class "div" "icon-status" (lift_cell open_marker "3/8")
               = Some open_marker) by (vm_compute; reflexivity).
  rewrite Hm in Hstatus. apply Hstatus.
  unfold open_marker, Soup.class_. rewrite !elem_of_cons. auto.
Defined.

(** C8, amended: for a row that is parsed, [last_update] is read from the
    sixth cell, which is the final cell when the row has exactly six: the
    value is the cell's [data-value] attribute when the cell has one and
    the stripped text of the cell otherwise, and the field is left out when
    that value is the dash or the empty string. *)
Theorem overview_row_last_update (row : tag) results (w : world) (path : string)
    (c0 c1 c2 c3 c4 c5 : tag) (rest : list tag) :
  Soup.find_all "td" row = c0 :: c1 :: c2 :: c3 :: c4 :: c5 :: rest ->
  link_target c0 = Some path ->
  exists rec w',
    parse_overview_row row results w = (Return (<[path := rec]> results), w')
    /\ (rest = [] -> last (Soup.find_all "td" row) = Some c5)
    /\ let v := match Soup.get c5 "data-value" with
                | Some a => a
                | None => PyStr.strip (Soup.text c5)
                end in
       (v <> "-" -> v <> "" -> rec !! "last_update" = Some (PStr v))
       /\ (v = "-" \/ v = "" -> rec !! "last_update" = None).
Proof.
  intros Hcols Hlink.
  destruct (parse_overview_row_cells row results w path _ _ _ _ _ _ _ Hcols Hlink)
    as (w' & Hrun & _).
  eexists _, w'. split; [exact Hrun|].
  split; [intros ->; rewrite Hcols; reflexivity|].
  destruct (record_fields c1 c2 c3 c4 c5) as (_ & _ & _ & _ & _ & _ & Hlast).
  rewrite Hlast. unfold last_update_of. cbv zeta. split.
  - intros H1 H2. apply cleaned_Some; congruence.
  - intros [H|H]; apply cleaned_None; rewrite H; auto.
Qed.

Lemma overview_row_last_update_witness :
  exists rec w',
    parse_overview_row seven_cell_row ∅ w0 = (Return (<["/x" := rec]> ∅), w')
    /\ rec !! "last_update" = Some (PStr "2024-01-15T08:00").
Proof.
  destruct (overview_row_last_update seven_cell_row ∅ w0 "/x"
              (link_cell "Resort X") (value_cell "45") (value_cell "120")
              (value_cell "5") (text_cell "3/8") (value_cell "2024-01-15T08:00")
              [value_cell "2024-01-16T09:00"])
    as (rec & w' & Hrun & _ & Hlast & _);
    [vm_compute; reflexivity | vm_compute; reflexivity | ].
  exists rec, w'. split; [exact Hrun|].
  assert (Hv : Soup.get (value_cell "2024-01-15T08:00") "data-value"
               = Some "2024-01-15T08:00") by (vm_compute; reflexivity).
  rewrite Hv in Hlast. apply Hlast; discriminate.
Defined.

(** C8 as stated fails on a row of seven cells: the final cell carries the
    attribute [2024-01-16T09:00], and [last_update] is the attribute of the
    sixth cell. *)
Lemma last_update_not_from_final_cell :
  last (Soup.find_all "td" seven_cell_row) = Some (value_cell "2024-01-16T09:00")
  /\ Soup.get (value_cell "2024-01-16T09:00") "data-value" = Some "2024-01-16T09:00"
  /\ parse_overview_row seven_cell_row ∅ w0
     = (Return {[ "/x" := ({[ "snow_valley" := PStr "45";
                              "snow_mountain" := PStr "120";
                              "new_snow" := PStr "5";
                              "lifts_open_count" := PInt 3;
                              "lifts_total_count" := PInt 8;
                              "last_update" := PStr "2024-01-15T08:00" ]}
                            : gmap string py_val) ]}, w0).
Proof.
  split; [compute_done|]. split; compute_done.
Qed.

(** C4, amended: for a row that is parsed, the two lift fields are read
    from the stripped text of the lift cell.  A text [a/b] with one slash
    gives each count independently, [lifts_open_count] when [int] reads [a]
    and [lifts_total_count] when [int] reads [b], so both counts for two
    runs of at most 4300 digits 0-9.  A text without a slash that
    [str.isdigit] accepts gives [lifts_open_count] alone, provided [int]
    reads it: it does read a run of at most 4300 digits 0-9, and it does not
    read a longer one, which gives neither field.  Any other text gives
    neither.  Whatever the text, the other fields of the record are the
    ones their own cells give. *)
Theorem overview_row_lifts (row : tag) results (w : world) (path : string)
    (c0 c1 c2 c3 lifts_cell c5 : tag) (rest : list tag) :
  Soup.find_all "td" row = c0 :: c1 :: c2 :: c3 :: lifts_cell :: c5 :: rest ->
  link_target c0 = Some path ->
  let lifts_raw := PyStr.strip (Soup.text lifts_cell) in
  exists rec w',
    parse_overview_row row results w = (Return (<[path := rec]> results), w')
    /\ (forall a b,
          PyStr.contains "/" a = false -> PyStr.contains "/" b = false ->
          lifts_raw = a +:+ String "/" b ->
          rec !! "lifts_open_count" = PInt <$> PyStr.parse_int (PyStr.strip a)
          /\ rec !! "lifts_total_count" = PInt <$> PyStr.parse_int (PyStr.strip b))
    /\ (forall a b,
          a <> "" -> PyStr.all PyStr.isdecimal a = true ->
          (String.length a <= PyStr.max_str_digits)%nat ->
          b <> "" -> PyStr.all PyStr.isdecimal b = true ->
          (String.length b <= PyStr.max_str_digits)%nat ->
          lifts_raw = a +:+ String "/" b ->
          rec !! "lifts_open_count" = Some (PInt (PyStr.decimal a))
          /\ rec !! "lifts_total_count" = Some (PInt (PyStr.decimal b)))
    /\ (PyStr.isdigit lifts_raw = true ->
        rec !! "lifts_open_count" = PInt <$> PyStr.parse_int lifts_raw
        /\ rec !! "lifts_total_count" = None)
    /\ (lifts_raw <> "" -> PyStr.all PyStr.isdecimal lifts_raw = true ->
        (String.length lifts_raw <= PyStr.max_str_digits)%nat ->
        rec !! "lifts_open_count" = Some (PInt (PyStr.decimal lifts_raw))
        /\ rec !! "lifts_total_count" = None)
    /\ (PyStr.all PyStr.isdecimal lifts_raw = true ->
        (PyStr.max_str_digits < String.length lifts_raw)%nat ->
        rec !! "lifts_open_count" = None /\ rec !! "lifts_total_count" = None)
    /\ ((forall a b,
           PyStr.contains "/" a = false -> PyStr.contains "/" b = false ->
           lifts_raw <> a +:+ String "/" b) ->
        PyStr.isdigit lifts_raw = false ->
        rec !! "lifts_open_count" = None /\ rec !! "lifts_total_count" = None)
    /\ (rec !! "snow_valley" = cleaned (of_get (Soup.get c1 "data-value"))
        /\ rec !! "snow_mountain" = cleaned (of_get (Soup.get c2 "data-value"))
        /\ rec !! "new_snow" = cleaned (of_get (Soup.get c3 "data-value"))
        /\ rec !! "status" =
             (fun marker => PStr (status_of_classes (Soup.class_ marker)))
               <$> Soup.find_class "div" "icon-status" lifts_cell
        /\ rec !! "last_update" = cleaned (PStr (last_update_of c5))).
Proof.
  intros Hcols Hlink lifts_raw.
  destruct (parse_overview_row_cells row results w path _ _ _ _ _ _ _ Hcols Hlink)
    as (w' & Hrun & _).
  eexists _, w'. split; [exact Hrun|].
  destruct (record_fields c1 c2 c3 lifts_cell c5)
    as (Hv & Hm & Hn & Hs & Ho & Ht & Hu).
  fold lifts_raw in Ho, Ht. rewrite Ho, Ht.
  assert (Hpair : forall a b,
             PyStr.contains "/" a = false -> PyStr.contains "/" b = false ->
             lifts_raw = a +:+ String "/" b ->
             lifts_of lifts_raw
             = (PyStr.parse_int (PyStr.strip a), PyStr.parse_int (PyStr.strip b))).
  { intros a b Ha Hb ->. apply lifts_of_pair; assumption. }
  split; [|split; [|split; [|split; [|split; [|split]]]]].
  - intros a b Ha Hb Hraw. rewrite (Hpair a b Ha Hb Hraw). split; reflexivity.
  - intros a b Ha Hda Hla Hb Hdb Hlb Hraw.
    rewrite (Hpair a b (PyStrFacts.decimal_no_separator a Hda)
               (PyStrFacts.decimal_no_separator b Hdb) Hraw).
    cbn [fst snd]. rewrite !PyStrFacts.strip_decimal by assumption.
    rewrite !PyStrFacts.parse_int_decimal by assumption. split; reflexivity.
  - intros Hd. rewrite (lifts_of_digits lifts_raw Hd). split; reflexivity.
  - intros Hne Hd Hlen. rewrite (lifts_of_decimal lifts_raw Hne Hd Hlen).
    split; reflexivity.
  - intros Hd Hlen.
    assert (Hne : lifts_raw <> "").
    { intros Hraw. rewrite Hraw in Hlen. cbn in Hlen. lia. }
    rewrite (lifts_of_digits lifts_raw (PyStrFacts.isdigit_decimal _ Hne Hd)).
    destruct (PyStrFacts.parse_int_too_long lifts_raw Hd Hlen) as [-> _].
    split; reflexivity.
  - intros Hshape Hd. rewrite (lifts_of_other lifts_raw Hshape Hd). split; reflexivity.
  - auto.
Qed.

Lemma overview_row_lifts_witness :
  exists rec w',
    parse_overview_row scenario_A_row ∅ w0 = (Return (<["/x" := rec]> ∅), w')
    /\ rec !! "lifts_open_count" = Some (PInt 3)
    /\ rec !! "lifts_total_count" = Some (PInt 8).
Proof.
  destruct (overview_row_lifts scenario_A_row ∅ w0 "/x"
              (link_cell "Resort X") (value_cell "45") (value_cell "-")
              (value_cell "5") (lift_cell open_marker "3/8")
              (value_cell "2024-01-15T08:00") [])
    as (rec & w' & Hrun & Hpair & _);
    [compute_done | compute_done | ].
  exists rec, w'. split; [exact Hrun|].
  apply (Hpair "3" "8"); compute_done.
Defined.

(** C4 as stated fails on a bare integer of 4301 digits: [int] refuses it,
    the refusal is caught and the record has neither lift field. *)
Lemma long_count_gives_no_lift_field :
  Soup.text (lift_cell open_marker (nines 4301)) = nines 4301
  /\ String.length (nines 4301) = 4301%nat
  /\ PyStr.all PyStr.isdecimal (nines 4301) = true
  /\ fst (parse_overview_row long_count_row ∅ w0)
     = Return {[ "/x" := ({[ "snow_valley" := PStr "45";
                             "new_snow" := PStr "5";
                             "status" := PStr "Open";
                             "last_update" := PStr "2024-01-15T08:00" ]}
                           : gmap string py_val) ]}.
Proof.
  split; [vm_compute; reflexivity|]. split; [vm_compute; reflexivity|].
  split; [vm_compute; reflexivity|]. compute_done.
Qed.

(** Scenario D: the lift cell reads [abc]; neither lift field is present and
    the other fields are. *)
Example scenario_D_record :
  parse_overview_row scenario_D_row ∅ w0
  = (Return {[ "/x" := ({[ "snow_valley" := PStr "45";
                           "snow_mountain" := PStr "120";
                           "new_snow" := PStr "5";
                           "status" := PStr "Closed";
                           "last_update" := PStr "Today, 08:00" ]}
                         : gmap string py_val) ]}, w0).
Proof. compute_done. Qed.

(** One side of the slash may fail without the other: [x/8] keeps the total,
    and the failure is logged at debug level. *)
Example one_side_kept :
  parse_lifts "x/8" w0
  = (Return (None, Some 8),
     {| clock := noon 15;
        log := [(DEBUG, "Could not parse lifts_open_count: x")] |}).
Proof. compute_done. Qed.

(** A superscript digit passes [isdigit] and is refused by [int]. *)
Example superscript_refused :
  PyStr.isdigit (String (ascii_of_nat 178) "") = true
  /\ lifts_of (String (ascii_of_nat 178) "") = (None, None).
Proof. split; compute_done. Qed.

(** ** The entries of the dictionary *)

Lemma size_list_to_set_le (l : list string) :
  (size (list_to_set l : gset string) <= length l)%nat.
Proof.
  induction l as [|x l IH]; [rewrite list_to_set_nil, size_empty; lia|].
  rewrite list_to_set_cons, size_union_alt, size_singleton. cbn [length].
  assert (Hsub : (size (list_to_set l ∖ {[x]} : gset string)
                  <= size (list_to_set l : gset string))%nat).
  { apply subseteq_size. intros y [Hy _]%elem_of_difference. exact Hy. }
  lia.
Qed.

Lemma link_target_None (c0 : tag) :
  link_target c0 = None <->
  forall link href,
    Soup.find "a" c0 = Some link -> Soup.get link "href" = Some href -> href = "".
Proof.
  unfold link_target. split.
  - intros H link href Hl Hh. rewrite Hl in H. cbn [mbind option_bind] in H.
    rewrite Hh in H. cbn [mbind option_bind] in H.
    destruct href; [reflexivity|discriminate].
  - intros H. destruct (Soup.find "a" c0) as [link|]; [|reflexivity].
    cbn [mbind option_bind].
    destruct (Soup.get link "href") as [href|] eqn:Hh; [|reflexivity].
    cbn [mbind option_bind]. rewrite (H link href eq_refl Hh). reflexivity.
Qed.

(** The rows the loop skips (lines 135-140): fewer than six cells, or a first
    cell whose first link has no target or an empty one. *)
Lemma row_target_None (row : tag) :
  row_target row = None <->
  (length (Soup.find_all "td" row) < 6)%nat
  \/ exists c0,
       head (Soup.find_all "td" row) = Some c0
       /\ forall link href,
            Soup.find "a" c0 = Some link -> Soup.get link "href" = Some href ->
            href = "".
Proof.
  unfold row_target.
  destruct (Soup.find_all "td" row) as [|c0 [|c1 [|c2 [|c3 [|c4 [|c5 cols]]]]]];
    cbn [length head];
    try (split; [intros _; left; lia | reflexivity]).
  rewrite link_target_None. split.
  - intros H. right. eauto.
  - intros [H|(c & [= <-] & H)]; [lia|exact H].
Qed.

(** C3, amended: on a page with a snow table, [parse_overview_data] skips the
    first row, skips every later row with fewer than six cells or whose
    first cell's first link has no non-empty target, and returns a
    dictionary whose keys are exactly the targets of the rows it keeps; each
    entry is the record of the last kept row with that target.  Rows with
    the same target share one entry, so the number of entries is at most the
    number of rows after the header minus the skipped ones, and equals it
    when the targets of the kept rows are pairwise distinct. *)
Theorem overview_entries (soup table : tag) (w : world) :
  Soup.find_class "table" "snow" soup = Some table ->
  let rows := drop 1 (Soup.find_all "tr" table) in
  let targets := omap row_target rows in
  let skipped := filter (fun row => row_target row = None) rows in
  exists results w',
    parse_overview_data soup w = (Return results, w')
    /\ dom results = list_to_set targets
    /\ (forall path rec, results !! path = Some rec ->
          exists before row after,
            rows = (before ++ row :: after)%list
            /\ row_target row = Some path
            /\ rec = row_record row
            /\ forall later, later ∈ after -> row_target later <> Some path)
    /\ (forall row, row ∈ skipped <->
          row ∈ rows
          /\ ((length (Soup.find_all "td" row) < 6)%nat
              \/ exists c0,
                   head (Soup.find_all "td" row) = Some c0
                   /\ forall link href,
                        Soup.find "a" c0 = Some link ->
                        Soup.get link "href" = Some href -> href = ""))
    /\ (size results <= length rows - length skipped)%nat
    /\ (NoDup targets -> size results = (length rows - length skipped)%nat).
Proof.
  intros Htable rows targets skipped.
  destruct (parse_overview_data_run soup w) as (w' & Hrun & _).
  exists (overview_of soup), w'. split; [exact Hrun|].
  assert (Hrows : data_rows soup = rows) by (unfold data_rows; rewrite Htable; reflexivity).
  unfold overview_of. rewrite Hrows.
  assert (Hdom : dom (fold_left overview_step rows ∅) =@{gset string} list_to_set targets)
    by apply overview_fold_dom.
  assert (Hlen : (length targets + length skipped = length rows)%nat)
    by apply length_omap_filter.
  split; [exact Hdom|]. split; [|split; [|split]].
  - intros path rec. rewrite overview_fold_lookup.
    destruct (last (filter (fun row => row_target row = Some path) rows))
      as [row|] eqn:Hlast; [|rewrite lookup_empty; discriminate].
    intros [= <-].
    apply last_filter_split in Hlast as (before & after & Hsplit & Hrow & Hafter).
    exists before, row, after. auto.
  - intros row. unfold skipped. rewrite list_elem_of_filter, row_target_None.
    tauto.
  - rewrite <- size_dom, Hdom.
    pose proof (size_list_to_set_le targets). lia.
  - intros Hnodup. rewrite <- size_dom, Hdom.
    rewrite (size_list_to_set targets Hnodup). lia.
Qed.

Lemma overview_entries_witness :
  exists results w',
    parse_overview_data duplicate_page w0 = (Return results, w')
    /\ dom results = ({[ "/x" ]} : gset string)
    /\ (size results <= 2)%nat.
Proof.
  destruct (overview_entries duplicate_page
              (Tag "table" ["snow"] ∅
                 (Element header_row :: map Element [scenario_A_row; scenario_D_row]))
              w0)
    as (results & w' & Hrun & Hdom & _ & _ & Hsize & _); [compute_done|].
  exists results, w'. split; [exact Hrun|]. split.
  - rewrite Hdom. compute_done.
  - etransitivity; [exact Hsize|]. vm_compute. lia.
Defined.

(** C3 as stated fails when two rows link to the same resort: both rows of
    [duplicate_page] are kept, and the dictionary has one entry, the record
    of the later row.  It also fails on a row of six cells whose first cell
    has a link with a target after a link without one: the row is skipped,
    because the first link decides. *)
Lemma overview_count_with_duplicate_targets :
  (parse_overview_data duplicate_page w0
   = (Return {[ "/x" := row_record scenario_D_row ]}, w0)
   /\ size ({[ "/x" := row_record scenario_D_row ]} : gmap string (gmap string py_val))
      = 1%nat
   /\ length (data_rows duplicate_page) = 2%nat
   /\ filter (fun row => row_target row = None) (data_rows duplicate_page) = [])
  /\ (data_rows two_link_page = [two_link_row]
      /\ Soup.find_all "td" two_link_row
         = [ two_link_cell; value_cell "45"; value_cell "-"; value_cell "5";
             lift_cell open_marker "3/8"; value_cell "2024-01-15T08:00" ]
      /\ Soup.find_all "a" two_link_cell
         = [ Tag "a" [] ∅ [NavigableString "Resort Y"];
             Tag "a" [] {[ "href" := "/y" ]} [NavigableString "details"] ]
      /\ parse_overview_data two_link_page w0 = (Return ∅, w0)).
Proof.
  split.
  - split; [compute_done|]. split; [compute_done|]. split; compute_done.
  - split; [vm_compute; reflexivity|]. split; [vm_compute; reflexivity|].
    split; [vm_compute; reflexivity|compute_done].
Qed.

Lemma scenario_A_overview :
  overview_of scenario_A
  = {[ "/x" := ({[ "snow_valley" := PStr "45";
                   "new_snow" := PStr "5";
                   "lifts_open_count" := PInt 3;
                   "lifts_total_count" := PInt 8;
                   "status" := PStr "Open";
                   "last_update" := PStr "2024-01-15T08:00" ]}
                 : gmap string py_val) ]}.
Proof. compute_done. Qed.

(** C5, amended: for the row of Scenario A, [parse_overview_data] returns
    one record under ["/x"], with [snow_valley] the string "45" and
    [new_snow] the string "5" as the attributes give them,
    [lifts_open_count] 3, [lifts_total_count] 8, [status] "Open" and
    [last_update] "2024-01-15T08:00"; the mountain depth is left out. *)
Theorem scenario_A_record (w : world) :
  exists w',
    parse_overview_data scenario_A w
    = (Return {[ "/x" := ({[ "snow_valley" := PStr "45";
                             "new_snow" := PStr "5";
                             "lifts_open_count" := PInt 3;
                             "lifts_total_count" := PInt 8;
                             "status" := PStr "Open";
                             "last_update" := PStr "2024-01-15T08:00" ]}
                           : gmap string py_val) ]}, w')
    /\ clock w' = clock w.
Proof.
  destruct (parse_overview_data_run scenario_A w) as (w' & Hrun & Hclock).
  exists w'. split; [|exact Hclock].
  rewrite Hrun, scenario_A_overview. reflexivity.
Qed.

(** C5 as stated fails: the record does not hold the numbers 45 and 5 for
    the two depths. *)
Lemma scenario_A_depths_are_not_numbers :
  fst (parse_overview_data scenario_A w0)
  <> Return {[ "/x" := ({[ "snow_valley" := PInt 45;
                           "new_snow" := PInt 5;
                           "lifts_open_count" := PInt 3;
                           "lifts_total_count" := PInt 8;
                           "status" := PStr "Open";
                           "last_update" := PStr "2024-01-15T08:00" ]}
                         : gmap string py_val) ]}.
Proof.
  intros H.
  apply (f_equal (fun o => match o with
                           | Return r => r !! "/x" ≫= (fun rec => rec !! "snow_valley")
                           | Raise _ => None
                           end)) in H.
  vm_compute in H. discriminate H.
Qed.

(** C1: on a row whose valley cell has no [data-value] attribute, the record
    binds [snow_valley] to [None]; the dash of the mountain cell and the
    empty string of the new-snow cell are dropped. *)
Theorem missing_attribute_bound_to_None :
  parse_overview_data missing_attribute_page w0
  = (Return {[ "/x" := ({[ "snow_valley" := PNone;
                           "lifts_open_count" := PInt 3;
                           "lifts_total_count" := PInt 8;
                           "last_update" := PStr "2024-01-15T08:00" ]}
                         : gmap string py_val) ]}, w0).
Proof. compute_done. Qed.

(** What does hold of every record: no field is the dash or the empty
    string, and a depth is present exactly when its cell's attribute is
    neither; a cell without the attribute leaves [None] under the key. *)
Lemma overview_records_cleaned (soup : tag) (w : world) :
  exists results w',
    parse_overview_data soup w = (Return results, w')
    /\ forall path rec k v,
         results !! path = Some rec -> rec !! k = Some v ->
         v <> PStr "-" /\ v <> PStr "".
Proof.
  destruct (parse_overview_data_run soup w) as (w' & Hrun & _).
  exists (overview_of soup), w'. split; [exact Hrun|].
  intros path rec k v. unfold overview_of. rewrite overview_fold_lookup.
  destruct (last (filter (fun row => row_target row = Some path) (data_rows soup)))
    as [row|]; [|rewrite lookup_empty; discriminate].
  intros [= <-]. unfold row_record.
  destruct (Soup.find_all "td" row) as [|c0 [|c1 [|c2 [|c3 [|c4 [|c5 cols]]]]]];
    try (rewrite lookup_empty; discriminate).
  apply record_no_placeholder.
Qed.

Lemma overview_row_depth (row : tag) results (w : world) (path : string)
    (c0 c1 c2 c3 c4 c5 : tag) (rest : list tag) :
  Soup.find_all "td" row = c0 :: c1 :: c2 :: c3 :: c4 :: c5 :: rest ->
  link_target c0 = Some path ->
  exists rec w',
    parse_overview_row row results w = (Return (<[path := rec]> results), w')
    /\ rec !! "snow_valley" =
         match Soup.get c1 "data-value" with
         | None => Some PNone
         | Some v => if decide (v = "-" \/ v = "") then None else Some (PStr v)
         end.
Proof.
  intros Hcols Hlink.
  destruct (parse_overview_row_cells row results w path _ _ _ _ _ _ _ Hcols Hlink)
    as (w' & Hrun & _).
  eexists _, w'. split; [exact Hrun|].
  destruct (record_fields c1 c2 c3 c4 c5) as (Hv & _). rewrite Hv.
  destruct (Soup.get c1 "data-value") as [v|]; cbn [of_get].
  - case_decide as Hv'.
    + apply cleaned_None. destruct Hv' as [->| ->]; auto.
    + apply cleaned_Some; intros [= ->]; apply Hv'; auto.
  - apply cleaned_Some; discriminate.
Qed.

(** ** The directory of resorts *)





(** C10, amended: [get_ski_areas] never lets an instance of [Exception]
    reach its caller.  When the request or the tree builder raises one, it
    is logged and the empty dictionary is returned; when they return, the
    result is that of reading the tree, which raises nothing.  What the
    [except Exception] clause does not catch, an exception that is no
    instance of [Exception] such as the cancellation of the awaited
    request, is raised to the caller as it is. *)
Theorem get_ski_areas_catches_exceptions (BASE_URL : string)
    (session_get_text : string -> M string) (BeautifulSoup : string -> M tag)
    (country_path : string) (w : world) :
  (forall exc w',
     get_ski_areas BASE_URL session_get_text BeautifulSoup country_path w
     = (Raise exc, w') ->
     is_Exception exc = false)
  /\ match (html ← session_get_text (BASE_URL +:+ country_path);
            BeautifulSoup html) w with
     | (Raise exc, w') =>
         get_ski_areas BASE_URL session_get_text BeautifulSoup country_path w
         = if is_Exception exc then
             (Return ∅,
              {| clock := clock w';
                 log := log w' ++ [(ERROR, "Error fetching ski areas: "
                                           +:+ str_of_exn exc)] |})
           else (Raise exc, w')
     | (Return soup, w') =>
         get_ski_areas BASE_URL session_get_text BeautifulSoup country_path w
         = list_resorts soup w'
         /\ exists ski_areas w'', list_resorts soup w' = (Return ski_areas, w'')
     end.
Proof.
  unfold get_ski_areas, try_except. rewrite !run_bind.
  destruct (session_get_text (BASE_URL +:+ country_path) w) as [[html|exc] w1].
  - rewrite run_bind.
    destruct (BeautifulSoup html w1) as [[soup|exc] w2].
    + rewrite list_resorts_run. split; [discriminate|]. split; [reflexivity|eauto].
    + destruct (is_Exception exc) eqn:Hexc.
      * split; [discriminate|reflexivity].
      * split; [|reflexivity]. intros exc' w' [= <- _]. exact Hexc.
  - destruct (is_Exception exc) eqn:Hexc.
    + split; [discriminate|reflexivity].
    + split; [|reflexivity]. intros exc' w' [= <- _]. exact Hexc.
Qed.

(** C10 as stated fails when the request is cancelled: the cancellation is
    not an [Exception], the clause does not catch it and the call raises. *)
Lemma cancelled_request_propagates :
  get_ski_areas a_BASE_URL a_cancelled_session a_builder "/oesterreich/schneewerte/" w0
  = (Raise (CancelledError ""), w0).
Proof. reflexivity. Qed.

(** ** Determinism *)

Example today_at_noon_15 :
  CrossCountry.parse_relative_or_absolute (fun _ _ => None) "Heute, 11:52" "heute"
    (Date 2024 1 15)
  = Some {| date_of := Date 2024 1 15; hour := 11; minute := 52 |}.
Proof. compute_done. Qed.

Example unreadable_time :
  CrossCountry.parse_relative_or_absolute (fun _ _ => None) "Heute, 25:00" "heute"
    (Date 2024 1 15)
  = None.
Proof. compute_done. Qed.


(** ** The log of a parse *)









(** ** Reading a sensor *)

Lemma run_dict_getitem {V : Type} (d : gmap string V) (key : string) (w : world) :
  Py.dict_getitem d key w =
  match d !! key with
  | Some v => (Return v, w)
  | None => (Raise (KeyError key), w)
  end.
Proof. unfold Py.dict_getitem. destruct (d !! key); reflexivity. Qed.

(** What [native_value] does with the value found under the key. *)
Lemma native_value_found (self : BergfexSensor)
    (data : gmap string (gmap string py_val)) (area_data : gmap string py_val)
    (value : py_val) (w : world) :
  data !! _area_path self = Some area_data ->
  area_data !! _data_key self = Some value ->
  native_value self data w =
  match value with
  | PStr s =>
      if PyStr.isdigit s then
        match PyStr.parse_int s with
        | Some n => (Return (PInt n), w)
        | None => (Raise (ValueError (PyStr.int_error s)), w)
        end
      else (Return value, w)
  | _ => (Return value, w)
  end.
Proof.
  intros Harea Hvalue. unfold native_value. rewrite Harea.
  assert (Hne : area_data <> ∅).
  { intros ->. rewrite lookup_empty in Hvalue. discriminate. }
  rewrite (bool_decide_eq_false_2 _ Hne).
  rewrite bool_decide_eq_true_2 by (apply elem_of_dom; eauto).
  cbn [negb andb]. rewrite run_bind, run_dict_getitem, Hvalue.
  destruct value as [|s|n]; try reflexivity.
  destruct (PyStr.isdigit s); [|reflexivity].
  rewrite run_bind, run_int. destruct (PyStr.parse_int s); reflexivity.
Qed.

Lemma native_value_not_found (self : BergfexSensor)
    (data : gmap string (gmap string py_val)) (w : world) :
  data !! _area_path self ≫= (fun area_data => area_data !! _data_key self) = None ->
  native_value self data w = (Return PNone, w).
Proof.
  unfold native_value. destruct (data !! _area_path self) as [area_data|];
    [|reflexivity].
  cbn [mbind option_bind]. intros Hkey.
  rewrite (bool_decide_eq_false_2 (_data_key self ∈ dom area_data))
    by (rewrite elem_of_dom, Hkey; intros [? [=]]).
  rewrite andb_false_r. reflexivity.
Qed.

(** The record stored under a key of the parsed dictionary is the cleaned
    [area_data] of the cells of a row. *)
Lemma overview_record_cells (soup : tag) (path : string) (rec : gmap string py_val) :
  overview_of soup !! path = Some rec ->
  exists c1 c2 c3 c4 c5,
    rec = filter (fun kv => not_placeholder kv.2) (area_data_of c1 c2 c3 c4 c5).
Proof.
  unfold overview_of. rewrite overview_fold_lookup.
  destruct (last (filter (fun row => row_target row = Some path) (data_rows soup)))
    as [row|] eqn:Hlast; [|rewrite lookup_empty; discriminate].
  intros [= <-]. apply last_filter_Some in Hlast as [_ Hrow].
  unfold row_target, row_record in *.
  destruct (Soup.find_all "td" row) as [|c0 [|c1 [|c2 [|c3 [|c4 [|c5 cols]]]]]];
    try discriminate.
  eauto 10.
Qed.

Lemma area_data_keys (c1 c2 c3 c4 c5 : tag) (k : string) :
  k ∈ dom (area_data_of c1 c2 c3 c4 c5) ->
  k ∈ ["status"; "snow_valley"; "snow_mountain"; "new_snow"; "lifts_open_count";
       "lifts_total_count"; "last_update"].
Proof.
  intros Hk.
  destruct (decide (k ∈ ["status"; "snow_valley"; "snow_mountain"; "new_snow";
                         "lifts_open_count"; "lifts_total_count"; "last_update"]))
    as [H|H]; [exact H|].
  exfalso. apply elem_of_dom in Hk as [v Hv].
  rewrite !not_elem_of_cons in H.
  destruct H as (H1 & H2 & H3 & H4 & H5 & H6 & H7 & _).
  revert Hv. unfold area_data_of.
  destruct (Soup.find_class "div" "icon-status" c4);
    destruct (lifts_of (PyStr.strip (Soup.text c4))) as [[?|] [?|]];
    cbn [fst snd]; rewrite ?lookup_insert_ne by congruence;
    rewrite lookup_empty; discriminate.
Qed.

Lemma status_of_classes_values (classes : list string) :
  status_of_classes classes ∈ ["Open"; "Closed"; "Unknown"].
Proof.
  unfold status_of_classes. repeat case_bool_decide; rewrite !elem_of_cons; auto.
Qed.

Lemma status_not_digits (classes : list string) :
  PyStr.isdigit (status_of_classes classes) = false.
Proof. unfold status_of_classes. repeat case_bool_decide; reflexivity. Qed.

(** The kinds of value a record holds under each key. *)
Lemma record_value_kinds (c1 c2 c3 c4 c5 : tag) (k : string) (v : py_val) :
  filter (fun kv => not_placeholder kv.2) (area_data_of c1 c2 c3 c4 c5) !! k = Some v ->
  (k = "status" /\ exists classes, v = PStr (status_of_classes classes))
  \/ (k ∈ ["lifts_open_count"; "lifts_total_count"] /\ exists n, v = PInt n)
  \/ (k ∈ ["snow_valley"; "snow_mountain"; "new_snow"]
      /\ (v = PNone \/ exists s, v = PStr s))
  \/ (k = "last_update" /\ exists s, v = PStr s).
Proof.
  intros Hv.
  assert (Hk : k ∈ dom (area_data_of c1 c2 c3 c4 c5)).
  { apply map_lookup_filter_Some in Hv as [Hv _]. apply elem_of_dom. eauto. }
  apply area_data_keys in Hk.
  destruct (record_fields c1 c2 c3 c4 c5) as (Hsv & Hsm & Hns & Hst & Hlo & Hlt & Hlu).
  cbv zeta in *.
  assert (Hget : forall o, cleaned (of_get o) = Some v -> v = PNone \/ exists s, v = PStr s).
  { intros o. unfold cleaned. case_decide; [|discriminate]. intros [= <-].
    destruct o; cbn; eauto. }
  rewrite !elem_of_cons in Hk.
  destruct Hk as [->|[->|[->|[->|[->|[->|[->|Hk]]]]]]].
  - left. split; [reflexivity|]. rewrite Hst in Hv.
    destruct (Soup.find_class "div" "icon-status" c4) as [d|]; [|discriminate].
    injection Hv as <-. eauto.
  - right. right. left. rewrite !elem_of_cons. split; [auto|].
    rewrite Hsv in Hv. eauto.
  - right. right. left. rewrite !elem_of_cons. split; [auto|].
    rewrite Hsm in Hv. eauto.
  - right. right. left. rewrite !elem_of_cons. split; [auto|].
    rewrite Hns in Hv. eauto.
  - right. left. rewrite !elem_of_cons. split; [auto|]. rewrite Hlo in Hv.
    destruct (lifts_of _).1; [|discriminate]. injection Hv as <-. eauto.
  - right. left. rewrite !elem_of_cons. split; [auto|]. rewrite Hlt in Hv.
    destruct (lifts_of _).2; [|discriminate]. injection Hv as <-. eauto.
  - right. right. right. split; [reflexivity|]. rewrite Hlu in Hv.
    unfold cleaned in Hv. case_decide; [|discriminate]. injection Hv as <-. eauto.
  - inversion Hk.
Qed.

(** X2: a sensor reads [None], without raising, exactly when the data has no
    record for its area, or the record has no value under its key, or the
    value under the key is [None]. *)
Theorem native_value_None (self : BergfexSensor)
    (data : gmap string (gmap string py_val)) (w : world) :
  native_value self data w = (Return PNone, w) <->
  (forall area_data value,
     data !! _area_path self = Some area_data ->
     area_data !! _data_key self = Some value -> value = PNone).
Proof.
  destruct (data !! _area_path self ≫= (fun area_data => area_data !! _data_key self))
    as [value|] eqn:Hlookup.
  - destruct (data !! _area_path self) as [area_data|] eqn:Harea; [|discriminate].
    cbn [mbind option_bind] in Hlookup.
    rewrite (native_value_found self data area_data value w Harea Hlookup).
    split.
    + intros Hrun area_data' value' [= <-] Hvalue'.
      assert (value' = value) as -> by congruence.
      destruct value as [|s|n]; [reflexivity| |discriminate].
      destruct (PyStr.isdigit s); [|discriminate].
      destruct (PyStr.parse_int s); discriminate.
    + intros Hnone. rewrite (Hnone area_data value eq_refl Hlookup). reflexivity.
  - rewrite (native_value_not_found self data w Hlookup). split; [|reflexivity].
    intros _ area_data value Harea Hvalue. rewrite Harea in Hlookup.
    cbn [mbind option_bind] in Hlookup. congruence.
Qed.

(** X3: a value that is a non-empty string of at most 4300 decimal digits
    is read as the integer it writes. *)
Theorem native_value_digits (self : BergfexSensor)
    (data : gmap string (gmap string py_val)) (area_data : gmap string py_val)
    (s : string) (w : world) :
  data !! _area_path self = Some area_data ->
  area_data !! _data_key self = Some (PStr s) ->
  s <> "" -> PyStr.all PyStr.isdecimal s = true ->
  (String.length s <= PyStr.max_str_digits)%nat ->
  native_value self data w = (Return (PInt (PyStr.decimal s)), w).
Proof.
  intros Harea Hvalue Hne Hall Hlen.
  rewrite (native_value_found self data area_data (PStr s) w Harea Hvalue).
  rewrite (PyStrFacts.isdigit_decimal s Hne Hall).
  rewrite (PyStrFacts.parse_int_decimal s Hne Hall Hlen). reflexivity.
Qed.

Lemma native_value_digits_witness :
  native_value (a_sensor "/x" "snow_valley") {[ "/x" := {[ "snow_valley" := PStr "45" ]} ]} w0
  = (Return (PInt 45), w0).
Proof.
  apply (native_value_digits (a_sensor "/x" "snow_valley")
           {[ "/x" := {[ "snow_valley" := PStr "45" ]} ]}
           {[ "snow_valley" := PStr "45" ]} "45" w0).
  - vm_compute; reflexivity.
  - vm_compute; reflexivity.
  - discriminate.
  - reflexivity.
  - vm_compute. lia.
Defined.

(** X4: reading a sensor raises exactly when the value under its key is a
    string that [str.isdigit] accepts and [int] refuses; what is raised is
    the [ValueError] of [int], and nothing else is changed.  A string of
    more than 4300 digits 0-9 is such a value: reading it raises the
    [ValueError] that names the limit. *)
Theorem native_value_raises (self : BergfexSensor)
    (data : gmap string (gmap string py_val)) (w : world) :
  (forall e w',
     native_value self data w = (Raise e, w') <->
     exists area_data s,
       data !! _area_path self = Some area_data
       /\ area_data !! _data_key self = Some (PStr s)
       /\ PyStr.isdigit s = true
       /\ int s w = (Raise e, w'))
  /\ (forall area_data s,
        data !! _area_path self = Some area_data ->
        area_data !! _data_key self = Some (PStr s) ->
        PyStr.all PyStr.isdecimal s = true ->
        (PyStr.max_str_digits < String.length s)%nat ->
        native_value self data w =
        (Raise
           (ValueError
              ("Exceeds the limit (4300 digits) for integer string conversion: value has "
               +:+ NilZero.string_of_uint (Nat.to_uint (String.length s))
               +:+ " digits; use sys.set_int_max_str_digits() to increase the limit")),
         w)).
Proof.
  split.
  - intros e w'.
    destruct (data !! _area_path self ≫= (fun area_data => area_data !! _data_key self))
      as [value|] eqn:Hlookup.
    + destruct (data !! _area_path self) as [area_data|] eqn:Harea; [|discriminate].
      cbn [mbind option_bind] in Hlookup.
      rewrite (native_value_found self data area_data value w Harea Hlookup).
      split.
      * destruct value as [|s|n]; try discriminate.
        destruct (PyStr.isdigit s) eqn:Hd; [|discriminate].
        intros Hraise. exists area_data, s. rewrite run_int.
        destruct (PyStr.parse_int s); [discriminate|].
        injection Hraise as <- <-. repeat split; auto.
      * intros (area_data' & s & [= <-] & Hvalue & Hd & Hint).
        assert (value = PStr s) as -> by congruence.
        rewrite Hd. rewrite run_int in Hint.
        destruct (PyStr.parse_int s); [discriminate|].
        injection Hint as <- <-. reflexivity.
    + rewrite (native_value_not_found self data w Hlookup). split; [discriminate|].
      intros (area_data & s & Harea & Hvalue & _). rewrite Harea in Hlookup.
      cbn [mbind option_bind] in Hlookup. congruence.
  - intros area_data s Harea Hvalue Hall Hlen.
    assert (Hne : s <> "") by (intros ->; cbn in Hlen; lia).
    rewrite (native_value_found self data area_data (PStr s) w Harea Hvalue).
    rewrite (PyStrFacts.isdigit_decimal s Hne Hall).
    destruct (PyStrFacts.parse_int_too_long s Hall Hlen) as [-> ->]. reflexivity.
Qed.

(** X5: any other value, an integer or a string that [str.isdigit] refuses,
    is read as it is stored. *)
Theorem native_value_kept (self : BergfexSensor)
    (data : gmap string (gmap string py_val)) (area_data : gmap string py_val)
    (value : py_val) (w : world) :
  data !! _area_path self = Some area_data ->
  area_data !! _data_key self = Some value ->
  (forall s, value = PStr s -> PyStr.isdigit s = false) ->
  native_value self data w = (Return value, w).
Proof.
  intros Harea Hvalue Hkept.
  rewrite (native_value_found self data area_data value w Harea Hvalue).
  destruct value as [|s|n]; try reflexivity.
  rewrite (Hkept s eq_refl). reflexivity.
Qed.

Lemma native_value_kept_witness :
  native_value (a_sensor "/x" "last_update")
    {[ "/x" := {[ "last_update" := PStr "2024-01-15T08:00" ]} ]} w0
  = (Return (PStr "2024-01-15T08:00"), w0).
Proof.
  apply (native_value_kept (a_sensor "/x" "last_update")
           {[ "/x" := {[ "last_update" := PStr "2024-01-15T08:00" ]} ]}
           {[ "last_update" := PStr "2024-01-15T08:00" ]}
           (PStr "2024-01-15T08:00") w0).
  - vm_compute; reflexivity.
  - vm_compute; reflexivity.
  - intros s [= <-]. reflexivity.
Defined.

(** ** What the dictionary of a page holds *)

Lemma row_target_nonempty (row : tag) : row_target row <> Some "".
Proof.
  unfold row_target.
  destruct (Soup.find_all "td" row) as [|c0 [|c1 [|c2 [|c3 [|c4 [|c5 cols]]]]]];
    try discriminate.
  intros (link & _ & _ & Hne)%link_target_Some. contradiction.
Qed.

(** X6: every value of every record [parse_overview_data] returns is of
    the kind its key announces: the status is Open, Closed or Unknown, the
    two lift counts are integers, a depth is a string or [None], the time of
    the last update is a string; there is no other key, and no record is
    stored under the empty path. *)
Theorem overview_record_kinds (soup : tag) (w : world) :
  exists results w',
    parse_overview_data soup w = (Return results, w')
    /\ results !! "" = None
    /\ forall path rec k v,
         results !! path = Some rec -> rec !! k = Some v ->
         (k = "status" /\ v ∈ [PStr "Open"; PStr "Closed"; PStr "Unknown"])
         \/ (k ∈ ["lifts_open_count"; "lifts_total_count"] /\ exists n, v = PInt n)
         \/ (k ∈ ["snow_valley"; "snow_mountain"; "new_snow"]
             /\ (v = PNone \/ exists s, v = PStr s))
         \/ (k = "last_update" /\ exists s, v = PStr s).
Proof.
  destruct (parse_overview_data_run soup w) as (w' & Hrun & _).
  exists (overview_of soup), w'. split; [exact Hrun|]. split.
  - unfold overview_of. rewrite overview_fold_lookup.
    destruct (last (filter (fun row => row_target row = Some "") (data_rows soup)))
      as [row|] eqn:Hlast; [|apply lookup_empty].
    apply last_filter_Some in Hlast as [_ Hrow].
    destruct (row_target_nonempty row Hrow).
  - intros path rec k v Hrec Hv.
    apply overview_record_cells in Hrec as (c1 & c2 & c3 & c4 & c5 & ->).
    destruct (record_value_kinds c1 c2 c3 c4 c5 k v Hv)
      as [(-> & classes & ->)|H]; [|auto].
    left. split; [reflexivity|].
    pose proof (status_of_classes_values classes) as Hs.
    rewrite !elem_of_cons in *.
    destruct Hs as [->|[->|[->|Hs]]]; auto. inversion Hs.
Qed.

(** X7: when several rows link to the same target, the record stored
    under it is that of the last of them. *)
Theorem overview_last_row_wins (soup : tag) (w : world)
    (before after : list tag) (row : tag) (path : string) :
  data_rows soup = (before ++ row :: after)%list ->
  row_target row = Some path ->
  (forall later, later ∈ after -> row_target later <> Some path) ->
  exists results w',
    parse_overview_data soup w = (Return results, w')
    /\ results !! path = Some (row_record row).
Proof.
  intros Hrows Hrow Hafter.
  destruct (parse_overview_data_run soup w) as (w' & Hrun & _).
  exists (overview_of soup), w'. split; [exact Hrun|].
  unfold overview_of. rewrite overview_fold_lookup, Hrows.
  rewrite filter_app, filter_cons, decide_True by exact Hrow.
  assert (Hnone : filter (fun row => row_target row = Some path) after = []).
  { clear -Hafter. induction after as [|r rs IH]; [reflexivity|].
    rewrite filter_cons, decide_False by (apply Hafter; left).
    apply IH. intros later Hl. apply Hafter. right. exact Hl. }
  rewrite Hnone, last_snoc. reflexivity.
Qed.

Lemma overview_last_row_wins_witness :
  exists results w',
    parse_overview_data duplicate_page w0 = (Return results, w')
    /\ results !! "/x" = Some (row_record scenario_D_row).
Proof.
  apply (overview_last_row_wins duplicate_page w0 [scenario_A_row] [] scenario_D_row "/x").
  - compute_done.
  - compute_done.
  - intros later Hl. inversion Hl.
Defined.

(** ** A sensor on the dictionary of a page *)

(** X8: on the dictionary of any page, reading the status sensor or one
    of the two lift sensors never raises: the status sensor reads [None] or
    one of Open, Closed and Unknown, a lift sensor [None] or an integer. *)
Theorem parsed_status_and_counts_read (soup : tag) (self : BergfexSensor)
    (w : world) :
  _data_key self ∈ ["status"; "lifts_open_count"; "lifts_total_count"] ->
  exists data w' v,
    parse_overview_data soup w = (Return data, w')
    /\ native_value self data w' = (Return v, w')
    /\ (v = PNone
        \/ (_data_key self = "status"
            /\ v ∈ [PStr "Open"; PStr "Closed"; PStr "Unknown"])
        \/ (_data_key self <> "status" /\ exists n, v = PInt n)).
Proof.
  intros Hkey.
  destruct (parse_overview_data_run soup w) as (w' & Hrun & _).
  exists (overview_of soup), w'.
  destruct (overview_of soup !! _area_path self
              ≫= (fun area_data => area_data !! _data_key self))
    as [value|] eqn:Hlookup.
  - destruct (overview_of soup !! _area_path self) as [rec|] eqn:Hrec;
      [|discriminate].
    cbn [mbind option_bind] in Hlookup.
    rewrite (native_value_found self _ rec value w' Hrec Hlookup).
    apply overview_record_cells in Hrec as (c1 & c2 & c3 & c4 & c5 & ->).
    destruct (record_value_kinds c1 c2 c3 c4 c5 _ value Hlookup)
      as [(Hk & classes & ->)|[(Hk & n & ->)|[(Hk & _)|(Hk & _)]]].
    + exists (PStr (status_of_classes classes)).
      rewrite status_not_digits. split; [exact Hrun|]. split; [reflexivity|].
      right. left. split; [exact Hk|].
      pose proof (status_of_classes_values classes) as Hs.
      rewrite !elem_of_cons in *.
      destruct Hs as [->|[->|[->|Hs]]]; auto. inversion Hs.
    + exists (PInt n). split; [exact Hrun|]. split; [reflexivity|].
      right. right. split; [|eauto]. intros Hs. rewrite Hs in Hk.
      rewrite !elem_of_cons in Hk. destruct Hk as [?|[?|Hk]]; try discriminate.
      inversion Hk.
    + exfalso. rewrite !elem_of_cons in Hkey, Hk.
      destruct Hkey as [Hkey|[Hkey|[Hkey|Hkey]]]; [| | |inversion Hkey];
        rewrite Hkey in Hk; destruct Hk as [?|[?|[?|Hk]]]; try discriminate;
        inversion Hk.
    + exfalso. rewrite !elem_of_cons in Hkey.
      destruct Hkey as [Hkey|[Hkey|[Hkey|Hkey]]]; [| | |inversion Hkey];
        rewrite Hkey in Hk; discriminate.
  - exists PNone. split; [exact Hrun|]. split; [|auto].
    apply native_value_not_found. exact Hlookup.
Qed.

Lemma parsed_status_and_counts_read_witness :
  exists data w' v,
    parse_overview_data scenario_A w0 = (Return data, w')
    /\ native_value (a_sensor "/x" "lifts_open_count") data w' = (Return v, w')
    /\ (v = PNone
        \/ (_data_key (a_sensor "/x" "lifts_open_count") = "status"
            /\ v ∈ [PStr "Open"; PStr "Closed"; PStr "Unknown"])
        \/ (_data_key (a_sensor "/x" "lifts_open_count") <> "status"
            /\ exists n, v = PInt n)).
Proof.
  apply (parsed_status_and_counts_read scenario_A (a_sensor "/x" "lifts_open_count") w0).
  compute_done.
Defined.

(** X9: the valley sensor of a resort, read on the dictionary that the
    resort's row was just stored in.  A cell without the [data-value]
    attribute, with the dash or with the empty string all read [None].  A
    string that [str.isdigit] accepts is read through [int]: as its number
    when [int] reads it, which it does for at most 4300 digits 0-9, and
    with the [ValueError] of [int] raised when it does not.  Any other
    string is read as it is. *)
Theorem parsed_valley_read (row : tag) results (w : world) (path : string)
    (c0 c1 c2 c3 c4 c5 : tag) (rest : list tag) (self : BergfexSensor) :
  Soup.find_all "td" row = c0 :: c1 :: c2 :: c3 :: c4 :: c5 :: rest ->
  link_target c0 = Some path ->
  _area_path self = path -> _data_key self = "snow_valley" ->
  exists data w',
    parse_overview_row row results w = (Return data, w')
    /\ native_value self data w' =
       match Soup.get c1 "data-value" with
       | None => (Return PNone, w')
       | Some s =>
           if decide (s = "-" \/ s = "") then (Return PNone, w')
           else if PyStr.isdigit s then (n ← int s; mret (PInt n)) w'
           else (Return (PStr s), w')
       end
    /\ (forall s,
          Soup.get c1 "data-value" = Some s ->
          s <> "" -> PyStr.all PyStr.isdecimal s = true ->
          (String.length s <= PyStr.max_str_digits)%nat ->
          native_value self data w' = (Return (PInt (PyStr.decimal s)), w')).
Proof.
  intros Hcols Hlink Hpath Hkey.
  destruct (parse_overview_row_cells row results w path _ _ _ _ _ _ _ Hcols Hlink)
    as (w' & Hrun & _).
  eexists _, w'. split; [exact Hrun|].
  set (rec := filter (fun kv => not_placeholder kv.2) (area_data_of c1 c2 c3 c4 c5)).
  assert (Harea : <[path := rec]> results !! _area_path self = Some rec)
    by (rewrite Hpath; apply lookup_insert_eq).
  destruct (record_fields c1 c2 c3 c4 c5) as (Hv & _). fold rec in Hv.
  rewrite <- Hkey in Hv.
  assert (Hread : forall s,
             Soup.get c1 "data-value" = Some s -> ~ (s = "-" \/ s = "") ->
             native_value self (<[path := rec]> results) w' =
             if PyStr.isdigit s then (n ← int s; mret (PInt n)) w'
             else (Return (PStr s), w')).
  { intros s Hs Hplain. rewrite Hs in Hv. cbn [of_get] in Hv.
    rewrite cleaned_Some in Hv by (intros [= ->]; apply Hplain; auto).
    rewrite (native_value_found self _ rec (PStr s) w' Harea Hv).
    destruct (PyStr.isdigit s); [|reflexivity].
    rewrite run_bind, run_int. destruct (PyStr.parse_int s); reflexivity. }
  split.
  - destruct (Soup.get c1 "data-value") as [s|] eqn:Hs; cbn [of_get] in Hv.
    + case_decide as Hplain; [|apply (Hread s eq_refl Hplain)].
      apply native_value_not_found. rewrite Harea. cbn [mbind option_bind].
      rewrite Hv. apply cleaned_None. destruct Hplain as [->| ->]; auto.
    + rewrite cleaned_Some in Hv by discriminate.
      apply (native_value_found self _ rec PNone w' Harea Hv).
  - intros s Hs Hne Hall Hlen.
    rewrite (Hread s Hs).
    + rewrite (PyStrFacts.isdigit_decimal s Hne Hall), run_bind, run_int.
      rewrite (PyStrFacts.parse_int_decimal s Hne Hall Hlen). reflexivity.
    + intros [->| ->]; [discriminate|contradiction].
Qed.

Lemma parsed_valley_read_witness :
  exists data w',
    parse_overview_row scenario_A_row ∅ w0 = (Return data, w')
    /\ native_value (a_sensor "/x" "snow_valley") data w' = (Return (PInt 45), w').
Proof.
  destruct (parsed_valley_read scenario_A_row ∅ w0 "/x"
              (link_cell "Resort X") (value_cell "45") (value_cell "-")
              (value_cell "5") (lift_cell open_marker "3/8")
              (value_cell "2024-01-15T08:00") [] (a_sensor "/x" "snow_valley"))
    as (data & w' & Hrun & _ & Hdigits);
    [compute_done | compute_done | reflexivity | reflexivity | ].
  exists data, w'. split; [exact Hrun|].
  apply (Hdigits "45"); [compute_done | discriminate | reflexivity | vm_compute; lia].
Defined.

(** ** The sensors of an entry *)

Lemma append_inj_l (s a b : string) : s +:+ a = s +:+ b -> a = b.
Proof. induction s as [|c s IH]; simpl; [auto|]. intros [= H]. auto. Qed.

Lemma length_append (a b : string) :
  String.length (a +:+ b) = (String.length a + String.length b)%nat.
Proof. induction a as [|c a IH]; simpl; [reflexivity|]. rewrite IH. reflexivity. Qed.

Lemma append_inj_r (s a b : string) : a +:+ s = b +:+ s -> a = b.
Proof.
  revert b. induction a as [|c a IH]; intros [|d b] H; simpl in H.
  - reflexivity.
  - apply (f_equal String.length) in H. simpl in H.
    rewrite !length_append in H. simpl in H. lia.
  - apply (f_equal String.length) in H. simpl in H.
    rewrite !length_append in H. simpl in H. lia.
  - injection H as -> H. f_equal. apply IH, H.
Qed.

Section SensorFacts.

Variable BASE_URL : string.
Variable CONF_SKI_AREA : string.
Variable CONF_COUNTRY : string.
Variable COUNTRIES : gmap string string.
Variable session_get_text : string -> M string.
Variable BeautifulSoup : string -> M tag.
Variable async_config_entry_first_refresh : DataUpdateCoordinator -> M unit.

Lemma BergfexSensor_init_run (entry_data : gmap string string)
    (sensor_name data_key : string) (icon unit : option string)
    (state_class : option SensorStateClass) (w : world) :
  BergfexSensor_init BASE_URL CONF_SKI_AREA entry_data sensor_name data_key icon unit
    state_class w =
  match entry_data !! "name", entry_data !! CONF_SKI_AREA with
  | Some area_name, Some area_path =>
      (Return
         {| _area_name := area_name;
            _area_path := area_path;
            _config_url := BASE_URL +:+ area_path;
            _sensor_name := sensor_name;
            _data_key := data_key;
            _attr_icon := icon;
            _attr_native_unit_of_measurement := unit;
            _attr_state_class := state_class;
            _attr_unique_id :=
              "bergfex_" +:+ Py.replace " " "_" (Py.lower area_name)
              +:+ "_" +:+ Py.replace " " "_" (Py.lower sensor_name);
            _attr_name := area_name +:+ " " +:+ sensor_name |}, w)
  | Some _, None => (Raise (KeyError CONF_SKI_AREA), w)
  | None, _ => (Raise (KeyError "name"), w)
  end.
Proof.
  unfold BergfexSensor_init. rewrite run_bind, run_dict_getitem.
  destruct (entry_data !! "name") as [area_name|]; [|reflexivity].
  rewrite run_bind, run_dict_getitem.
  destruct (entry_data !! CONF_SKI_AREA) as [area_path|]; reflexivity.
Qed.

Lemma new_sensors_run (entry_data : gmap string string) (w : world) :
  new_sensors BASE_URL CONF_SKI_AREA entry_data w =
  match entry_data !! "name", entry_data !! CONF_SKI_AREA with
  | Some area_name, Some area_path =>
      (Return
         ((fun '(sensor_name, data_key, icon, unit, state_class) =>
             {| _area_name := area_name;
                _area_path := area_path;
                _config_url := BASE_URL +:+ area_path;
                _sensor_name := sensor_name;
                _data_key := data_key;
                _attr_icon := icon;
                _attr_native_unit_of_measurement := unit;
                _attr_state_class := state_class;
                _attr_unique_id :=
                  "bergfex_" +:+ Py.replace " " "_" (Py.lower area_name)
                  +:+ "_" +:+ Py.replace " " "_" (Py.lower sensor_name);
                _attr_name := area_name +:+ " " +:+ sensor_name |})
            <$> [("Status", "status", Some "mdi:ski", None, None);
                 ("Snow Valley", "snow_valley", Some "mdi:snowflake", Some "cm",
                  Some MEASUREMENT);
                 ("Snow Mountain", "snow_mountain", Some "mdi:snowflake", Some "cm",
                  Some MEASUREMENT);
                 ("New Snow", "new_snow", Some "mdi:weather-snowy-heavy", Some "cm",
                  Some MEASUREMENT);
                 ("Lifts Open", "lifts_open_count", Some "mdi:gondola", None,
                  Some MEASUREMENT);
                 ("Lifts Total", "lifts_total_count", Some "mdi:map-marker-distance",
                  None, None);
                 ("Last Update", "last_update", Some "mdi:clock-outline", None, None)]),
       w)
  | Some _, None => (Raise (KeyError CONF_SKI_AREA), w)
  | None, _ => (Raise (KeyError "name"), w)
  end.
Proof.
  unfold new_sensors. rewrite run_bind, BergfexSensor_init_run.
  destruct (entry_data !! "name") as [area_name|] eqn:Hname; [|reflexivity].
  destruct (entry_data !! CONF_SKI_AREA) as [area_path|] eqn:Hpath; [|reflexivity].
  repeat (rewrite run_bind, BergfexSensor_init_run, Hname, Hpath). reflexivity.
Qed.


(** X10: from an entry that has a name and a ski area,
    [async_setup_entry] builds seven sensors, one for each of the keys
    status, snow_valley, snow_mountain, new_snow, lifts_open_count,
    lifts_total_count and last_update, in that order.  They all carry the
    entry's name and path, the resort's page as configuration URL and the
    name followed by their own as display name; their unique ids are
    pairwise distinct; the status sensor alone has the link attribute. *)
Theorem new_sensors_made (entry_data : gmap string string)
    (area_name area_path : string) (w : world) :
  entry_data !! "name" = Some area_name ->
  entry_data !! CONF_SKI_AREA = Some area_path ->
  exists sensors,
    new_sensors BASE_URL CONF_SKI_AREA entry_data w = (Return sensors, w)
    /\ _data_key <$> sensors =
       ["status"; "snow_valley"; "snow_mountain"; "new_snow"; "lifts_open_count";
        "lifts_total_count"; "last_update"]
    /\ Forall (fun s => _area_name s = area_name
                        /\ _area_path s = area_path
                        /\ _config_url s = BASE_URL +:+ area_path
                        /\ _attr_name s = area_name +:+ " " +:+ _sensor_name s)
         sensors
    /\ NoDup (_attr_unique_id <$> sensors)
    /\ extra_state_attributes <$> sensors =
       [Some {[ "link" := BASE_URL +:+ area_path ]}; None; None; None; None; None;
        None].
Proof.
  intros Hname Hpath. rewrite new_sensors_run, Hname, Hpath.
  eexists. split; [reflexivity|]. split; [reflexivity|]. split; [|split].
  - repeat constructor.
  - change (NoDup ((fun suffix =>
                      "bergfex_" +:+ Py.replace " " "_" (Py.lower area_name)
                      +:+ "_" +:+ suffix)
                     <$> ["status"; "snow_valley"; "snow_mountain"; "new_snow";
                          "lifts_open"; "lifts_total"; "last_update"])).
    apply NoDup_fmap_2.
    + intros a b H. apply append_inj_l in H. apply append_inj_l in H.
      apply append_inj_l in H. exact H.
    + apply (bool_decide_unpack _). vm_compute. exact I.
  - reflexivity.
Qed.

(** X11: building the sensors raises exactly when the entry lacks the
    name or the ski area: a [KeyError] for the name when it is missing,
    otherwise for the ski area. *)
Theorem new_sensors_raises (entry_data : gmap string string) (w w' : world)
    (e : exn) :
  new_sensors BASE_URL CONF_SKI_AREA entry_data w = (Raise e, w') <->
  w' = w
  /\ ((entry_data !! "name" = None /\ e = KeyError "name")
      \/ (is_Some (entry_data !! "name") /\ entry_data !! CONF_SKI_AREA = None
          /\ e = KeyError CONF_SKI_AREA)).
Proof.
  rewrite new_sensors_run.
  destruct (entry_data !! "name") as [area_name|];
    [destruct (entry_data !! CONF_SKI_AREA) as [area_path|]|].
  - split; [discriminate|]. intros (_ & [(H & _)|(_ & H & _)]); discriminate.
  - split.
    + intros [= <- <-]. split; [reflexivity|]. right. eauto.
    + intros (-> & [(H & _)|(_ & _ & ->)]); [discriminate|reflexivity].
  - split.
    + intros [= <- <-]. split; [reflexivity|]. left. eauto.
    + intros (-> & [(_ & ->)|([x H] & _)]); [reflexivity|discriminate].
Qed.

(** X12: the unique ids of the sensors of two entries are the same exactly
    when the two area names are the same once lowered and with every space
    turned into an underscore; the ski area paths play no part. *)
Theorem unique_ids_follow_the_name (entry1 entry2 : gmap string string)
    (name1 name2 path1 path2 : string) (w : world) :
  entry1 !! "name" = Some name1 -> entry1 !! CONF_SKI_AREA = Some path1 ->
  entry2 !! "name" = Some name2 -> entry2 !! CONF_SKI_AREA = Some path2 ->
  exists sensors1 sensors2,
    new_sensors BASE_URL CONF_SKI_AREA entry1 w = (Return sensors1, w)
    /\ new_sensors BASE_URL CONF_SKI_AREA entry2 w = (Return sensors2, w)
    /\ (_attr_unique_id <$> sensors1 = _attr_unique_id <$> sensors2 <->
        Py.replace " " "_" (Py.lower name1) = Py.replace " " "_" (Py.lower name2)).
Proof.
  intros Hn1 Hp1 Hn2 Hp2. rewrite !new_sensors_run, Hn1, Hp1, Hn2, Hp2.
  eexists _, _. split; [reflexivity|]. split; [reflexivity|]. split.
  - intros H. cbn in H. injection H as H _.
    apply append_inj_l in H.
    change ("_" +:+ Py.replace " " "_" (Py.lower "Status")) with "_status" in H.
    apply append_inj_r in H. exact H.
  - intros H. cbn [fmap list_fmap _attr_unique_id]. rewrite H. reflexivity.
Qed.

(** X13: every field that [parse_overview_data] stores in a record is read
    by exactly one of the sensors of an entry. *)
Theorem record_keys_are_read (entry_data : gmap string string) (soup : tag)
    (area_name area_path : string) (w1 w2 : world) :
  entry_data !! "name" = Some area_name ->
  entry_data !! CONF_SKI_AREA = Some area_path ->
  exists sensors results w2',
    new_sensors BASE_URL CONF_SKI_AREA entry_data w1 = (Return sensors, w1)
    /\ parse_overview_data soup w2 = (Return results, w2')
    /\ forall path rec k,
         results !! path = Some rec -> k ∈ dom rec ->
         exists s, filter (fun s => _data_key s = k) sensors = [s].
Proof.
  intros Hname Hpath. rewrite new_sensors_run, Hname, Hpath.
  destruct (parse_overview_data_run soup w2) as (w2' & Hrun & _).
  eexists _, (overview_of soup), w2'. split; [reflexivity|]. split; [exact Hrun|].
  intros path rec k Hrec Hk.
  apply overview_record_cells in Hrec as (c1 & c2 & c3 & c4 & c5 & ->).
  assert (Hin : k ∈ dom (area_data_of c1 c2 c3 c4 c5)).
  { apply elem_of_dom in Hk as [v Hv].
    apply map_lookup_filter_Some in Hv as [Hv _]. apply elem_of_dom. eauto. }
  apply area_data_keys in Hin. rewrite !elem_of_cons in Hin.
  destruct Hin as [->|[->|[->|[->|[->|[->|[->|Hin]]]]]]];
    [eexists; reflexivity..|inversion Hin].
Qed.

(** ** The update of a coordinator *)

(** X14: an update raises only what the request or the tree builder
    raises: no page, whatever it holds, makes the update fail, and the data
    are then the dictionary of the page.  An instance of [Exception] raised
    by one of the two becomes an [UpdateFailed] with the text of that
    exception after "Error communicating with Bergfex: "; an exception that
    is no instance of [Exception], such as a cancellation, is raised as it
    is. *)
Theorem async_update_data_result (country_path : string) (w : world) :
  match (html ← session_get_text (BASE_URL +:+ country_path);
         BeautifulSoup html) w with
  | (Raise err, w') =>
      async_update_data BASE_URL session_get_text BeautifulSoup country_path w
      = if is_Exception err then
          (Raise (UpdateFailed ("Error communicating with Bergfex: "
                                +:+ str_of_exn err)), w')
        else (Raise err, w')
  | (Return soup, w') =>
      exists w'',
        async_update_data BASE_URL session_get_text BeautifulSoup country_path w
        = (Return (overview_of soup), w'')
        /\ clock w'' = clock w'
  end.
Proof.
  unfold async_update_data, try_except. rewrite !run_bind.
  destruct (session_get_text (BASE_URL +:+ country_path) w) as [[html|err] w1];
    [|destruct (is_Exception err); reflexivity].
  rewrite run_bind.
  destruct (BeautifulSoup html w1) as [[soup|err] w2];
    [|destruct (is_Exception err); reflexivity].
  destruct (parse_overview_data_run soup w2) as (w3 & Hrun & Hclock).
  exists w3. rewrite Hrun. auto.
Qed.

End SensorFacts.

Lemma new_sensors_made_witness :
  exists sensors,
    new_sensors a_BASE_URL a_CONF_SKI_AREA an_entry w0 = (Return sensors, w0)
    /\ _data_key <$> sensors =
       ["status"; "snow_valley"; "snow_mountain"; "new_snow"; "lifts_open_count";
        "lifts_total_count"; "last_update"]
    /\ Forall (fun s => _area_name s = "Resort X"
                        /\ _area_path s = "/x"
                        /\ _config_url s = a_BASE_URL +:+ "/x"
                        /\ _attr_name s = "Resort X" +:+ " " +:+ _sensor_name s)
         sensors
    /\ NoDup (_attr_unique_id <$> sensors)
    /\ extra_state_attributes <$> sensors =
       [Some {[ "link" := a_BASE_URL +:+ "/x" ]}; None; None; None; None; None;
        None].
Proof.
  apply (new_sensors_made a_BASE_URL a_CONF_SKI_AREA an_entry "Resort X" "/x" w0).
  - compute_done.
  - compute_done.
Defined.

Lemma unique_ids_follow_the_name_witness :
  exists sensors1 sensors2,
    new_sensors a_BASE_URL a_CONF_SKI_AREA an_entry w0 = (Return sensors1, w0)
    /\ new_sensors a_BASE_URL a_CONF_SKI_AREA
         (<["name" := "resort_x"]> (<[a_CONF_SKI_AREA := "/y"]> an_entry)) w0
       = (Return sensors2, w0)
    /\ (_attr_unique_id <$> sensors1 = _attr_unique_id <$> sensors2 <->
        Py.replace " " "_" (Py.lower "Resort X")
        = Py.replace " " "_" (Py.lower "resort_x")).
Proof.
  apply (unique_ids_follow_the_name a_BASE_URL a_CONF_SKI_AREA an_entry
           (<["name" := "resort_x"]> (<[a_CONF_SKI_AREA := "/y"]> an_entry))
           "Resort X" "resort_x" "/x" "/y" w0).
  - compute_done.
  - compute_done.
  - compute_done.
  - compute_done.
Defined.

Lemma record_keys_are_read_witness :
  exists sensors results w2',
    new_sensors a_BASE_URL a_CONF_SKI_AREA an_entry w0 = (Return sensors, w0)
    /\ parse_overview_data scenario_A w0 = (Return results, w2')
    /\ forall path rec k,
         results !! path = Some rec -> k ∈ dom rec ->
         exists s, filter (fun s => _data_key s = k) sensors = [s].
Proof.
  apply (record_keys_are_read a_BASE_URL a_CONF_SKI_AREA an_entry scenario_A
           "Resort X" "/x" w0 w0).
  - compute_done.
  - compute_done.
Defined.

(** ** Setting up an entry *)

Lemma run_St_bind {S A B : Type} (m : St S A) (f : A -> St S B) (s : S) (w : world) :
  (m ≫= f) s w =
  match m s w with
  | (Return a, s', w') => f a s' w'
  | (Raise e, s', w') => (Raise e, s', w')
  end.
Proof. reflexivity. Qed.

Lemma run_lift {S A : Type} (m : M A) (s : S) (w : world) :
  lift m s w = ((m w).1, s, (m w).2).
Proof. unfold lift. destruct (m w). reflexivity. Qed.

Section SetupFacts.

Variable BASE_URL : string.
Variable CONF_SKI_AREA : string.
Variable CONF_COUNTRY : string.
Variable COUNTRIES : gmap string string.
Variable async_config_entry_first_refresh : DataUpdateCoordinator -> M unit.

Let setup := async_setup_entry BASE_URL CONF_SKI_AREA CONF_COUNTRY COUNTRIES
               async_config_entry_first_refresh.

(** The whole of [async_setup_entry], case by case. *)
Lemma async_setup_entry_run (entry_data : gmap string string) (hass : hass_data)
    (w : world) :
  let country_name := Py.dict_get entry_data CONF_COUNTRY default_country in
  setup entry_data hass w =
  match COUNTRIES !! country_name with
  | None => (Raise (KeyError country_name), hass, w)
  | Some country_path =>
      match entry_data !! "name" with
      | None => (Raise (KeyError "name"), hass, w)
      | Some _ =>
          let created :=
            {| coordinator_name := "bergfex_" +:+ country_name;
               coordinator_country_path := country_path;
               update_interval := SCAN_INTERVAL |} in
          let '(coordinator, registry, w1) :=
            match coordinators hass !! country_name with
            | Some coordinator => (coordinator, coordinators hass, w)
            | None =>
                (created, <[country_name := created]> (coordinators hass),
                 {| clock := clock w;
                    log := log w ++ [(DEBUG, "Creating new coordinator for country: "
                                             +:+ country_name)] |})
            end in
          match async_config_entry_first_refresh coordinator w1 with
          | (Raise e, w2) =>
              (Raise e, {| coordinators := registry; entities := entities hass |}, w2)
          | (Return _, w2) =>
              match new_sensors BASE_URL CONF_SKI_AREA entry_data w2 with
              | (Raise e, w3) =>
                  (Raise e, {| coordinators := registry; entities := entities hass |},
                   w3)
              | (Return sensors, w3) =>
                  (Return tt,
                   {| coordinators := registry;
                      entities := entities hass ++ sensors |}, w3)
              end
          end
      end
  end.
Proof.
  cbv zeta. unfold setup, async_setup_entry.
  set (country_name := Py.dict_get entry_data CONF_COUNTRY default_country).
  rewrite run_St_bind, run_lift, run_dict_getitem.
  destruct (COUNTRIES !! country_name) as [country_path|]; [|reflexivity].
  cbn [fst snd]. rewrite run_St_bind, run_lift, run_dict_getitem.
  destruct (entry_data !! "name") as [area_name|]; [|reflexivity].
  cbn [fst snd]. rewrite run_St_bind. unfold get_state at 1.
  rewrite run_St_bind.
  destruct hass as [registry ents]. cbn [coordinators entities].
  destruct (registry !! country_name) as [coordinator|] eqn:Hreg.
  - rewrite bool_decide_eq_false_2
      by (intros H; apply H, elem_of_dom; eauto).
    change (mret (M := St hass_data) tt {| coordinators := registry; entities := ents |} w)
      with (Return tt, {| coordinators := registry; entities := ents |}, w).
    cbn beta iota. rewrite run_St_bind. unfold get_state at 1.
    rewrite run_St_bind, run_lift, run_dict_getitem.
    cbn [coordinators]. rewrite Hreg. cbn [fst snd].
    rewrite run_St_bind, run_lift.
    destruct (async_config_entry_first_refresh coordinator w) as [[[]|e] w2];
      [|reflexivity].
    cbn [fst snd]. rewrite run_St_bind, run_lift.
    destruct (new_sensors BASE_URL CONF_SKI_AREA entry_data w2) as [[sensors|e] w3];
      reflexivity.
  - rewrite bool_decide_eq_true_2 by (apply not_elem_of_dom; exact Hreg).
    rewrite run_St_bind, run_lift. cbn [fst snd logger].
    unfold modify at 1. cbn beta iota.
    rewrite run_St_bind. unfold get_state at 1.
    rewrite run_St_bind, run_lift, run_dict_getitem.
    cbn [coordinators entities]. rewrite lookup_insert_eq. cbn [fst snd].
    rewrite run_St_bind, run_lift.
    match goal with
    | |- context [async_config_entry_first_refresh ?c ?w1] =>
        destruct (async_config_entry_first_refresh c w1) as [[[]|e] w2]
    end; [|reflexivity].
    cbn [fst snd]. rewrite run_St_bind, run_lift.
    destruct (new_sensors BASE_URL CONF_SKI_AREA entry_data w2) as [[sensors|e] w3];
      reflexivity.
Qed.


(** X15: whatever it returns or raises, [async_setup_entry] never
    removes or replaces a registered coordinator.  It registers at most one
    more, under the country of the entry (Österreich for an entry without
    one), named [bergfex_] and the country, set to fetch that country's
    path of [COUNTRIES], every 30 minutes. *)
Theorem setup_registry (entry_data : gmap string string) (hass : hass_data)
    (w : world) :
  let hass' := (setup entry_data hass w).1.2 in
  coordinators hass ⊆ coordinators hass'
  /\ forall country coordinator,
       coordinators hass' !! country = Some coordinator ->
       coordinators hass !! country = None ->
       country = Py.dict_get entry_data CONF_COUNTRY default_country
       /\ coordinator_name coordinator = "bergfex_" +:+ country
       /\ COUNTRIES !! country = Some (coordinator_country_path coordinator)
       /\ update_interval coordinator = 30.
Proof.
  cbv zeta. rewrite async_setup_entry_run.
  set (country_name := Py.dict_get entry_data CONF_COUNTRY default_country).
  destruct (COUNTRIES !! country_name) as [country_path|] eqn:Hcountry;
    [|split; [reflexivity|cbn; congruence]].
  destruct (entry_data !! "name") as [area_name|];
    [|split; [reflexivity|cbn; congruence]].
  cbv zeta.
  destruct (coordinators hass !! country_name) as [coordinator|] eqn:Hreg.
  - destruct (async_config_entry_first_refresh coordinator w) as [[[]|e] w2];
      [destruct (new_sensors BASE_URL CONF_SKI_AREA entry_data w2)
         as [[sensors|e] w3]|];
      (split; [reflexivity|cbn; congruence]).
  - assert (Hnew : forall registry,
               registry = <[country_name :=
                              {| coordinator_name := "bergfex_" +:+ country_name;
                                 coordinator_country_path := country_path;
                                 update_interval := SCAN_INTERVAL |}]>
                            (coordinators hass) ->
               coordinators hass ⊆ registry
               /\ forall country coordinator,
                    registry !! country = Some coordinator ->
                    coordinators hass !! country = None ->
                    country = country_name
                    /\ coordinator_name coordinator = "bergfex_" +:+ country
                    /\ COUNTRIES !! country = Some (coordinator_country_path coordinator)
                    /\ update_interval coordinator = 30).
    { intros registry ->. split; [apply insert_subseteq, Hreg|].
      intros country coordinator Hc Hnone.
      apply lookup_insert_Some in Hc as [[<- <-]|[_ Hc]]; [|congruence].
      auto. }
    match goal with
    | |- context [async_config_entry_first_refresh ?c ?w1] =>
        destruct (async_config_entry_first_refresh c w1) as [[[]|e] w2]
    end;
      [destruct (new_sensors BASE_URL CONF_SKI_AREA entry_data w2)
         as [[sensors|e] w3]|];
      apply Hnew; reflexivity.
Qed.

(** X16: an entry whose country is not in [COUNTRIES], or that has no
    name, makes [async_setup_entry] raise [KeyError] at once: no coordinator
    is registered or refreshed, no entity is added, nothing is logged. *)
Theorem setup_key_error (entry_data : gmap string string) (hass : hass_data)
    (w : world) :
  COUNTRIES !! Py.dict_get entry_data CONF_COUNTRY default_country = None
  \/ entry_data !! "name" = None ->
  exists key, setup entry_data hass w = (Raise (KeyError key), hass, w).
Proof.
  intros H. rewrite async_setup_entry_run. cbv zeta.
  destruct (COUNTRIES !! Py.dict_get entry_data CONF_COUNTRY default_country);
    [|eauto].
  destruct H as [H|H]; [discriminate|]. rewrite H. eauto.
Qed.

(** X17: [async_setup_entry] adds the seven sensors of the entry, all
    of them for the entry's ski area, or no entity at all: when it raises,
    the entities are those there were. *)
Theorem setup_entities (entry_data : gmap string string) (hass : hass_data)
    (w : world) :
  match setup entry_data hass w with
  | (Return _, hass', _) =>
      exists sensors,
        entities hass' = (entities hass ++ sensors)%list
        /\ length sensors = 7%nat
        /\ Forall (fun s => entry_data !! CONF_SKI_AREA = Some (_area_path s)
                            /\ entry_data !! "name" = Some (_area_name s)) sensors
  | (Raise _, hass', _) => entities hass' = entities hass
  end.
Proof.
  rewrite async_setup_entry_run. cbv zeta.
  destruct (COUNTRIES !! Py.dict_get entry_data CONF_COUNTRY default_country)
    as [country_path|]; [|reflexivity].
  destruct (entry_data !! "name") as [area_name|] eqn:Hname; [|reflexivity].
  destruct (coordinators hass
              !! Py.dict_get entry_data CONF_COUNTRY default_country)
    as [coordinator|];
    match goal with
    | |- context [async_config_entry_first_refresh ?c ?w1] =>
        destruct (async_config_entry_first_refresh c w1) as [[[]|e] w2]
    end; try reflexivity;
    rewrite new_sensors_run, Hname;
    (destruct (entry_data !! CONF_SKI_AREA) as [area_path|]; [|reflexivity]);
    (eexists; split; [reflexivity|]; split; [reflexivity|]);
    repeat constructor.
Qed.

(** X18: when the first refresh fails, [async_setup_entry] raises the
    exception of the refresh and adds no entity; the coordinator of the
    country stays registered, also when this call created it. *)
Theorem setup_refresh_fails (entry_data : gmap string string) (hass : hass_data)
    (w : world) (country_path area_name : string) (e : exn) :
  COUNTRIES !! Py.dict_get entry_data CONF_COUNTRY default_country
  = Some country_path ->
  entry_data !! "name" = Some area_name ->
  (forall coordinator w1,
     exists w2, async_config_entry_first_refresh coordinator w1 = (Raise e, w2)) ->
  exists hass' w',
    setup entry_data hass w = (Raise e, hass', w')
    /\ entities hass' = entities hass
    /\ is_Some (coordinators hass'
                 !! Py.dict_get entry_data CONF_COUNTRY default_country).
Proof.
  intros Hcountry Hname Hrefresh. rewrite async_setup_entry_run. cbv zeta.
  rewrite Hcountry, Hname.
  destruct (coordinators hass
              !! Py.dict_get entry_data CONF_COUNTRY default_country)
    as [coordinator|] eqn:Hreg.
  - destruct (Hrefresh coordinator w) as [w2 ->].
    eexists _, _. split; [reflexivity|]. split; [reflexivity|].
    cbn [coordinators]. rewrite Hreg. eauto.
  - match goal with
    | |- context [async_config_entry_first_refresh ?c ?w1] =>
        destruct (Hrefresh c w1) as [w2 ->]
    end.
    eexists _, _. split; [reflexivity|]. split; [reflexivity|].
    cbn [coordinators]. rewrite lookup_insert_eq. eauto.
Qed.

(** X19: an entry for a country whose coordinator is registered is set
    up with that coordinator: it is the one refreshed, in the world as it
    is, no creation is logged and the registry is left as it was. *)
Theorem setup_reuses_coordinator (entry_data : gmap string string)
    (hass : hass_data) (w : world) (country_path area_name area_path : string)
    (coordinator : DataUpdateCoordinator) :
  COUNTRIES !! Py.dict_get entry_data CONF_COUNTRY default_country
  = Some country_path ->
  entry_data !! "name" = Some area_name ->
  entry_data !! CONF_SKI_AREA = Some area_path ->
  coordinators hass !! Py.dict_get entry_data CONF_COUNTRY default_country
  = Some coordinator ->
  match async_config_entry_first_refresh coordinator w with
  | (Raise e, w') => setup entry_data hass w = (Raise e, hass, w')
  | (Return _, w') =>
      exists sensors,
        setup entry_data hass w
        = (Return tt,
           {| coordinators := coordinators hass;
              entities := entities hass ++ sensors |}, w')
        /\ length sensors = 7%nat
  end.
Proof.
  intros Hcountry Hname Hpath Hreg. rewrite async_setup_entry_run. cbv zeta.
  rewrite Hcountry, Hname, Hreg.
  destruct (async_config_entry_first_refresh coordinator w) as [[[]|e] w'].
  - rewrite new_sensors_run, Hname, Hpath. eexists. split; reflexivity.
  - destruct hass. reflexivity.
Qed.

End SetupFacts.

Lemma setup_key_error_witness :
  exists key,
    async_setup_entry a_BASE_URL a_CONF_SKI_AREA a_CONF_COUNTRY a_COUNTRIES a_refresh
      (<[a_CONF_COUNTRY := "Atlantis"]> an_entry) no_hass_data w0
    = (Raise (KeyError key), no_hass_data, w0).
Proof.
  apply (setup_key_error a_BASE_URL a_CONF_SKI_AREA a_CONF_COUNTRY a_COUNTRIES
           a_refresh (<[a_CONF_COUNTRY := "Atlantis"]> an_entry) no_hass_data w0).
  left. compute_done.
Defined.

Lemma setup_refresh_fails_witness :
  exists hass' w',
    async_setup_entry a_BASE_URL a_CONF_SKI_AREA a_CONF_COUNTRY a_COUNTRIES
      a_failing_refresh an_entry no_hass_data w0
    = (Raise (ExternalError "ConfigEntryNotReady"), hass', w')
    /\ entities hass' = entities no_hass_data
    /\ is_Some (coordinators hass'
                 !! Py.dict_get an_entry a_CONF_COUNTRY default_country).
Proof.
  apply (setup_refresh_fails a_BASE_URL a_CONF_SKI_AREA a_CONF_COUNTRY a_COUNTRIES
           a_failing_refresh an_entry no_hass_data w0 "/oesterreich/schneewerte/"
           "Resort X" (ExternalError "ConfigEntryNotReady")).
  - compute_done.
  - compute_done.
  - intros coordinator w1. exists w1. reflexivity.
Defined.

Lemma setup_reuses_coordinator_witness :
  exists sensors,
    async_setup_entry a_BASE_URL a_CONF_SKI_AREA a_CONF_COUNTRY a_COUNTRIES a_refresh
      an_entry some_hass_data w0
    = (Return tt,
       {| coordinators := coordinators some_hass_data;
          entities := entities some_hass_data ++ sensors |}, w0)
    /\ length sensors = 7%nat.
Proof.
  apply (setup_reuses_coordinator a_BASE_URL a_CONF_SKI_AREA a_CONF_COUNTRY
           a_COUNTRIES a_refresh an_entry some_hass_data w0
           "/oesterreich/schneewerte/" "Resort X" "/x" a_coordinator).
  - compute_done.
  - compute_done.
  - compute_done.
  - compute_done.
Defined.

(** ** The configuration flow *)

(** The last part of a split: it has no separator, and what precedes it in
    the string is empty or ends with the separator. *)
Lemma split_last (sep : ascii) (s : string) :
  exists pre seg,
    last (PyStr.split sep s) = Some seg
    /\ PyStr.contains (String sep "") seg = false
    /\ s = pre +:+ seg
    /\ (pre = "" \/ exists pre', pre = pre' +:+ String sep "").
Proof.
  induction s as [|c s IH].
  - exists "", "". repeat split; auto.
  - destruct IH as (pre & seg & Hlast & Hseg & Hs & Hpre).
    cbn [PyStr.split]. destruct (Ascii.eqb c sep) eqn:Hc.
    + apply Ascii.eqb_eq in Hc as ->.
      exists (String sep pre), seg. split; [|split; [exact Hseg|split]].
      * destruct (PyStr.split sep s) as [|p ps] eqn:Hsplit;
          [now apply PyStrFacts.split_nonempty in Hsplit|].
        rewrite last_cons, Hlast. reflexivity.
      * rewrite Hs at 1. reflexivity.
      * right. destruct Hpre as [->|[pre' ->]]; [exists ""|exists (String sep pre')];
          reflexivity.
    + destruct (PyStr.split sep s) as [|p [|q ps]] eqn:Hsplit.
      * now apply PyStrFacts.split_nonempty in Hsplit.
      * apply PyStrFacts.split_one_part in Hsplit as [<- Hno].
        exists "", (String c s). split; [reflexivity|]. split; [|auto].
        rewrite PyStrFacts.contains_char_cons, Hc, Hno. reflexivity.
      * exists (String c pre), seg. split; [|split; [exact Hseg|split]].
        -- rewrite last_cons_cons. rewrite last_cons_cons in Hlast. exact Hlast.
        -- rewrite Hs at 1. reflexivity.
        -- right. destruct Hpre as [->|[pre' ->]].
           ++ change (s = seg) in Hs. subst s.
              rewrite (PyStrFacts.split_without sep seg Hseg) in Hsplit. discriminate.
           ++ exists (String c pre'). reflexivity.
Qed.

Lemma run_list_last {A : Type} (l : list A) (x : A) (w : world) :
  last l = Some x -> Py.list_last l w = (Return x, w).
Proof. unfold Py.list_last. intros ->. reflexivity. Qed.

(** [get_ski_areas] on the outcome of the request and of the tree builder:
    the clause [except Exception] turns an instance of [Exception] into the
    empty dictionary and lets any other exception through. *)
Lemma get_ski_areas_run (BASE_URL : string)
    (session_get_text : string -> M string) (BeautifulSoup : string -> M tag)
    (country_path : string) (w : world) :
  get_ski_areas BASE_URL session_get_text BeautifulSoup country_path w =
  match (html ← session_get_text (BASE_URL +:+ country_path);
         BeautifulSoup html) w with
  | (Return soup, w') => list_resorts soup w'
  | (Raise exc, w') =>
      if is_Exception exc then
        (Return ∅,
         {| clock := clock w';
            log := log w' ++ [(ERROR, "Error fetching ski areas: "
                                      +:+ str_of_exn exc)] |})
      else (Raise exc, w')
  end.
Proof.
  unfold get_ski_areas, try_except. rewrite !run_bind.
  destruct (session_get_text (BASE_URL +:+ country_path) w) as [[html|exc] w1];
    [|destruct (is_Exception exc); reflexivity].
  rewrite run_bind.
  destruct (BeautifulSoup html w1) as [[soup|exc] w2];
    [|destruct (is_Exception exc); reflexivity].
  rewrite list_resorts_run. reflexivity.
Qed.

(** [get_ski_areas] raises nothing that is an instance of [Exception]. *)
Lemma get_ski_areas_raises (BASE_URL : string)
    (session_get_text : string -> M string) (BeautifulSoup : string -> M tag)
    (country_path : string) (w w' : world) (exc : exn) :
  get_ski_areas BASE_URL session_get_text BeautifulSoup country_path w
  = (Raise exc, w') ->
  is_Exception exc = false.
Proof.
  rewrite get_ski_areas_run.
  destruct ((html ← session_get_text (BASE_URL +:+ country_path);
             BeautifulSoup html) w) as [[soup|exc'] w1].
  - rewrite list_resorts_run. discriminate.
  - destruct (is_Exception exc') eqn:Hexc; [discriminate|].
    intros [= <- _]. exact Hexc.
Qed.

(** The directory is empty when the request or the tree builder raised. *)
Lemma get_ski_areas_empty (BASE_URL : string)
    (session_get_text : string -> M string) (BeautifulSoup : string -> M tag)
    (country_path : string) (w w' w1 : world) (exc : exn)
    (ski_areas : gmap string string) :
  (html ← session_get_text (BASE_URL +:+ country_path); BeautifulSoup html) w
  = (Raise exc, w1) ->
  get_ski_areas BASE_URL session_get_text BeautifulSoup country_path w
  = (Return ski_areas, w') ->
  ski_areas = ∅.
Proof.
  intros Hraw. rewrite get_ski_areas_run, Hraw.
  destruct (is_Exception exc); [|discriminate]. intros [= <- _]. reflexivity.
Qed.

Section FlowFacts.

Variable BASE_URL : string.
Variable CONF_COUNTRY : string.
Variable CONF_SKI_AREA : string.
Variable COUNTRIES : gmap string string.
Variable session_get_text : string -> M string.
Variable BeautifulSoup : string -> M tag.
Variable async_set_unique_id : string -> M unit.
Variable _abort_if_unique_id_configured : M unit.

Let step_ski_area :=
  async_step_ski_area BASE_URL CONF_COUNTRY CONF_SKI_AREA COUNTRIES session_get_text
    BeautifulSoup async_set_unique_id _abort_if_unique_id_configured.

Let step_user :=
  async_step_user BASE_URL CONF_COUNTRY CONF_SKI_AREA COUNTRIES session_get_text
    BeautifulSoup async_set_unique_id _abort_if_unique_id_configured.

Let fetch := get_ski_areas BASE_URL session_get_text BeautifulSoup.

(** The form of the second step for a directory. *)
Let ski_area_form (country_name : string) (ski_areas : gmap string string)
    : FlowResult :=
  if bool_decide (ski_areas = ∅) then
    show_form "ski_area" None (Some {[ "base" := "no_areas_found" ]})
      (Some {[ "country" := country_name ]})
  else
    show_form "ski_area" (Some (In_dict CONF_SKI_AREA ski_areas)) (Some ∅)
      (Some {[ "country" := country_name ]}).

Lemma listing_run (_data : gmap string string) (w : world) :
  step_ski_area None _data w =
  match _data !! CONF_COUNTRY with
  | None => (Raise (KeyError CONF_COUNTRY), _data, w)
  | Some country_name =>
      match COUNTRIES !! country_name with
      | None => (Raise (KeyError country_name), _data, w)
      | Some country_path =>
          match fetch country_path w with
          | (Return ski_areas, w') =>
              (Return (ski_area_form country_name ski_areas), _data, w')
          | (Raise e, w') => (Raise e, _data, w')
          end
      end
  end.
Proof.
  unfold step_ski_area, async_step_ski_area, fetch, ski_area_form.
  rewrite run_St_bind. unfold get_state at 1.
  rewrite run_St_bind, run_lift, run_dict_getitem.
  destruct (_data !! CONF_COUNTRY) as [country_name|]; [|reflexivity].
  cbn [fst snd]. rewrite run_St_bind, run_lift, run_dict_getitem.
  destruct (COUNTRIES !! country_name) as [country_path|]; [|reflexivity].
  cbn [fst snd]. rewrite run_St_bind, run_lift.
  destruct (get_ski_areas BASE_URL session_get_text BeautifulSoup country_path w)
    as [[ski_areas|e] w']; [|reflexivity].
  cbn [fst snd]. case_bool_decide; reflexivity.
Qed.

Lemma submission_run (user_input _data : gmap string string) (w : world) :
  step_ski_area (Some user_input) _data w =
  match user_input !! CONF_SKI_AREA with
  | None => (Raise (KeyError CONF_SKI_AREA), _data, w)
  | Some ski_area_path =>
      match _data !! CONF_COUNTRY with
      | None => (Raise (KeyError CONF_COUNTRY), _data, w)
      | Some country_name =>
          match COUNTRIES !! country_name with
          | None => (Raise (KeyError country_name), _data, w)
          | Some country_path =>
              match fetch country_path w with
              | (Raise e, w1) => (Raise e, _data, w1)
              | (Return all_areas, w1) =>
                  match Py.list_last
                          (PyStr.split "/" (Py.strip_char "/" ski_area_path)) w1 with
                  | (Raise e, w2) => (Raise e, _data, w2)
                  | (Return last_part, w2) =>
                      match async_set_unique_id ski_area_path w2 with
                      | (Raise e, w3) => (Raise e, _data, w3)
                      | (Return _, w3) =>
                          match _abort_if_unique_id_configured w3 with
                          | (Raise e, w4) => (Raise e, _data, w4)
                          | (Return _, w4) =>
                              let ski_area_name :=
                                Py.dict_get all_areas ski_area_path last_part in
                              (Return
                                 (create_entry ski_area_name
                                    (<["url" := BASE_URL +:+ ski_area_path]>
                                       (<["name" := ski_area_name]>
                                          (<[CONF_COUNTRY := country_name]>
                                             (<[CONF_SKI_AREA := ski_area_path]> ∅))))),
                               _data, w4)
                          end
                      end
                  end
              end
          end
      end
  end.
Proof.
  unfold step_ski_area, async_step_ski_area, fetch.
  rewrite run_St_bind, run_lift, run_dict_getitem.
  destruct (user_input !! CONF_SKI_AREA) as [ski_area_path|]; [|reflexivity].
  cbn [fst snd]. rewrite run_St_bind. unfold get_state at 1.
  rewrite run_St_bind, run_lift, run_dict_getitem.
  destruct (_data !! CONF_COUNTRY) as [country_name|]; [|reflexivity].
  cbn [fst snd]. rewrite run_St_bind, run_lift, run_dict_getitem.
  destruct (COUNTRIES !! country_name) as [country_path|]; [|reflexivity].
  cbn [fst snd]. rewrite run_St_bind, run_lift.
  destruct (get_ski_areas BASE_URL session_get_text BeautifulSoup country_path w)
    as [[all_areas|e] w1]; [|reflexivity].
  cbn [fst snd]. rewrite run_St_bind, run_lift.
  destruct (Py.list_last (PyStr.split "/" (Py.strip_char "/" ski_area_path)) w1)
    as [[last_part|e] w2]; [|reflexivity].
  cbn [fst snd]. rewrite run_St_bind, run_lift.
  destruct (async_set_unique_id ski_area_path w2) as [[[]|e] w3]; [|reflexivity].
  cbn [fst snd]. rewrite run_St_bind, run_lift.
  destruct (_abort_if_unique_id_configured w3) as [[[]|e] w4]; reflexivity.
Qed.


(** X20: once a country of [COUNTRIES] is stored, the listing step raises
    only what [get_ski_areas] lets through, an exception that is no
    instance of [Exception] such as a cancellation, and it leaves the stored
    data alone in every case.  Otherwise it shows the form [ski_area] for
    the stored country: with the directory [get_ski_areas] returned as the
    choices when there is one, and with the error [no_areas_found] and no
    choice when the directory is empty, which is the case whenever the
    request or the tree builder raised. *)
Theorem listing_form (_data : gmap string string) (w : world)
    (country_name country_path : string) :
  _data !! CONF_COUNTRY = Some country_name ->
  COUNTRIES !! country_name = Some country_path ->
  match get_ski_areas BASE_URL session_get_text BeautifulSoup country_path w with
  | (Raise exc, w') =>
      is_Exception exc = false
      /\ step_ski_area None _data w = (Raise exc, _data, w')
  | (Return ski_areas, w') =>
      step_ski_area None _data w =
      (Return
         (if bool_decide (ski_areas = ∅) then
            show_form "ski_area" None (Some {[ "base" := "no_areas_found" ]})
              (Some {[ "country" := country_name ]})
          else
            show_form "ski_area" (Some (In_dict CONF_SKI_AREA ski_areas)) (Some ∅)
              (Some {[ "country" := country_name ]})),
       _data, w')
      /\ (forall exc w1,
            (html ← session_get_text (BASE_URL +:+ country_path);
             BeautifulSoup html) w
            = (Raise exc, w1) ->
            ski_areas = ∅)
  end.
Proof.
  intros Hcountry Hpath. rewrite listing_run, Hcountry, Hpath. unfold fetch.
  destruct (get_ski_areas BASE_URL session_get_text BeautifulSoup country_path w)
    as [[ski_areas|exc] w'] eqn:Hrun.
  - split; [reflexivity|]. intros exc w1 Hraw.
    exact (get_ski_areas_empty _ _ _ _ _ _ _ _ _ Hraw Hrun).
  - split; [|reflexivity]. exact (get_ski_areas_raises _ _ _ _ _ _ _ Hrun).
Qed.

(** X21: the ski area step raises [KeyError], before any request is
    made, when no country is stored or the stored country is not in
    [COUNTRIES]. *)
Theorem step_ski_area_key_error (user_input : option (gmap string string))
    (_data : gmap string string) (w : world) :
  (forall input, user_input = Some input -> is_Some (input !! CONF_SKI_AREA)) ->
  (forall country_name,
     _data !! CONF_COUNTRY = Some country_name -> COUNTRIES !! country_name = None) ->
  exists key, step_ski_area user_input _data w = (Raise (KeyError key), _data, w).
Proof.
  intros Hinput Hcountry. destruct user_input as [input|].
  - rewrite submission_run. destruct (Hinput input eq_refl) as [path ->].
    destruct (_data !! CONF_COUNTRY) as [country_name|]; [|eauto].
    rewrite (Hcountry country_name eq_refl). eauto.
  - rewrite listing_run.
    destruct (_data !! CONF_COUNTRY) as [country_name|]; [|eauto].
    rewrite (Hcountry country_name eq_refl). eauto.
Qed.

(** X22: submitting a ski area path, with a country of [COUNTRIES] stored
    and the two steps on the unique id returning, creates an entry unless
    [get_ski_areas] lets an exception through, which it does only for one
    that is no instance of [Exception], such as a cancellation; the step
    then raises it.  The entry holds the path, the country, the name and the
    URL of the resort's page under the four keys, its title is its name,
    and the name is the one the directory lists for the path; for a path the
    directory does not list it is the last segment of the path: the path
    without its outer slashes ends with it, it has no slash, and a slash
    precedes it unless it is the whole. *)
Theorem submission_creates_entry (user_input _data : gmap string string)
    (w : world) (ski_area_path country_name country_path : string) :
  user_input !! CONF_SKI_AREA = Some ski_area_path ->
  _data !! CONF_COUNTRY = Some country_name ->
  COUNTRIES !! country_name = Some country_path ->
  (forall w1, exists w2, async_set_unique_id ski_area_path w1 = (Return tt, w2)) ->
  (forall w1, exists w2, _abort_if_unique_id_configured w1 = (Return tt, w2)) ->
  CONF_SKI_AREA <> CONF_COUNTRY ->
  CONF_SKI_AREA ∉ ["name"; "url"] -> CONF_COUNTRY ∉ ["name"; "url"] ->
  match get_ski_areas BASE_URL session_get_text BeautifulSoup country_path w with
  | (Raise exc, w1) =>
      is_Exception exc = false
      /\ step_ski_area (Some user_input) _data w = (Raise exc, _data, w1)
  | (Return all_areas, w1) =>
      exists title data w',
        step_ski_area (Some user_input) _data w
        = (Return (create_entry title data), _data, w')
        /\ data !! CONF_SKI_AREA = Some ski_area_path
        /\ data !! CONF_COUNTRY = Some country_name
        /\ data !! "name" = Some title
        /\ data !! "url" = Some (BASE_URL +:+ ski_area_path)
        /\ dom data =@{gset string} {[ CONF_SKI_AREA; CONF_COUNTRY; "name"; "url" ]}
        /\ match all_areas !! ski_area_path with
           | Some name => title = name
           | None =>
               PyStr.contains "/" title = false
               /\ exists pre,
                    Py.strip_char "/" ski_area_path = pre +:+ title
                    /\ (pre = "" \/ exists pre', pre = pre' +:+ "/")
           end
  end.
Proof.
  intros Hpath Hcountry Hcp Hset Habort Hne Hski Hco.
  rewrite !not_elem_of_cons in Hski, Hco.
  destruct Hski as (Hski1 & Hski2 & _). destruct Hco as (Hco1 & Hco2 & _).
  rewrite submission_run, Hpath, Hcountry, Hcp. unfold fetch.
  destruct (get_ski_areas BASE_URL session_get_text BeautifulSoup country_path w)
    as [[all_areas|exc] w1] eqn:Hrun;
    [|split; [exact (get_ski_areas_raises _ _ _ _ _ _ _ Hrun)|reflexivity]].
  destruct (split_last "/" (Py.strip_char "/" ski_area_path))
    as (pre & seg & Hlast & Hseg & Hstrip & Hpre).
  rewrite (run_list_last _ seg w1 Hlast).
  destruct (Hset w1) as [w2 ->]. destruct (Habort w2) as [w3 ->].
  cbv zeta. eexists _, _, w3.
  split; [reflexivity|].
  split; [|split; [|split; [|split; [|split]]]].
  - rewrite !lookup_insert_ne by congruence. apply lookup_insert_eq.
  - rewrite !lookup_insert_ne by congruence. apply lookup_insert_eq.
  - rewrite lookup_insert_ne by discriminate. apply lookup_insert_eq.
  - apply lookup_insert_eq.
  - rewrite !dom_insert_L, dom_empty_L. apply set_eq. intros key.
    rewrite !elem_of_union, !elem_of_singleton, elem_of_empty. tauto.
  - unfold Py.dict_get. destruct (all_areas !! ski_area_path); [reflexivity|].
    split; [exact Hseg|]. exists pre. auto.
Qed.

(** X23: the flow creates no entry unless the unique id was set to the
    submitted path and the check for a configured duplicate returned: when
    either of the two raises, so does the step, and the stored data are
    left as they were. *)
Theorem submission_guarded (user_input _data : gmap string string) (w w' : world)
    (result : FlowResult) (stored : gmap string string) :
  step_ski_area (Some user_input) _data w = (Return result, stored, w') ->
  exists ski_area_path w1 w2,
    user_input !! CONF_SKI_AREA = Some ski_area_path
    /\ async_set_unique_id ski_area_path w1 = (Return tt, w2)
    /\ _abort_if_unique_id_configured w2 = (Return tt, w')
    /\ stored = _data
    /\ exists title data, result = create_entry title data.
Proof.
  rewrite submission_run.
  destruct (user_input !! CONF_SKI_AREA) as [ski_area_path|]; [|discriminate].
  destruct (_data !! CONF_COUNTRY) as [country_name|]; [|discriminate].
  destruct (COUNTRIES !! country_name) as [country_path|]; [|discriminate].
  destruct (fetch country_path w) as [[all_areas|e] w1]; [|discriminate].
  destruct (Py.list_last _ w1) as [[last_part|e] w2] eqn:Hlast; [|discriminate].
  destruct (async_set_unique_id ski_area_path w2) as [[[]|e] w3] eqn:Hset;
    [|discriminate].
  destruct (_abort_if_unique_id_configured w3) as [[[]|e] w4] eqn:Habort;
    [|discriminate].
  cbv zeta. intros [= <- <- <-]. eauto 10.
Qed.

(** X24: the first step offers exactly the countries of [COUNTRIES], and
    every country it offers leads on: submitting it stores it and shows the
    form of the second step.  The one thing that stops it is an exception
    [get_ski_areas] lets through, one that is no instance of [Exception]
    such as a cancellation: the step then raises it, with the country
    stored. *)
Theorem chosen_country_leads_on (_data : gmap string string) (w : world) :
  exists countries,
    step_user None _data w
    = (Return (show_form "user" (Some (In_list CONF_COUNTRY countries)) None None),
       _data, w)
    /\ (forall country_name, country_name ∈ countries <-> country_name ∈ dom COUNTRIES)
    /\ forall country_name user_input,
         country_name ∈ countries ->
         user_input !! CONF_COUNTRY = Some country_name ->
         exists country_path,
           COUNTRIES !! country_name = Some country_path
           /\ match get_ski_areas BASE_URL session_get_text BeautifulSoup
                      country_path w with
              | (Raise exc, w') =>
                  is_Exception exc = false
                  /\ step_user (Some user_input) _data w
                     = (Raise exc, <[CONF_COUNTRY := country_name]> _data, w')
              | (Return _, w') =>
                  exists data_schema errors placeholders,
                    step_user (Some user_input) _data w
                    = (Return (show_form "ski_area" data_schema errors placeholders),
                       <[CONF_COUNTRY := country_name]> _data, w')
              end.
Proof.
  exists (map_to_list COUNTRIES).*1. split; [reflexivity|].
  assert (Hkeys : forall country_name,
             country_name ∈ (map_to_list COUNTRIES).*1
             <-> country_name ∈ dom COUNTRIES).
  { intros country_name. rewrite elem_of_dom, list_elem_of_fmap. split.
    - intros ([k v] & -> & Hin). apply elem_of_map_to_list in Hin. eauto.
    - intros [v Hv]. exists (country_name, v). split; [reflexivity|].
      apply elem_of_map_to_list. exact Hv. }
  split; [exact Hkeys|].
  intros country_name user_input Hin Hinput.
  apply Hkeys, elem_of_dom in Hin as [country_path Hpath].
  exists country_path. split; [exact Hpath|].
  unfold step_user, async_step_user.
  rewrite run_St_bind, run_lift, run_dict_getitem, Hinput. cbn [fst snd].
  rewrite run_St_bind. unfold modify at 1. cbn beta iota.
  pose proof (listing_run (<[CONF_COUNTRY := country_name]> _data) w) as Hstep.
  rewrite lookup_insert_eq, Hpath in Hstep. unfold fetch in Hstep.
  unfold step_ski_area in Hstep.
  destruct (get_ski_areas BASE_URL session_get_text BeautifulSoup country_path w)
    as [[ski_areas|exc] w'] eqn:Hrun.
  - unfold ski_area_form in Hstep.
    case_bool_decide; eexists _, _, _; exact Hstep.
  - split; [exact (get_ski_areas_raises _ _ _ _ _ _ _ Hrun)|exact Hstep].
Qed.

(** X25: an entry the flow creates is one [async_setup_entry] can set
    up.  Its country is the one the flow stored, a key of [COUNTRIES], so
    the default is not used; the seven sensors are built from it without a
    [KeyError], for the submitted path, under the entry's title, with the
    entry's URL as their configuration URL. *)
Theorem flow_entry_sets_up (user_input _data stored data : gmap string string)
    (title : string) (w w' w2 : world) :
  CONF_SKI_AREA <> CONF_COUNTRY ->
  CONF_SKI_AREA ∉ ["name"; "url"] -> CONF_COUNTRY ∉ ["name"; "url"] ->
  step_ski_area (Some user_input) _data w
  = (Return (create_entry title data), stored, w') ->
  _data !! CONF_COUNTRY = Some (Py.dict_get data CONF_COUNTRY default_country)
  /\ is_Some (COUNTRIES !! Py.dict_get data CONF_COUNTRY default_country)
  /\ exists sensors,
       new_sensors BASE_URL CONF_SKI_AREA data w2 = (Return sensors, w2)
       /\ length sensors = 7%nat
       /\ Forall (fun s => user_input !! CONF_SKI_AREA = Some (_area_path s)
                           /\ _area_name s = title
                           /\ data !! "url" = Some (_config_url s)) sensors.
Proof.
  intros Hne Hski Hco. rewrite !not_elem_of_cons in Hski, Hco.
  destruct Hski as (Hski1 & Hski2 & _). destruct Hco as (Hco1 & Hco2 & _).
  rewrite submission_run.
  destruct (user_input !! CONF_SKI_AREA) as [ski_area_path|]; [|discriminate].
  destruct (_data !! CONF_COUNTRY) as [country_name|]; [|discriminate].
  destruct (COUNTRIES !! country_name) as [country_path|] eqn:Hcp; [|discriminate].
  destruct (fetch country_path w) as [[all_areas|e] w1]; [|discriminate].
  destruct (Py.list_last _ w1) as [[last_part|e] w3]; [|discriminate].
  destruct (async_set_unique_id ski_area_path w3) as [[[]|e] w4]; [|discriminate].
  destruct (_abort_if_unique_id_configured w4) as [[[]|e] w5]; [|discriminate].
  cbv zeta. intros [= <- <- _ _].
  set (title := Py.dict_get all_areas ski_area_path last_part).
  set (data := <["url" := BASE_URL +:+ ski_area_path]>
                 (<["name" := title]>
                    (<[CONF_COUNTRY := country_name]>
                       (<[CONF_SKI_AREA := ski_area_path]> ∅)))).
  assert (Hcountry : data !! CONF_COUNTRY = Some country_name).
  { unfold data. rewrite !lookup_insert_ne by congruence. apply lookup_insert_eq. }
  assert (Hname : data !! "name" = Some title).
  { unfold data. rewrite lookup_insert_ne by discriminate. apply lookup_insert_eq. }
  assert (Harea : data !! CONF_SKI_AREA = Some ski_area_path).
  { unfold data. rewrite !lookup_insert_ne by congruence. apply lookup_insert_eq. }
  assert (Hurl : data !! "url" = Some (BASE_URL +:+ ski_area_path))
    by apply lookup_insert_eq.
  unfold Py.dict_get at 1 2. rewrite Hcountry.
  split; [reflexivity|]. split; [eauto|].
  rewrite new_sensors_run, Hname, Harea. eexists. split; [reflexivity|].
  split; [reflexivity|]. repeat constructor; exact Hurl.
Qed.

End FlowFacts.

Lemma listing_form_witness :
  match get_ski_areas a_BASE_URL a_failing_session a_builder
          "/oesterreich/schneewerte/" w0 with
  | (Raise exc, w') =>
      is_Exception exc = false
      /\ async_step_ski_area a_BASE_URL a_CONF_COUNTRY a_CONF_SKI_AREA a_COUNTRIES
           a_failing_session a_builder a_set_unique_id an_abort_check None
           a_flow_data w0
         = (Raise exc, a_flow_data, w')
  | (Return ski_areas, w') =>
      async_step_ski_area a_BASE_URL a_CONF_COUNTRY a_CONF_SKI_AREA a_COUNTRIES
        a_failing_session a_builder a_set_unique_id an_abort_check None a_flow_data w0
      = (Return
           (if bool_decide (ski_areas = ∅) then
              show_form "ski_area" None (Some {[ "base" := "no_areas_found" ]})
                (Some {[ "country" := default_country ]})
            else
              show_form "ski_area" (Some (In_dict a_CONF_SKI_AREA ski_areas)) (Some ∅)
                (Some {[ "country" := default_country ]})),
         a_flow_data, w')
      /\ (forall exc w1,
            (html ← a_failing_session (a_BASE_URL +:+ "/oesterreich/schneewerte/");
             a_builder html) w0
            = (Raise exc, w1) ->
            ski_areas = ∅)
  end.
Proof.
  apply (listing_form a_BASE_URL a_CONF_COUNTRY a_CONF_SKI_AREA a_COUNTRIES
           a_failing_session a_builder a_set_unique_id an_abort_check a_flow_data w0
           default_country "/oesterreich/schneewerte/").
  - compute_done.
  - compute_done.
Defined.

Lemma step_ski_area_key_error_witness :
  exists key,
    async_step_ski_area a_BASE_URL a_CONF_COUNTRY a_CONF_SKI_AREA a_COUNTRIES
      a_session a_builder a_set_unique_id an_abort_check None ∅ w0
    = (Raise (KeyError key), ∅, w0).
Proof.
  apply (step_ski_area_key_error a_BASE_URL a_CONF_COUNTRY a_CONF_SKI_AREA
           a_COUNTRIES a_session a_builder a_set_unique_id an_abort_check None ∅ w0).
  - intros input [=].
  - intros country_name H. rewrite lookup_empty in H. discriminate.
Defined.

Lemma submission_creates_entry_witness :
  match get_ski_areas a_BASE_URL a_failing_session a_builder
          "/oesterreich/schneewerte/" w0 with
  | (Raise exc, w1) =>
      is_Exception exc = false
      /\ async_step_ski_area a_BASE_URL a_CONF_COUNTRY a_CONF_SKI_AREA a_COUNTRIES
           a_failing_session a_builder a_set_unique_id an_abort_check
           (Some {[ a_CONF_SKI_AREA := "/oesterreich/resort-x/" ]}) a_flow_data w0
         = (Raise exc, a_flow_data, w1)
  | (Return all_areas, w1) =>
      exists title data w',
        async_step_ski_area a_BASE_URL a_CONF_COUNTRY a_CONF_SKI_AREA a_COUNTRIES
          a_failing_session a_builder a_set_unique_id an_abort_check
          (Some {[ a_CONF_SKI_AREA := "/oesterreich/resort-x/" ]}) a_flow_data w0
        = (Return (create_entry title data), a_flow_data, w')
        /\ data !! a_CONF_SKI_AREA = Some "/oesterreich/resort-x/"
        /\ data !! a_CONF_COUNTRY = Some default_country
        /\ data !! "name" = Some title
        /\ data !! "url" = Some (a_BASE_URL +:+ "/oesterreich/resort-x/")
        /\ dom data =@{gset string} {[ a_CONF_SKI_AREA; a_CONF_COUNTRY; "name"; "url" ]}
        /\ match all_areas !! "/oesterreich/resort-x/" with
           | Some name => title = name
           | None =>
               PyStr.contains "/" title = false
               /\ exists pre,
                    Py.strip_char "/" "/oesterreich/resort-x/" = pre +:+ title
                    /\ (pre = "" \/ exists pre', pre = pre' +:+ "/")
           end
  end.
Proof.
  apply (submission_creates_entry a_BASE_URL a_CONF_COUNTRY a_CONF_SKI_AREA
           a_COUNTRIES a_failing_session a_builder a_set_unique_id an_abort_check
           {[ a_CONF_SKI_AREA := "/oesterreich/resort-x/" ]} a_flow_data w0
           "/oesterreich/resort-x/" default_country "/oesterreich/schneewerte/").
  - compute_done.
  - compute_done.
  - compute_done.
  - intros w1. exists w1. reflexivity.
  - intros w1. exists w1. reflexivity.
  - discriminate.
  - compute_done.
  - compute_done.
Defined.

Lemma submission_guarded_witness :
  exists ski_area_path w1 w2,
    ({[ a_CONF_SKI_AREA := "/x" ]} : gmap string string) !! a_CONF_SKI_AREA
    = Some ski_area_path
    /\ a_set_unique_id ski_area_path w1 = (Return tt, w2)
    /\ an_abort_check w2 = (Return tt, w0)
    /\ a_flow_data = a_flow_data
    /\ exists title data, create_entry "Resort X" an_entry = create_entry title data.
Proof.
  apply (submission_guarded a_BASE_URL a_CONF_COUNTRY a_CONF_SKI_AREA a_COUNTRIES
           a_session a_builder a_set_unique_id an_abort_check
           {[ a_CONF_SKI_AREA := "/x" ]} a_flow_data w0 w0
           (create_entry "Resort X" an_entry) a_flow_data).
  compute_done.
Defined.

Lemma flow_entry_sets_up_witness :
  a_flow_data !! a_CONF_COUNTRY
  = Some (Py.dict_get an_entry a_CONF_COUNTRY default_country)
  /\ is_Some (a_COUNTRIES !! Py.dict_get an_entry a_CONF_COUNTRY default_country)
  /\ exists sensors,
       new_sensors a_BASE_URL a_CONF_SKI_AREA an_entry w0 = (Return sensors, w0)
       /\ length sensors = 7%nat
       /\ Forall (fun s =>
                    ({[ a_CONF_SKI_AREA := "/x" ]} : gmap string string)
                      !! a_CONF_SKI_AREA = Some (_area_path s)
                    /\ _area_name s = "Resort X"
                    /\ an_entry !! "url" = Some (_config_url s)) sensors.
Proof.
  apply (flow_entry_sets_up a_BASE_URL a_CONF_COUNTRY a_CONF_SKI_AREA a_COUNTRIES
           a_session a_builder a_set_unique_id an_abort_check
           {[ a_CONF_SKI_AREA := "/x" ]} a_flow_data a_flow_data an_entry "Resort X"
           w0 w0 w0).
  - discriminate.
  - compute_done.
  - compute_done.
  - compute_done.
Defined.

(** ** The parser of the test script *)

Lemma agree_ret {A : Type} (a : A) : agree (mret a) (mret a).
Proof.
  intros w out w0. exists a, []. split.
  - destruct w. cbn. rewrite app_nil_r. reflexivity.
  - cbn. rewrite app_nil_r. reflexivity.
Qed.

Lemma agree_bind {A B : Type} (m : M A) (m' : St (list string) A)
    (f : A -> M B) (f' : A -> St (list string) B) :
  agree m m' -> (forall a, agree (f a) (f' a)) -> agree (m ≫= f) (m' ≫= f').
Proof.
  intros Hm Hf w out w0.
  destruct (Hm w out w0) as (a & r1 & H1 & H1').
  destruct (Hf a {| clock := clock w; log := log w ++ r1 |}
              (out ++ (printed <$> r1))%list w0) as (b & r2 & H2 & H2').
  exists b, (r1 ++ r2)%list. split.
  - rewrite run_bind, H1, H2. cbn. rewrite app_assoc. reflexivity.
  - rewrite run_St_bind, H1', H2', fmap_app, app_assoc. reflexivity.
Qed.

(** A step that returns without a trace, lifted as it is in the script. *)
Lemma agree_bind_pure {A B : Type} (m : M A) (a : A)
    (f : A -> M B) (f' : A -> St (list string) B) :
  (forall w, m w = (Return a, w)) -> agree (f a) (f' a) ->
  agree (m ≫= f) (lift m ≫= f').
Proof.
  intros Hm Hf w out w0. destruct (Hf w out w0) as (b & r & H & H').
  exists b, r. split.
  - rewrite run_bind, Hm. exact H.
  - rewrite run_St_bind, run_lift, Hm. exact H'.
Qed.

Lemma list_getitem_Some {A : Type} (l : list A) (i : nat) (x : A) (w : world) :
  l !! i = Some x -> list_getitem l i w = (Return x, w).
Proof. unfold list_getitem. intros ->. reflexivity. Qed.

(** A [try: x = int(part) except ValueError] block of the two parsers. *)
Lemma agree_try_part (parts : list string) (i : nat) (p msg : string) :
  parts !! i = Some p ->
  agree
    (try_except
       (p ← list_getitem parts i; n ← int (PyStr.strip p); mret (Some n))
       is_ValueError
       (fun _ =>
          p ← list_getitem parts i;
          logger DEBUG (msg +:+ PyStr.strip p);;
          mret None))
    (TestParser.try_except
       (p ← lift (list_getitem parts i); n ← lift (int (PyStr.strip p));
        mret (Some n))
       is_ValueError
       (fun _ =>
          p ← lift (list_getitem parts i);
          TestParser.print ("WARNING: " +:+ msg +:+ PyStr.strip p);;
          mret None)).
Proof.
  intros Hp w out w0. unfold try_except, TestParser.try_except.
  rewrite run_bind, (list_getitem_Some parts i p w Hp), run_bind, run_int.
  rewrite run_St_bind, run_lift, (list_getitem_Some parts i p w0 Hp).
  cbn [fst snd]. rewrite run_St_bind, run_lift, run_int.
  destruct (PyStr.parse_int (PyStr.strip p)) as [n|].
  - exists (Some n), []. split.
    + destruct w. cbn. rewrite app_nil_r. reflexivity.
    + cbn. rewrite app_nil_r. reflexivity.
  - exists None, [(DEBUG, msg +:+ PyStr.strip p)]. split.
    + cbn [is_ValueError]. rewrite run_bind, (list_getitem_Some parts i p w Hp).
      reflexivity.
    + cbn [fst snd is_ValueError].
      rewrite run_St_bind, run_lift, (list_getitem_Some parts i p w0 Hp).
      reflexivity.
Qed.

Lemma agree_try_whole (s msg : string) :
  agree
    (try_except (n ← int s; mret (Some n)) is_ValueError
       (fun _ => logger DEBUG (msg +:+ s);; mret None))
    (TestParser.try_except (n ← lift (int s); mret (Some n)) is_ValueError
       (fun _ => TestParser.print ("WARNING: " +:+ msg +:+ s);; mret None)).
Proof.
  intros w out w0. unfold try_except, TestParser.try_except.
  rewrite run_bind, run_int, run_St_bind, run_lift, run_int.
  destruct (PyStr.parse_int s) as [n|].
  - exists (Some n), []. split.
    + destruct w. cbn. rewrite app_nil_r. reflexivity.
    + cbn. rewrite app_nil_r. reflexivity.
  - exists None, [(DEBUG, msg +:+ s)]. split; reflexivity.
Qed.

Lemma agree_parse_lifts (lifts_raw : string) :
  agree (parse_lifts lifts_raw) (TestParser.parse_lifts lifts_raw).
Proof.
  unfold parse_lifts, TestParser.parse_lifts.
  destruct (PyStr.contains "/" lifts_raw).
  - destruct (PyStr.split "/" lifts_raw) as [|a [|b [|c parts]]];
      cbn [length Nat.eqb]; try apply agree_ret.
    apply agree_bind;
      [apply (agree_try_part [a; b] 0 a "Could not parse lifts_open_count: ");
       reflexivity|].
    intros lifts_open. apply agree_bind;
      [apply (agree_try_part [a; b] 1 b "Could not parse lifts_total_count: ");
       reflexivity|].
    intros lifts_total. apply agree_ret.
  - destruct (PyStr.isdigit lifts_raw); [|apply agree_ret].
    apply agree_bind;
      [apply (agree_try_whole lifts_raw "Could not parse lifts_open_count: ")|].
    intros lifts_open. apply agree_ret.
Qed.

Lemma agree_parse_overview_row (row : tag) results :
  agree (parse_overview_row row results) (TestParser.parse_overview_row row results).
Proof.
  unfold parse_overview_row, TestParser.parse_overview_row.
  destruct (Soup.find_all "td" row)
    as [|c0 [|c1 [|c2 [|c3 [|c4 [|c5 cols]]]]]];
    cbn [length Nat.ltb Nat.leb]; try apply agree_ret.
  apply (agree_bind_pure _ c0); [reflexivity|].
  destruct (Soup.find "a" c0) as [link|]; [|apply agree_ret].
  unfold Soup.getitem, Soup.get.
  destruct (Soup.attrs link !! "href") as [href|]; [|apply agree_ret].
  cbn [truthy]. destruct (PyStr.is_empty href); [apply agree_ret|].
  cbn [negb].
  apply (agree_bind_pure _ href); [reflexivity|].
  apply (agree_bind_pure _ c1); [reflexivity|].
  apply (agree_bind_pure _ c2); [reflexivity|].
  apply (agree_bind_pure _ c3); [reflexivity|].
  apply (agree_bind_pure _ c4); [reflexivity|].
  apply agree_bind; [apply agree_parse_lifts|].
  intros [lifts_open lifts_total].
  apply (agree_bind_pure _ c5); [reflexivity|].
  apply agree_bind; [|intros area_data; apply agree_ret].
  case_bool_decide as Hdv; [|apply agree_ret].
  apply elem_of_dom in Hdv as [v Hv]. rewrite Hv.
  apply (agree_bind_pure _ v); [reflexivity|]. apply agree_ret.
Qed.

Lemma agree_for_each {A S : Type} (body : A -> S -> M S)
    (body' : A -> S -> St (list string) S) (xs : list A) :
  (forall x acc, agree (body x acc) (body' x acc)) ->
  forall acc, agree (for_each xs body acc) (TestParser.for_each xs body' acc).
Proof.
  intros Hbody. induction xs as [|x xs IH]; intros acc.
  - apply agree_ret.
  - cbn [for_each TestParser.for_each]. apply agree_bind; [apply Hbody|exact IH].
Qed.

(** X26: the copy of the parser in test_parser.py agrees with the one of
    the integration on every tree: neither raises, they return the same
    dictionary, and the script prints "WARNING: " and the message for each
    record the integration logs, in the same order. *)
Theorem test_parser_agrees (soup : tag) (w : world) (out : list string) (w0 : world) :
  exists results records,
    parse_overview_data soup w
    = (Return results, {| clock := clock w; log := log w ++ records |})
    /\ TestParser.parse_overview_data soup out w0
       = (Return results, (out ++ (printed <$> records))%list, w0).
Proof.
  revert w out w0. change (agree (parse_overview_data soup)
                             (TestParser.parse_overview_data soup)).
  unfold parse_overview_data, TestParser.parse_overview_data.
  destruct (Soup.find_class "table" "snow" soup) as [table|].
  - apply agree_for_each. intros row acc. apply agree_parse_overview_row.
  - intros w out w0.
    exists ∅, [(WARNING, "Could not find overview data table with class 'snow'")].
    split; reflexivity.
Qed.
